(** * Culture Pulse: scoring and relative normalisation

    A shallow embedding of the scoring engine of the Culture Pulse radar
    chart ([DataPull/SportsData.py], [DataPull/PoliticsData.py],
    [DataPull/TechData.py], [DataPull/EnvironmentData.py]) and of the
    aggregator in [RadarChart.py] ([collect_all_data],
    [normalize_scores_relative], the points [create_radar_chart] plots
    and the control flow of [interactive_menu]).

    Numbers.  Python floats are idealised as exact rationals: [+], [-], [*]
    and [/] by a non-zero divisor are the operations of [Q], and
    [round(x, 2)] is rounding to the nearest multiple of 1/100, ties to the
    even multiple.  The special values of IEEE arithmetic are kept where
    the code can reach them (the mean of the scores can be zero in
    [normalize_scores_relative]): see [PyFloat] below.  Where the
    rounding of an operation decides what the code does, at a score
    equal to the mean of the scores, [Binary64] runs the same operations
    with the rounding of IEEE 754. *)

From Stdlib Require Import QArith Qround Qminmax Lqa ZArith Lia Ascii String.
From stdpp Require Import gmap strings list.

Local Open Scope Q_scope.

(** ** Python numbers on finite values *)

Module PyNum.

(** [int -> float] conversion of a length or a count. *)
Definition of_nat (n : nat) : Q := inject_Z (Z.of_nat n).

(** The builtin [min(a, b)]: the first argument is kept unless the
    second one is strictly smaller. *)
Definition py_min (a b : Q) : Q :=
  match b ?= a with
  | Lt => b
  | _ => a
  end.

(** Nearest integer, ties to even. *)
Definition round_half_even (q : Q) : Z :=
  let f := Qfloor q in
  match (q - inject_Z f ?= 1 # 2)%Q with
  | Lt => f
  | Gt => (f + 1)%Z
  | Eq => if Z.even f then f else (f + 1)%Z
  end.

(** [round(x, 2)]. *)
Definition round2 (q : Q) : Q :=
  Qred (inject_Z (round_half_even (q * 100)) / 100).

(** *** A reference power

    [float_pow] is a parameter of the sports scorer.  [pow_floor] is the
    instance used to run it: [x ** (a/b)] for [x >= 0], rounded down to
    nine decimals, as the integer [b]-th root of [x^a * 10^(9*b)]. *)

Fixpoint bisect (fuel : nat) (k : positive) (n lo hi : Z) : Z :=
  match fuel with
  | O => lo
  | S fuel' =>
      if (hi - lo <=? 1)%Z then lo
      else
        let mid := ((lo + hi) / 2)%Z in
        if (mid ^ Zpos k <=? n)%Z then bisect fuel' k n mid hi
        else bisect fuel' k n lo mid
  end.

(** The largest [m >= 0] with [m^k <= n], for [n >= 0]: it is below
    [2^(log2 n / k + 1)]. *)
Definition iroot (k : positive) (n : Z) : Z :=
  let hi := (2 ^ (Z.log2 n / Zpos k + 1))%Z in
  bisect (S (Z.to_nat (Z.log2_up hi))) k n 0 hi.

Definition pow_floor (x y : Q) : Q :=
  let scale := (10 ^ 9)%Z in
  let radicand := Qfloor (Qpower x (Qnum y) * inject_Z (scale ^ Zpos (Qden y))) in
  inject_Z (iroot (Qden y) radicand) / inject_Z scale.

End PyNum.

Import PyNum.

(** ** Floats with the special values

    [normalize_scores_relative] divides by the mean of the scores, a
    [numpy.float64]; a NumPy scalar division by zero does not raise, it
    warns and returns [nan] or an infinity.  Signed zeros are not
    modelled: a zero divisor counts as [+0.0]. *)

Module PyFloat.

Inductive t : Set :=
| Fin (q : Q)
| PInf
| NInf
| NaN.

(** Sign of a value: [Lt] negative, [Eq] zero (or [nan]), [Gt] positive. *)
Definition sign (x : t) : comparison :=
  match x with
  | Fin q => q ?= 0
  | PInf => Gt
  | NInf => Lt
  | NaN => Eq
  end.

Definition sign_mul (a b : comparison) : comparison :=
  match a, b with
  | Eq, _ | _, Eq => Eq
  | Gt, Gt | Lt, Lt => Gt
  | _, _ => Lt
  end.

(** The infinity of a given sign; [0 * inf] and [0 / 0] are [nan]. *)
Definition inf_of (c : comparison) : t :=
  match c with
  | Gt => PInf
  | Lt => NInf
  | Eq => NaN
  end.

Definition opp (x : t) : t :=
  match x with
  | Fin q => Fin (Qred (- q))
  | PInf => NInf
  | NInf => PInf
  | NaN => NaN
  end.

Definition add (x y : t) : t :=
  match x, y with
  | Fin a, Fin b => Fin (Qred (a + b))
  | NaN, _ | _, NaN => NaN
  | PInf, NInf | NInf, PInf => NaN
  | PInf, _ | _, PInf => PInf
  | NInf, _ | _, NInf => NInf
  end.

Definition sub (x y : t) : t := add x (opp y).

Definition mul (x y : t) : t :=
  match x, y with
  | Fin a, Fin b => Fin (Qred (a * b))
  | NaN, _ | _, NaN => NaN
  | _, _ => inf_of (sign_mul (sign x) (sign y))
  end.

Definition div (x y : t) : t :=
  match x, y with
  | NaN, _ | _, NaN => NaN
  | Fin a, Fin b =>
      if Qeq_bool b 0 then inf_of (sign x) else Fin (Qred (a / b))
  | Fin _, _ => Fin 0
  | _, Fin b =>
      inf_of (sign_mul (sign x) (if Qeq_bool b 0 then Gt else sign y))
  | _, _ => NaN
  end.

(** [x < y] and [x >= y]; every comparison with [nan] is false. *)
Definition ltb (x y : t) : bool :=
  match x, y with
  | NaN, _ | _, NaN => false
  | Fin a, Fin b => match a ?= b with Lt => true | _ => false end
  | NInf, NInf => false
  | NInf, _ => true
  | _, PInf => match x with PInf => false | _ => true end
  | _, _ => false
  end.

Definition geb (x y : t) : bool :=
  match x, y with
  | NaN, _ | _, NaN => false
  | _, _ => negb (ltb x y)
  end.

(** The builtin [min(a, b)] *)
Definition py_min (a b : t) : t := if ltb b a then b else a.

(** [round(x, 2)] *)
Definition round2 (x : t) : t :=
  match x with
  | Fin q => Fin (PyNum.round2 q)
  | _ => x
  end.

(** [numpy.mean]: the sum over the length, both exact; [nan] for no
    element. *)
Definition mean (xs : list t) : t :=
  div (foldl add (Fin 0) xs) (Fin (PyNum.of_nat (length xs))).

End PyFloat.

(** ** Exceptions

    A call either returns or raises; [try ... except] inspects the
    outcome. *)

Inductive exn : Set :=
| ValueError
| TypeError
| KeyError
| UnboundLocalError
| RequestException.

Inductive pyresult (A : Type) : Type :=
| Ok (a : A)
| Raise (e : exn).

Arguments Ok {A} a.
Arguments Raise {A} e.

#[global] Instance pyresult_ret : MRet pyresult := λ A a, Ok a.

#[global] Instance pyresult_bind : MBind pyresult := λ A B k m,
  match m with
  | Ok a => k a
  | Raise e => Raise e
  end.

(** ** Strings

    Titles and timestamps are sequences of 8-bit characters; [lower]
    changes the ASCII capitals only. *)

Module PyStr.

Definition lower_ascii (c : ascii) : ascii :=
  let n := nat_of_ascii c in
  if (65 <=? n)%nat && (n <=? 90)%nat then ascii_of_nat (n + 32) else c.

(** [s.lower()] *)
Fixpoint lower (s : string) : string :=
  match s with
  | EmptyString => EmptyString
  | String c s' => String (lower_ascii c) (lower s')
  end.

(** [kw in s]: [kw] occurs in [s] as a contiguous substring. *)
Fixpoint contains (kw s : string) : bool :=
  String.prefix kw s ||
  match s with
  | EmptyString => false
  | String _ s' => contains kw s'
  end.

(** [s.replace(old, new)] for a one-character [old]. *)
Fixpoint replace (old : ascii) (new : string) (s : string) : string :=
  match s with
  | EmptyString => EmptyString
  | String c s' =>
      if Ascii.eqb c old then new +:+ replace old new s'
      else String c (replace old new s')
  end.

(** Number of positions of [s] at which [kw] starts. *)
Fixpoint occurrences (kw s : string) : nat :=
  match s with
  | EmptyString => 0
  | String _ s' =>
      (if String.prefix kw s then 1 else 0) + occurrences kw s'
  end.

End PyStr.

(** ** [datetime]

    A [datetime] is its wall-clock reading, in microseconds since
    0001-01-01T00:00:00, with an optional UTC offset (microseconds); it is
    naive when it has no offset.  [timedelta] is a number of
    microseconds. *)

Module PyDatetime.

Record datetime : Set := mkdatetime {
  wall : Z;
  utcoffset : option Z
}.

Definition us_per_day : Z := 86400000000.

(** [datetime.now()]: naive, whatever the clock reads. *)
Definition datetime_now (clock : Z) : datetime :=
  {| wall := clock; utcoffset := None |}.

(** [a - b].  Two naive values are subtracted as they are, two aware
    ones after conversion to UTC; mixing them raises [TypeError]. *)
Definition sub (a b : datetime) : pyresult Z :=
  match utcoffset a, utcoffset b with
  | None, None => Ok (wall a - wall b)%Z
  | Some oa, Some ob => Ok ((wall a - oa) - (wall b - ob))%Z
  | _, _ => Raise TypeError
  end.

(** [delta.days]: a timedelta is normalised with
    [0 <= seconds < 86400], so [days] is the floor. *)
Definition days (delta : Z) : Z := (delta / us_per_day)%Z.

(** *** A reference parser

    [fromisoformat] is a parameter of the scorers.  [iso_basic] is the
    instance used to run them.  It accepts what [isoformat()] writes:
    [YYYY-MM-DD], alone or followed by one separator character and
    [HH], [HH:MM] or [HH:MM:SS], the latter with an optional fraction of
    three or six digits, and then an optional offset [+HH:MM] or
    [-HH:MM]; it raises [ValueError] on everything else. *)

Definition digit (c : ascii) : option Z :=
  let n := nat_of_ascii c in
  if (48 <=? n)%nat && (n <=? 57)%nat then Some (Z.of_nat (n - 48)) else None.

Definition number (cs : list ascii) : option Z :=
  foldl (λ acc c, a ← acc; d ← digit c; Some (10 * a + d)%Z) (Some 0%Z) cs.

Definition is_leap (y : Z) : bool :=
  ((y mod 4 =? 0) && negb (y mod 100 =? 0) || (y mod 400 =? 0))%Z.

Definition days_in_month (y m : Z) : Z :=
  if (m =? 2)%Z then (if is_leap y then 29 else 28)%Z
  else if ((m =? 4) || (m =? 6) || (m =? 9) || (m =? 11))%Z then 30%Z
  else 31%Z.

(** Days from 0001-01-01 to the given date of the proleptic Gregorian
    calendar. *)
Definition days_from_civil (y m d : Z) : Z :=
  let y' := (if m <=? 2 then y - 1 else y)%Z in
  let era := (y' / 400)%Z in
  let yoe := (y' - era * 400)%Z in
  let mp := (if m <=? 2 then m + 9 else m - 3)%Z in
  let doy := ((153 * mp + 2) / 5 + d - 1)%Z in
  let doe := (yoe * 365 + yoe / 4 - yoe / 100 + doy)%Z in
  (era * 146097 + doe - 306)%Z.

Definition parse_date (cs : list ascii) : option Z :=
  match cs with
  | [y1; y2; y3; y4; "-"; m1; m2; "-"; d1; d2]%char =>
      y ← number [y1; y2; y3; y4];
      m ← number [m1; m2];
      d ← number [d1; d2];
      if ((1 <=? y) && (1 <=? m) && (m <=? 12) && (1 <=? d)
          && (d <=? days_in_month y m))%Z
      then Some (days_from_civil y m d) else None
  | _ => None
  end.

Definition parse_fraction (cs : list ascii) : option Z :=
  match cs with
  | [] => Some 0%Z
  | ["."; f1; f2; f3]%char => f ← number [f1; f2; f3]; Some (f * 1000)%Z
  | ["."; f1; f2; f3; f4; f5; f6]%char => number [f1; f2; f3; f4; f5; f6]
  | _ => None
  end.

Definition clock_us (h m sec f : Z) : option Z :=
  if ((h <=? 23) && (m <=? 59) && (sec <=? 59))%Z
  then Some (((h * 60 + m) * 60 + sec) * 1000000 + f)%Z else None.

Definition parse_clock (cs : list ascii) : option Z :=
  match cs with
  | [h1; h2] => h ← number [h1; h2]; clock_us h 0 0 0
  | [h1; h2; ":"; m1; m2]%char =>
      h ← number [h1; h2];
      m ← number [m1; m2];
      clock_us h m 0 0
  | (h1 :: h2 :: ":" :: m1 :: m2 :: ":" :: s1 :: s2 :: rest)%char =>
      h ← number [h1; h2];
      m ← number [m1; m2];
      sec ← number [s1; s2];
      f ← parse_fraction rest;
      clock_us h m sec f
  | _ => None
  end.

Definition parse_offset (cs : list ascii) : option Z :=
  match cs with
  | [sign; h1; h2; ":"; m1; m2]%char =>
      h ← number [h1; h2];
      m ← number [m1; m2];
      if ((h <=? 23) && (m <=? 59))%Z
      then
        let off := ((h * 60 + m) * 60 * 1000000)%Z in
        if Ascii.eqb sign "+" then Some off
        else if Ascii.eqb sign "-" then Some (- off)%Z
        else None
      else None
  | _ => None
  end.

Definition is_sign (c : ascii) : bool := Ascii.eqb c "+" || Ascii.eqb c "-".

(** The time part up to the first sign, and the offset from it on. *)
Fixpoint split_offset (cs : list ascii) : list ascii * list ascii :=
  match cs with
  | [] => ([], [])
  | c :: cs' =>
      if is_sign c then ([], cs)
      else let '(t, o) := split_offset cs' in (c :: t, o)
  end.

Definition iso_basic (s : string) : pyresult datetime :=
  let cs := list_ascii_of_string s in
  let parsed :=
    day ← parse_date (take 10 cs);
    match drop 10 cs with
    | [] => Some (mkdatetime (day * us_per_day)%Z None)
    | _ :: rest =>
        let '(t, o) := split_offset rest in
        us ← parse_clock t;
        let w := (day * us_per_day + us)%Z in
        match o with
        | [] => Some (mkdatetime w None)
        | _ => off ← parse_offset o; Some (mkdatetime w (Some off))
        end
    end in
  match parsed with
  | Some dt => Ok dt
  | None => Raise ValueError
  end.

End PyDatetime.

Import PyDatetime.

(** ** The provider's response *)

(** One element of ["articles"].  A field is [None] when its key is absent
    or its value is [null].  The ["source"] object is a dictionary from
    keys (["id"], ["name"]) to strings or [null]. *)
Record article : Type := mkarticle {
  title : option string;
  source : option (gmap string (option string));
  publishedAt : option string
}.

(** The response body: [articles] is [None] when the key ["articles"] is
    absent, which includes the empty dictionary. *)
Record news_data : Type := mknews {
  articles : option (list article);
  totalResults : option Z
}.

(** Truth value of [article.get('source')]: false for [None] and for the
    empty dictionary. *)
Definition source_truthy (a : article) : bool :=
  match source a with
  | None => false
  | Some d => negb (bool_decide (d = ∅))
  end.

(** [article.get('source', {}).get('name')] *)
Definition source_name (a : article) : option string :=
  match source a with
  | None => None
  | Some d => mjoin (d !! "name"%string)
  end.

(** [len(set(article.get('source', {}).get('name')
             for article in articles if article.get('source')))] *)
Definition unique_source_count (arts : list article) : nat :=
  size (list_to_set (C := gset (option string))
          (source_name <$> List.filter source_truthy arts)).

(** [sum(1 for x in l if p(x))] *)
Definition sum_ones {A} (p : A → bool) (l : list A) : nat :=
  sum_list ((λ _, 1%nat) <$> List.filter p l).

(** ** Result dictionaries *)

(** A value stored in a result dictionary.  Python's [int] and [float]
    are not told apart ([0 == 0.0]). *)
Inductive pyval : Type :=
| VNum (x : PyFloat.t)
| VStr (s : string).

(** [d[k]] *)
Definition getitem (d : gmap string pyval) (k : string) : pyresult pyval :=
  match d !! k with
  | Some v => Ok v
  | None => Raise KeyError
  end.

Definition VInt (z : Z) : pyval := VNum (PyFloat.Fin (inject_Z z)).
Definition VCount (n : nat) : pyval := VNum (PyFloat.Fin (of_nat n)).

(** [not s] for an optional string: true for [None] and for ['']. *)
Definition str_falsy (s : option string) : bool :=
  match s with
  | None => true
  | Some s => bool_decide (s = EmptyString)
  end.

(** ** The standard profile

    [PoliticsData.py], [TechData.py] and [EnvironmentData.py] hold the same
    scorer three times; each copy is embedded as it stands. *)

Module PoliticsData.
Section Runtime.

(** [datetime.fromisoformat], which raises [ValueError] on a string it
    does not accept, and [datetime.isoformat]. *)
Variable fromisoformat : string → pyresult datetime.
Variable isoformat : datetime → string.

(** [self.api_key]; the outcome of [requests.get], [raise_for_status]
    and [json] for a query over the last [days_back] days; the
    successive readings of [datetime.now()] in one call. *)
Variable api_key : option string.
Variable requests_get : string → Z → pyresult news_data.
Variable clock : nat → Z.

Definition fetch_politics_news (days_back : Z) : pyresult news_data :=
  if str_falsy api_key then Raise ValueError
  else requests_get "politics OR government OR election OR policy OR legislation" days_back.

Definition _is_recent (published_at : option string) (now : datetime) : bool :=
  if str_falsy published_at then false
  else
    match
      pub_date ← fromisoformat
                   (PyStr.replace "Z" "+00:00" (default EmptyString published_at));
      delta ← PyDatetime.sub now pub_date;
      Ok (bool_decide (days delta < 1)%Z)
    with
    | Ok b => b
    | Raise _ => false
    end.

Definition calculate_pulse_score (data : option news_data) (now_us : Z) : Q :=
  match data with
  | None => 0
  | Some d =>
      match articles d with
      | None => 0
      | Some arts =>
          let volume_score := py_min 40 (of_nat (length arts) / 100 * 40) in
          let unique_sources := unique_source_count arts in
          let diversity_score := py_min 30 (of_nat unique_sources / 20 * 30) in
          let now := datetime_now now_us in
          let recent_articles :=
            sum_ones (λ a, _is_recent (publishedAt a) now) arts in
          let recency_score := py_min 30 (of_nat recent_articles / 30 * 30) in
          round2 (volume_score + diversity_score + recency_score)
      end
  end.

Definition get_politics_pulse (days_back : Z) : pyresult (gmap string pyval) :=
  data ← fetch_politics_news days_back;
  let pulse_score := calculate_pulse_score (Some data) (clock 0) in
  Ok {[ "category" := VStr "Politics";
        "pulse_score" := VNum (PyFloat.Fin pulse_score);
        "article_count" := VCount (length (default [] (articles data)));
        "total_results" := VInt (default 0%Z (totalResults data));
        "timestamp" := VStr (isoformat (datetime_now (clock 1)));
        "days_analyzed" := VInt days_back ]}.

End Runtime.
End PoliticsData.

Module TechData.
Section Runtime.

(** [datetime.fromisoformat], which raises [ValueError] on a string it
    does not accept, and [datetime.isoformat]. *)
Variable fromisoformat : string → pyresult datetime.
Variable isoformat : datetime → string.

(** [self.api_key]; the outcome of [requests.get], [raise_for_status]
    and [json] for a query over the last [days_back] days; the
    successive readings of [datetime.now()] in one call. *)
Variable api_key : option string.
Variable requests_get : string → Z → pyresult news_data.
Variable clock : nat → Z.

Definition fetch_tech_news (days_back : Z) : pyresult news_data :=
  if str_falsy api_key then Raise ValueError
  else requests_get "technology OR science OR AI OR innovation OR research OR tech" days_back.

Definition _is_recent (published_at : option string) (now : datetime) : bool :=
  if str_falsy published_at then false
  else
    match
      pub_date ← fromisoformat
                   (PyStr.replace "Z" "+00:00" (default EmptyString published_at));
      delta ← PyDatetime.sub now pub_date;
      Ok (bool_decide (days delta < 1)%Z)
    with
    | Ok b => b
    | Raise _ => false
    end.

Definition calculate_pulse_score (data : option news_data) (now_us : Z) : Q :=
  match data with
  | None => 0
  | Some d =>
      match articles d with
      | None => 0
      | Some arts =>
          let volume_score := py_min 40 (of_nat (length arts) / 100 * 40) in
          let unique_sources := unique_source_count arts in
          let diversity_score := py_min 30 (of_nat unique_sources / 20 * 30) in
          let now := datetime_now now_us in
          let recent_articles :=
            sum_ones (λ a, _is_recent (publishedAt a) now) arts in
          let recency_score := py_min 30 (of_nat recent_articles / 30 * 30) in
          round2 (volume_score + diversity_score + recency_score)
      end
  end.

Definition get_tech_pulse (days_back : Z) : pyresult (gmap string pyval) :=
  data ← fetch_tech_news days_back;
  let pulse_score := calculate_pulse_score (Some data) (clock 0) in
  Ok {[ "category" := VStr "Tech/Science";
        "pulse_score" := VNum (PyFloat.Fin pulse_score);
        "article_count" := VCount (length (default [] (articles data)));
        "total_results" := VInt (default 0%Z (totalResults data));
        "timestamp" := VStr (isoformat (datetime_now (clock 1)));
        "days_analyzed" := VInt days_back ]}.

End Runtime.
End TechData.

Module EnvironmentData.
Section Runtime.

(** [datetime.fromisoformat], which raises [ValueError] on a string it
    does not accept, and [datetime.isoformat]. *)
Variable fromisoformat : string → pyresult datetime.
Variable isoformat : datetime → string.

(** [self.api_key]; the outcome of [requests.get], [raise_for_status]
    and [json] for a query over the last [days_back] days; the
    successive readings of [datetime.now()] in one call. *)
Variable api_key : option string.
Variable requests_get : string → Z → pyresult news_data.
Variable clock : nat → Z.

Definition fetch_environment_news (days_back : Z) : pyresult news_data :=
  if str_falsy api_key then Raise ValueError
  else requests_get "climate OR environment OR sustainability OR renewable OR carbon OR green energy" days_back.

Definition _is_recent (published_at : option string) (now : datetime) : bool :=
  if str_falsy published_at then false
  else
    match
      pub_date ← fromisoformat
                   (PyStr.replace "Z" "+00:00" (default EmptyString published_at));
      delta ← PyDatetime.sub now pub_date;
      Ok (bool_decide (days delta < 1)%Z)
    with
    | Ok b => b
    | Raise _ => false
    end.

Definition calculate_pulse_score (data : option news_data) (now_us : Z) : Q :=
  match data with
  | None => 0
  | Some d =>
      match articles d with
      | None => 0
      | Some arts =>
          let volume_score := py_min 40 (of_nat (length arts) / 100 * 40) in
          let unique_sources := unique_source_count arts in
          let diversity_score := py_min 30 (of_nat unique_sources / 20 * 30) in
          let now := datetime_now now_us in
          let recent_articles :=
            sum_ones (λ a, _is_recent (publishedAt a) now) arts in
          let recency_score := py_min 30 (of_nat recent_articles / 30 * 30) in
          round2 (volume_score + diversity_score + recency_score)
      end
  end.

Definition get_environment_pulse (days_back : Z) : pyresult (gmap string pyval) :=
  data ← fetch_environment_news days_back;
  let pulse_score := calculate_pulse_score (Some data) (clock 0) in
  Ok {[ "category" := VStr "Environment";
        "pulse_score" := VNum (PyFloat.Fin pulse_score);
        "article_count" := VCount (length (default [] (articles data)));
        "total_results" := VInt (default 0%Z (totalResults data));
        "timestamp" := VStr (isoformat (datetime_now (clock 1)));
        "days_analyzed" := VInt days_back ]}.

End Runtime.
End EnvironmentData.

(** ** The high-intensity profile *)

Module SportsData.
Section Runtime.

Variable fromisoformat : string → pyresult datetime.
Variable isoformat : datetime → string.

(** [datetime.strptime(s, '%Y-%m-%d')] *)
Variable strptime : string → pyresult datetime.

(** [x ** y] on floats.  The power is not a rational in general, so the
    operation is a parameter of the model. *)
Variable float_pow : Q → Q → Q.

(** The request over the last [days_back] days, and the one over an
    explicit range of dates. *)
Variable api_key : option string.
Variable requests_get : string → Z → pyresult news_data.
Variable requests_get_range : string → datetime → datetime → pyresult news_data.
Variable clock : nat → Z.

Definition fetch_sports_news (days_back : Z) (start_date end_date : option string)
    : pyresult news_data :=
  if str_falsy api_key then Raise ValueError
  else
    let q := "sports OR football OR basketball OR baseball OR soccer"%string in
    if negb (str_falsy start_date) && negb (str_falsy end_date) then
      start_date_obj ← strptime (default EmptyString start_date);
      end_date_obj ← strptime (default EmptyString end_date);
      requests_get_range q start_date_obj end_date_obj
    else requests_get q days_back.

Definition sports_keywords : list string :=
  ["super bowl"; "championship"; "playoffs"; "finals";
   "world cup"; "olympics"; "game"; "victory"; "win"; "score"]%string.

Definition _is_recent (published_at : option string) (now : datetime) : bool :=
  if str_falsy published_at then false
  else
    match
      pub_date ← fromisoformat
                   (PyStr.replace "Z" "+00:00" (default EmptyString published_at));
      delta ← PyDatetime.sub now pub_date;
      Ok (bool_decide (days delta < 1)%Z)
    with
    | Ok b => b
    | Raise _ => false
    end.

(** [(article.get('title') or '').lower()] *)
Definition lowered_title (a : article) : string :=
  PyStr.lower (default EmptyString (title a)).

(** The loop [for article in articles: keyword_count += sum(1 for kw in
    sports_keywords if kw in title)]. *)
Definition keyword_count (arts : list article) : nat :=
  foldl (λ count a,
           count + sum_ones (λ kw, PyStr.contains kw (lowered_title a))
                            sports_keywords)%nat
        0%nat arts.

Definition calculate_pulse_score (data : option news_data) (now_us : Z) : Q :=
  match data with
  | None => 0
  | Some d =>
      match articles d with
      | None => 0
      | Some arts =>
          let article_ratio := of_nat (length arts) / 100 in
          let volume_score := py_min 35 (float_pow article_ratio (7 # 10) * 35) in
          let unique_sources := unique_source_count arts in
          let diversity_score := py_min 25 (of_nat unique_sources / 20 * 25) in
          let now := datetime_now now_us in
          let recent_articles :=
            sum_ones (λ a, _is_recent (publishedAt a) now) arts in
          let recency_score := py_min 40 (of_nat recent_articles / 20 * 40) in
          let keyword_intensity :=
            py_min 15 (of_nat (keyword_count arts) / 30 * 15) in
          let total_score :=
            volume_score + diversity_score + recency_score + keyword_intensity in
          round2 (py_min 100 total_score)
      end
  end.

Definition get_sports_pulse (days_back : Z) (start_date end_date : option string)
    : pyresult (gmap string pyval) :=
  data ← fetch_sports_news days_back start_date end_date;
  let pulse_score := calculate_pulse_score (Some data) (clock 0) in
  Ok {[ "category" := VStr "Sports";
        "pulse_score" := VNum (PyFloat.Fin pulse_score);
        "article_count" := VCount (length (default [] (articles data)));
        "total_results" := VInt (default 0%Z (totalResults data));
        "timestamp" := VStr (isoformat (datetime_now (clock 1)));
        "days_analyzed" := VInt days_back ]}.

End Runtime.
End SportsData.

(** ** The pullers that are not in the repository *)

Module StandardProfile.
Section Runtime.

Variable fromisoformat : string → pyresult datetime.
Variable isoformat : datetime → string.
Variable clock : nat → Z.

(** The category's [fetch_*_news], whose query is not known. *)
Variable fetch_news : Z → pyresult news_data.

(** Modelled from the spec: [EconomyData.py], [TrendsData.py],
    [EntertainmentData.py] and [HealthData.py] are imported by
    [RadarChart.py] but absent.  Section 4.1 gives economy, trends,
    entertainment and health the scorer of politics, and section 6 the
    shape of the result of one scoring run. *)
Definition get_pulse (category : string) (days_back : Z)
    : pyresult (gmap string pyval) :=
  data ← fetch_news days_back;
  let pulse_score :=
    PoliticsData.calculate_pulse_score fromisoformat (Some data) (clock 0) in
  Ok {[ "category" := VStr category;
        "pulse_score" := VNum (PyFloat.Fin pulse_score);
        "article_count" := VCount (length (default [] (articles data)));
        "total_results" := VInt (default 0%Z (totalResults data));
        "timestamp" := VStr (isoformat (datetime_now (clock 1)));
        "days_analyzed" := VInt days_back ]}.

End Runtime.
End StandardProfile.

(** ** The aggregator ([RadarChart.py]) *)

Module RadarChart.

(** The zero-valued entry added when a category fails. *)
Definition placeholder (category : string) : gmap string pyval :=
  {[ "category" := VStr category;
     "pulse_score" := VInt 0;
     "article_count" := VInt 0;
     "total_results" := VInt 0 ]}.

(** The categories of the list [pullers], in its order.  A puller
    object holds nothing but the API key. *)
Definition pullers : list string :=
  ["Sports"; "Politics"; "Tech/Science"; "Economy"; "Trends";
   "Entertainment"; "Health"; "Environment"]%string.

Section Runtime.

Variable fromisoformat : string → pyresult datetime.
Variable isoformat : datetime → string.
Variable strptime : string → pyresult datetime.
Variable float_pow : Q → Q → Q.
Variable api_key : option string.
Variable requests_get : string → Z → pyresult news_data.
Variable requests_get_range : string → datetime → datetime → pyresult news_data.

(** The clock readings of each category's call, and the
    [fetch_*_news] of the four absent pullers, by category. *)
Variable clock : string → nat → Z.
Variable fetch_absent : string → Z → pyresult news_data.

(** The [if category == ... elif ...] chain.  [data] is the variable of
    that name, which keeps its value when no branch assigns it. *)
Definition get_pulse_data (category : string) (data : option (gmap string pyval))
    (days_back : Z) (start_date end_date : option string)
    : pyresult (gmap string pyval) :=
  if String.eqb category "Sports" then
    SportsData.get_sports_pulse fromisoformat isoformat strptime float_pow
      api_key requests_get requests_get_range (clock category)
      days_back start_date end_date
  else if String.eqb category "Politics" then
    PoliticsData.get_politics_pulse fromisoformat isoformat api_key
      requests_get (clock category) days_back
  else if String.eqb category "Tech/Science" then
    TechData.get_tech_pulse fromisoformat isoformat api_key
      requests_get (clock category) days_back
  else if String.eqb category "Economy" then
    StandardProfile.get_pulse fromisoformat isoformat (clock category)
      (fetch_absent category) category days_back
  else if String.eqb category "Trends" then
    StandardProfile.get_pulse fromisoformat isoformat (clock category)
      (fetch_absent category) category days_back
  else if String.eqb category "Entertainment" then
    StandardProfile.get_pulse fromisoformat isoformat (clock category)
      (fetch_absent category) category days_back
  else if String.eqb category "Health" then
    StandardProfile.get_pulse fromisoformat isoformat (clock category)
      (fetch_absent category) category days_back
  else if String.eqb category "Environment" then
    EnvironmentData.get_environment_pulse fromisoformat isoformat api_key
      requests_get (clock category) days_back
  else
    match data with
    | Some d => Ok d
    | None => Raise UnboundLocalError
    end.

(** One turn of the loop: the [try] block assigns [data], appends it and
    prints its score; [except Exception] appends the placeholder. *)
Definition collect_step (days_back : Z) (start_date end_date : option string)
    (st : list (gmap string pyval) * option (gmap string pyval))
    (category : string)
    : list (gmap string pyval) * option (gmap string pyval) :=
  let '(all_data, data) := st in
  match get_pulse_data category data days_back start_date end_date with
  | Raise _ => (all_data ++ [placeholder category], data)
  | Ok d =>
      match getitem d "pulse_score" with
      | Ok _ => (all_data ++ [d], Some d)
      | Raise _ => ((all_data ++ [d]) ++ [placeholder category], Some d)
      end
  end.

Definition collect_all_data (days_back : Z) (end_date start_date : option string)
    : list (gmap string pyval) :=
  (foldl (collect_step days_back start_date end_date) ([], None) pullers).1.

End Runtime.

(** *** Relative normalisation

    The dictionaries handed to [normalize_scores_relative] are objects:
    they live in a store, and the list holds references to them. *)

Abbreviation heap := (gmap nat (gmap string pyval)).

(** The dictionary behind a reference; a reference always points into
    the store. *)
Definition deref (h : heap) (l : nat) : gmap string pyval :=
  default ∅ (h !! l).

(** A dictionary display creates a new object. *)
Definition alloc (h : heap) (d : gmap string pyval) : nat * heap :=
  let l := fresh (dom h) in (l, <[l := d]> h).

Definition as_num (v : pyval) : pyresult PyFloat.t :=
  match v with
  | VNum x => Ok x
  | VStr _ => Raise TypeError
  end.

(** The builtins [max] and [min] on a list. *)
Definition max_list (xs : list PyFloat.t) : pyresult PyFloat.t :=
  match xs with
  | [] => Raise ValueError
  | x :: xs' => Ok (foldl (λ m y, if PyFloat.ltb m y then y else m) x xs')
  end.

Definition min_list (xs : list PyFloat.t) : pyresult PyFloat.t :=
  match xs with
  | [] => Raise ValueError
  | x :: xs' => Ok (foldl (λ m y, if PyFloat.ltb y m then y else m) x xs')
  end.

(** The two branches of the loop body. *)
Definition new_score (original_score avg_score : PyFloat.t) : PyFloat.t :=
  if PyFloat.geb original_score avg_score then
    let boost_factor :=
      PyFloat.add (PyFloat.Fin 1)
        (PyFloat.mul
           (PyFloat.div (PyFloat.sub original_score avg_score) avg_score)
           (PyFloat.Fin 2)) in
    PyFloat.py_min (PyFloat.Fin 100) (PyFloat.mul original_score boost_factor)
  else
    let suppress_factor := PyFloat.div original_score avg_score in
    PyFloat.mul (PyFloat.mul original_score suppress_factor)
                (PyFloat.Fin (8 # 10)).

(** [{**d, 'pulse_score': round(new_score, 2), 'original_score':
    original_score}] *)
Definition normalized_dict (d : gmap string pyval)
    (original_score : pyval) (new : PyFloat.t) : gmap string pyval :=
  <["original_score" := original_score]>
    (<["pulse_score" := VNum (PyFloat.round2 new)]> d).

(** The loop [for d in data], with the store and [normalized_data]. *)
Fixpoint normalize_loop (avg_score : PyFloat.t) (data : list nat)
    (h : heap) (normalized_data : list nat) : pyresult (list nat * heap) :=
  match data with
  | [] => Ok (normalized_data, h)
  | l :: data' =>
      let d := deref h l in
      original_score ← getitem d "pulse_score";
      x ← as_num original_score;
      let '(l', h') :=
        alloc h (normalized_dict d original_score (new_score x avg_score)) in
      normalize_loop avg_score data' h' (normalized_data ++ [l'])
  end.

Definition normalize_scores_relative (h : heap) (data : list nat)
    : pyresult (list nat * heap) :=
  match data with
  | [] => Ok (data, h)
  | _ =>
      scores ← mapM (λ l, getitem (deref h l) "pulse_score") data;
      nums ← mapM as_num scores;
      max_score ← max_list nums;
      min_score ← min_list nums;
      let avg_score := PyFloat.mean nums in
      normalize_loop avg_score data h []
  end.

(** *** Chart points

    [create_radar_chart] reads the categories and the scores of the
    list, spreads the axes over the circle and closes the polygon. *)

(** [xs + xs[:1]] *)
Definition close_polygon {A} (xs : list A) : list A := xs ++ take 1 xs.

(** [np.linspace(0, two_pi, num_vars, endpoint=False).tolist()], where
    [two_pi] is the float [2 * np.pi]: the multiples of the step
    [two_pi / num_vars]. *)
Definition linspace_open (two_pi : Q) (num_vars : nat) : list Q :=
  (λ i, of_nat i * (two_pi / of_nat num_vars)) <$> seq 0 num_vars.

(** What [create_radar_chart] hands to the plot: [self.categories] (the
    tick labels), [self.scores] and [angles] after closing, and the tick
    positions [angles[:-1]]. *)
Record chart_points : Type := mkpoints {
  categories : list pyval;
  scores : list pyval;
  angles : list Q;
  xticks : list Q
}.

Definition radar_chart_points (two_pi : Q) (h : heap) (data : list nat)
    : pyresult chart_points :=
  categories ← mapM (λ l, getitem (deref h l) "category") data;
  scores ← mapM (λ l, getitem (deref h l) "pulse_score") data;
  let num_vars := length categories in
  let angles := linspace_open two_pi num_vars in
  let scores := close_polygon scores in
  let angles := close_polygon angles in
  Ok (mkpoints categories scores angles (take (length angles - 1) angles)).

(** *** The menu

    [collect_all_data] builds its dictionaries as objects: [store_all]
    places the dictionaries of a collected list in the store, in order,
    and gives the list of references that [all_data] is. *)
Fixpoint store_all (h : heap) (ds : list (gmap string pyval)) : list nat * heap :=
  match ds with
  | [] => ([], h)
  | d :: ds' =>
      let '(l, h1) := alloc h d in
      let '(ls, h2) := store_all h1 ds' in
      (l :: ls, h2)
  end.

(** Reading a local variable of a function: [UnboundLocalError] as long
    as no assignment to it has been executed. *)
Definition read_local {A} (v : option A) : pyresult A :=
  match v with
  | Some a => Ok a
  | None => Raise UnboundLocalError
  end.

(** A [for] loop whose body can raise. *)
Fixpoint for_each {S A} (body : S → A → pyresult S) (st : S) (xs : list A)
    : pyresult S :=
  match xs with
  | [] => Ok st
  | x :: xs' => st' ← body st x; for_each body st' xs'
  end.

Section Menu.

(** The lines typed, stripped: the [n]-th [input(...).strip()] of the
    run.  [int(s)], which raises [ValueError] on a string that is no
    integer, and the text of an integer in an f-string. *)
Variable typed : nat → string.
Variable py_int : string → pyresult Z.
Variable py_str : Z → string.

(** The [n]-th call of [radar.collect_all_data] in the run, with its
    arguments [days_back], [end_date] and [start_date]. *)
Variable collect : nat → Z → option string → option string → list (gmap string pyval).

(** The display methods, which read the dictionaries and print or draw:
    [print_summary(data)], [create_radar_chart(data, save_path,
    title_suffix)] and [create_comparison_chart(datasets, save_path)].
    [datat] is the call of that name in choice 4, a name the module does
    not define. *)
Variable print_summary : heap → list nat → pyresult unit.
Variable create_radar_chart : heap → list nat → string → string → pyresult unit.
Variable create_comparison_chart : heap → list (string * list nat) → string → pyresult unit.
Variable datat : pyresult unit.

(** [int(s) if s else default] *)
Definition int_or (s : string) (default : Z) : pyresult Z :=
  if bool_decide (s = EmptyString) then Ok default else py_int s.

(** The state of the loops of choices 3 and 4: the store, the local
    variable [data] and the list [datasets]. *)
Definition loop_state : Type := heap * option (list nat) * list (string * list nat).

(** The body of the loop of choice 3, for period [i]. *)
Definition compare_step (st : loop_state) (i : nat) : pyresult loop_state :=
  let '(h, data, datasets) := st in
  days ← int_or (typed (2 + 2 * i)) (7 * (Z.of_nat i + 1))%Z;
  let label := typed (3 + 2 * i) in
  let label :=
    if bool_decide (label = EmptyString)
    then ("Last " ++ py_str days ++ " days")%string else label in
  d ← read_local data;
  '(d, h) ← normalize_scores_relative h d;
  let '(d, h) := store_all h (collect i days None None) in
  Ok (h, Some d, datasets ++ [(label, d)]).

(** The body of the loop of choice 4, for the [i]-th preset. *)
Definition historical_step (st : loop_state) (p : nat * (Z * string))
    : pyresult loop_state :=
  let '(h, data, datasets) := st in
  let '(i, (days, label)) := p in
  d ← read_local data;
  prin ← normalize_scores_relative h d;
  let h := prin.2 in
  _ ← datat;
  let '(d, h) := store_all h (collect i days None None) in
  scores ← mapM (λ l, getitem (deref h l) "pulse_score") d;
  _ ← mapM as_num scores;
  Ok (h, Some d, datasets ++ [(label, d)]).

Definition interactive_menu : pyresult unit :=
  let choice := typed 0 in
  if String.eqb choice "1" then
    let '(pulse_data, h) := store_all ∅ (collect 0 7%Z None None) in
    '(pulse_data, h) ← normalize_scores_relative h pulse_data;
    _ ← print_summary h pulse_data;
    create_radar_chart h pulse_data "culture_pulse_radar.png" ""
  else if String.eqb choice "2" then
    days ← int_or (typed 1) 7%Z;
    pulse_data ← read_local None;
    '(pulse_data, h) ← normalize_scores_relative ∅ pulse_data;
    let '(pulse_data, h) := store_all h (collect 0 days None None) in
    _ ← print_summary h pulse_data;
    create_radar_chart h pulse_data
      ("culture_pulse_" ++ py_str days ++ "days.png")%string
      ("Last " ++ py_str days ++ " Days Analysis")%string
  else if String.eqb choice "3" then
    num_periods ← int_or (typed 1) 2%Z;
    let num_periods := Z.min 5 (Z.max 2 num_periods) in
    '(h, _, datasets) ← for_each compare_step (∅, None, [])
                          (seq 0 (Z.to_nat num_periods));
    create_comparison_chart h datasets "culture_pulse_comparison.png"
  else if String.eqb choice "4" then
    '(h, _, datasets) ← for_each historical_step (∅, None, [])
                          [(0, (7%Z, "Last Week")); (1, (14%Z, "Last 2 Weeks"));
                           (2, (30%Z, "Last Month"))]%nat;
    _ ← create_comparison_chart h datasets "culture_pulse_historical.png";
    _ ← for_each (λ (_ : unit) (p : string * list nat), print_summary h p.2)
          tt datasets;
    Ok tt
  else if String.eqb choice "5" then
    let date_choice := typed 1 in
    let '(specific_date, label) :=
      if String.eqb date_choice "1"
      then ("2026-02-09", "Super Bowl Sunday")
      else (typed 2, ("Date: " ++ typed 2)%string) in
    let '(pulse_data, h) :=
      store_all ∅ (collect 0 1%Z (Some specific_date) (Some specific_date)) in
    '(pulse_data, h) ← normalize_scores_relative h pulse_data;
    _ ← print_summary h pulse_data;
    create_radar_chart h pulse_data
      ("culture_pulse_" ++ PyStr.replace "-" "" specific_date ++ ".png")%string label
  else Ok tt.

End Menu.

End RadarChart.

(** ** Binary64 arithmetic

    The same operations with the rounding of IEEE 754 binary64, to run
    the normalisation on concrete scores where the rounding of the mean
    decides the branch.  Numbers stay rationals: an operation gives the
    double nearest to its exact result, ties to the even mantissa.  Only
    the range of the normal numbers is covered (no overflow, no
    subnormal results), which is where sums, products and quotients of
    scores lie. *)

Module Binary64.

(** The double nearest to [q]: [m * 2^e] with a mantissa
    [2^52 <= m <= 2^53]. *)
Definition nearest (q : Q) : Q :=
  match Qnum q with
  | 0%Z => 0
  | _ =>
      let a := if (Qnum q <? 0)%Z then - q else q in
      let e0 := (Z.log2 (Qnum a) - Z.log2 (Zpos (Qden a)) - 52)%Z in
      let e :=
        if Qle_bool (inject_Z (2 ^ 52)) (a * Qpower 2 (- e0)) then e0
        else (e0 - 1)%Z in
      let m := PyNum.round_half_even (a * Qpower 2 (- e)) in
      Qred ((if (Qnum q <? 0)%Z then - inject_Z m else inject_Z m) * Qpower 2 e)
  end.

Definition rnd (x : PyFloat.t) : PyFloat.t :=
  match x with
  | PyFloat.Fin q => PyFloat.Fin (nearest q)
  | _ => x
  end.

(** A float literal, and the float a decimal string denotes. *)
Definition of_decimal (q : Q) : PyFloat.t := PyFloat.Fin (nearest q).

Definition add (x y : PyFloat.t) : PyFloat.t := rnd (PyFloat.add x y).
Definition sub (x y : PyFloat.t) : PyFloat.t := rnd (PyFloat.sub x y).
Definition mul (x y : PyFloat.t) : PyFloat.t := rnd (PyFloat.mul x y).
Definition div (x y : PyFloat.t) : PyFloat.t := rnd (PyFloat.div x y).

(** [round(x, 2)]: the decimal with two places nearest to the exact
    value of [x], and the double nearest to that decimal. *)
Definition round2 (x : PyFloat.t) : PyFloat.t :=
  match x with
  | PyFloat.Fin q => PyFloat.Fin (nearest (PyNum.round2 q))
  | _ => x
  end.

(** The sum NumPy computes for a contiguous array of doubles.  Fewer
    than eight numbers are added from left to right; up to 128 numbers
    are added into eight accumulators, which are then added in pairs,
    and the rest is added from left to right; a longer array is cut in
    two. *)
Fixpoint add_blocks (k : nat) (r xs : list PyFloat.t)
    : list PyFloat.t * list PyFloat.t :=
  match k with
  | O => (r, xs)
  | S k' => add_blocks k' (zip_with add r (take 8 xs)) (drop 8 xs)
  end.

Fixpoint pairwise_sum (fuel : nat) (a : list PyFloat.t) : PyFloat.t :=
  let n := length a in
  if (n <? 8)%nat then foldl add (PyFloat.Fin 0) a
  else if (n <=? 128)%nat then
    let '(r, rest) := add_blocks (n / 8 - 1) (take 8 a) (drop 8 a) in
    match r with
    | [r0; r1; r2; r3; r4; r5; r6; r7] =>
        foldl add
          (add (add (add r0 r1) (add r2 r3)) (add (add r4 r5) (add r6 r7)))
          rest
    | _ => PyFloat.NaN
    end
  else
    match fuel with
    | O => PyFloat.NaN
    | S fuel' =>
        let n2 := (n / 2 - (n / 2) mod 8)%nat in
        add (pairwise_sum fuel' (take n2 a)) (pairwise_sum fuel' (drop n2 a))
    end.

(** [numpy.mean] of a list of floats: the sum over the length. *)
Definition mean (xs : list PyFloat.t) : PyFloat.t :=
  div (pairwise_sum (length xs) xs) (PyFloat.Fin (PyNum.of_nat (length xs))).

(** The two branches of the loop body of [normalize_scores_relative],
    operation by operation. *)
Definition new_score (original_score avg_score : PyFloat.t) : PyFloat.t :=
  if PyFloat.geb original_score avg_score then
    let boost_factor :=
      add (PyFloat.Fin 1)
        (mul (div (sub original_score avg_score) avg_score) (PyFloat.Fin 2)) in
    PyFloat.py_min (PyFloat.Fin 100) (mul original_score boost_factor)
  else
    let suppress_factor := div original_score avg_score in
    mul (mul original_score suppress_factor) (of_decimal (8 # 10)).


End Binary64.

(** ** The quantities the specification names *)

Module Spec.

(** The source names of an article set: the name of every article that
    has a source object. *)
Definition source_names (arts : list article) : list (option string) :=
  source_name <$> List.filter source_truthy arts.

(** The number of distinct source names. *)
Definition distinct_sources (arts : list article) : nat :=
  length (remove_dups (source_names arts)).

(** The source name of an article, as the spec has it: a non-empty
    string, or absent. *)
Definition name_of (a : article) : option string :=
  match source_name a with
  | Some s => if bool_decide (s = EmptyString) then None else Some s
  | None => None
  end.

(** The number of distinct (non-empty) source names of an article
    set. *)
Definition named_sources (arts : list article) : nat :=
  length (remove_dups (omap name_of arts)).

(** An article with a source object that gives no name, and one whose
    source gives the empty name. *)
Definition nameless (a : article) : bool :=
  source_truthy a && bool_decide (source_name a = None).

Definition empty_named (a : article) : bool :=
  bool_decide (source_name a = Some EmptyString).

(** The distinct source names, an absent name and an empty name of an
    article with a source object counting as one name each. *)
Definition counted_sources (arts : list article) : nat :=
  (named_sources arts
   + (if existsb nameless arts then 1 else 0)
   + (if existsb empty_named arts then 1 else 0))%nat.

(** The timestamp an ISO-8601 string denotes, its suffix [Z] standing
    for the offset [+00:00]. *)
Definition parse_timestamp (fromisoformat : string → pyresult datetime)
    (s : string) : pyresult datetime :=
  fromisoformat (PyStr.replace "Z" "+00:00" s).

(** How much older than the clock reading [now_us] a timestamp is.  The
    clock reads local time, [tz] microseconds ahead of UTC; a timestamp
    without offset is local time, one with an offset is an instant. *)
Definition age (tz now_us : Z) (d : datetime) : Z :=
  match utcoffset d with
  | None => (now_us - wall d)%Z
  | Some off => ((now_us - tz) - (wall d - off))%Z
  end.

(** An article is recent: its timestamp is present, parseable, and less
    than one whole day older than now. *)
Definition recent (fromisoformat : string → pyresult datetime) (tz now_us : Z)
    (a : article) : bool :=
  match publishedAt a with
  | None => false
  | Some s =>
      if bool_decide (s = EmptyString) then false
      else
        match parse_timestamp fromisoformat s with
        | Ok d => bool_decide (age tz now_us d / us_per_day < 1)%Z
        | Raise _ => false
        end
  end.

(** The number of recent articles of an article set. *)
Definition recent_articles (fromisoformat : string → pyresult datetime)
    (tz now_us : Z) (arts : list article) : nat :=
  length (List.filter (recent fromisoformat tz now_us) arts).

(** No timestamp of the article carries an offset: it is absent, not
    parseable, or denotes a local time. *)
Definition offset_free (fromisoformat : string → pyresult datetime)
    (a : article) : Prop :=
  ∀ s w off, publishedAt a = Some s →
    parse_timestamp fromisoformat s ≠ Ok (mkdatetime w (Some off)).

(** The standard profile's total for [n] articles, [u] distinct sources
    and [r] recent articles. *)
Definition standard_score (n u r : nat) : Q :=
  round2 (Qmin 40 (of_nat n / 100 * 40)
          + Qmin 30 (of_nat u / 20 * 30)
          + Qmin 30 (of_nat r / 30 * 30)).

(** The high-intensity profile's total, with [k] keyword hits. *)
Definition sports_score (float_pow : Q → Q → Q) (n u r k : nat) : Q :=
  round2 (Qmin 100
            (Qmin 35 (float_pow (of_nat n / 100) (7 # 10) * 35)
             + Qmin 25 (of_nat u / 20 * 25)
             + Qmin 40 (of_nat r / 20 * 40)
             + Qmin 15 (of_nat k / 30 * 15))).

(** The title of an article as the keyword scan reads it. *)
Definition scanned_title (a : article) : string :=
  PyStr.lower (default EmptyString (title a)).

(** Total number of occurrences of the keywords, over all titles. *)
Definition keyword_occurrences (arts : list article) : nat :=
  sum_list ((λ a, sum_list ((λ kw, PyStr.occurrences kw (scanned_title a))
                              <$> SportsData.sports_keywords)) <$> arts).

(** Number of pairs of an article and a keyword such that the keyword
    occurs in the article's title. *)
Definition keyword_hits (arts : list article) : nat :=
  length (List.filter (λ p, PyStr.contains p.2 (scanned_title p.1))
            (list_prod arts SportsData.sports_keywords)).

(** A score the scorers can return: a multiple of 1/100 between 0 and
    100. *)
Definition pulse_score_value (q : Q) : Prop :=
  0 <= q <= 100 ∧ ∃ k : Z, q == inject_Z k / 100.

(** The dictionary behind [l] has the number [x] as its score. *)
Definition scored (h : gmap nat (gmap string pyval)) (l : nat) (x : PyFloat.t) : Prop :=
  h !! l = Some (RadarChart.deref h l) ∧
  RadarChart.deref h l !! "pulse_score"%string = Some (VNum x).

(** [l'] is the new dictionary made from the one behind [l]. *)
Definition normalized_from (avg : PyFloat.t) (h h' : gmap nat (gmap string pyval))
    (l l' : nat) : Prop :=
  ∃ x, RadarChart.deref h l !! "pulse_score"%string = Some (VNum x)
       ∧ (l' ∉ dom h)
       ∧ h' !! l' = Some (RadarChart.normalized_dict (RadarChart.deref h l) (VNum x) (RadarChart.new_score x avg)).


(** The entry of a category in the collected list: what its puller
    returned, or the placeholder when the call raised. *)
Definition category_entry (result : pyresult (gmap string pyval)) (category : string)
    : gmap string pyval :=
  match result with
  | Ok d => d
  | Raise _ => RadarChart.placeholder category
  end.

(** A result dictionary names its category and carries a score. *)
Definition well_labelled (category : string) (d : gmap string pyval) : Prop :=
  d !! "category"%string = Some (VStr category) ∧ is_Some (d !! "pulse_score"%string).

(** The timestamp of an article is missing, or parses to a datetime that
    carries an offset. *)
Definition aware_or_missing (fromisoformat : string → pyresult datetime)
    (a : article) : Prop :=
  match publishedAt a with
  | None => True
  | Some s =>
      ∃ w off, fromisoformat (PyStr.replace "Z" "+00:00" s) = Ok (mkdatetime w (Some off))
  end.

(** The exact mean of rational scores. *)
Definition mean (qs : list Q) : Q :=
  foldr Qplus 0 qs / of_nat (length qs).

End Spec.

(** * Properties *)

(** ** Arithmetic of the model *)

(** [lra] does not read a division: a division by a numeral is turned
    into the product with its inverse first. *)
Ltac lra_div :=
  unfold Qdiv in *;
  repeat match goal with
         | |- context [Qinv (?n # ?d)] =>
             let v := eval vm_compute in (Qinv (n # d)) in
             change (Qinv (n # d)) with v in *
         | H : context [Qinv (?n # ?d)] |- _ =>
             let v := eval vm_compute in (Qinv (n # d)) in
             change (Qinv (n # d)) with v in *
         end;
  repeat match goal with
         | |- context [inject_Z ?z] => generalize dependent (inject_Z z); intros
         end;
  lra.

Section Arithmetic.

Lemma py_min_Qmin a b : py_min a b = Qmin a b.
Proof.
  unfold py_min, Qmin, GenericMinMax.gmin.
  rewrite <- (Qcompare_antisym a b). destruct (a ?= b); reflexivity.
Qed.

Lemma py_min_le_l a b : py_min a b <= a.
Proof. rewrite py_min_Qmin. apply Q.le_min_l. Qed.

Lemma py_min_le_r a b : py_min a b <= b.
Proof. rewrite py_min_Qmin. apply Q.le_min_r. Qed.

Lemma py_min_nonneg a b : 0 <= a → 0 <= b → 0 <= py_min a b.
Proof. intros. rewrite py_min_Qmin. apply Q.min_glb; assumption. Qed.

Lemma of_nat_nonneg n : 0 <= of_nat n.
Proof.
  unfold of_nat. change 0 with (inject_Z 0). rewrite <- Zle_Qle. lia.
Qed.

Lemma round_half_even_bounds q :
  (Qfloor q <= round_half_even q <= Qfloor q + 1)%Z.
Proof.
  unfold round_half_even.
  destruct (q - inject_Z (Qfloor q) ?= 1 # 2); [destruct (Z.even _)|..]; lia.
Qed.


Lemma round_half_even_mono x y :
  x <= y → (round_half_even x <= round_half_even y)%Z.
Proof.
  intros Hxy.
  pose proof (Qfloor_resp_le _ _ Hxy) as Hf.
  pose proof (round_half_even_bounds x) as Hx.
  pose proof (round_half_even_bounds y) as Hy.
  destruct (Z.eq_dec (Qfloor x) (Qfloor y)) as [E|N]; [|lia].
  unfold round_half_even in *. rewrite <- E in *.
  destruct (x - inject_Z (Qfloor x) ?= 1 # 2) eqn:Cx;
    destruct (y - inject_Z (Qfloor x) ?= 1 # 2) eqn:Cy;
    try (destruct (Z.even (Qfloor x))); try lia;
    try rewrite <- Qeq_alt in Cx; try rewrite <- Qeq_alt in Cy;
    try rewrite <- Qlt_alt in Cx; try rewrite <- Qlt_alt in Cy;
    try rewrite <- Qgt_alt in Cx; try rewrite <- Qgt_alt in Cy; lra.
Qed.

(** Rounding moves a number by at most one half. *)
Lemma round_half_even_close q :
  q - (1 # 2) <= inject_Z (round_half_even q) <= q + (1 # 2).
Proof.
  pose proof (Qfloor_le q) as Hlo. pose proof (Qlt_floor q) as Hhi.
  rewrite inject_Z_plus in Hhi.
  unfold round_half_even.
  destruct (q - inject_Z (Qfloor q) ?= 1 # 2) eqn:C;
    [ rewrite <- Qeq_alt in C | rewrite <- Qlt_alt in C | rewrite <- Qgt_alt in C ];
    try destruct (Z.even _); rewrite ?inject_Z_plus;
    change (inject_Z 1) with 1 in *; lra.
Qed.

Lemma round2_eq q : round2 q == inject_Z (round_half_even (q * 100)) / 100.
Proof. unfold round2. apply Qred_correct. Qed.

Lemma round2_mono x y : x <= y → round2 x <= round2 y.
Proof.
  intros H. rewrite !round2_eq.
  assert (Hm : x * 100 <= y * 100) by lra.
  apply round_half_even_mono in Hm. rewrite Zle_Qle in Hm. lra_div.
Qed.

Lemma round2_close q : q - (1 # 200) <= round2 q <= q + (1 # 200).
Proof.
  rewrite round2_eq. pose proof (round_half_even_close (q * 100)). lra_div.
Qed.


Lemma round2_range q : 0 <= q <= 100 → 0 <= round2 q <= 100.
Proof.
  intros [H0 H1]. split.
  - apply Qle_trans with (round2 0); [by apply Qle_bool_imp_le | by apply round2_mono].
  - apply Qle_trans with (round2 100); [by apply round2_mono | by apply Qle_bool_imp_le].
Qed.

Lemma bisect_nonneg fuel k n lo hi :
  (0 <= lo <= hi)%Z → (0 <= bisect fuel k n lo hi)%Z.
Proof.
  revert lo hi. induction fuel as [|fuel IH]; intros lo hi H; cbn; [lia|].
  destruct (hi - lo <=? 1)%Z eqn:E; [lia|].
  apply Z.leb_gt in E.
  assert (lo <= (lo + hi) / 2 <= hi)%Z.
  { split; [apply Z.div_le_lower_bound | apply Z.div_le_upper_bound]; lia. }
  destruct (_ <=? n)%Z; apply IH; lia.
Qed.

Lemma pow_floor_nonneg x y : 0 <= pow_floor x y.
Proof.
  unfold pow_floor, iroot.
  set (n := Qfloor _). set (hi := (2 ^ _)%Z).
  assert (H : (0 <= bisect (S (Z.to_nat (Z.log2_up hi))) (Qden y) n 0 hi)%Z).
  { apply bisect_nonneg. split; [done|]. by apply Z.pow_nonneg. }
  rewrite Zle_Qle in H. change (inject_Z 0) with 0 in H.
  apply Qle_shift_div_l; [reflexivity|]. by rewrite Qmult_0_l.
Qed.

End Arithmetic.

Section Counting.

Lemma sum_ones_length {A} (p : A → bool) (l : list A) :
  sum_ones p l = length (List.filter p l).
Proof.
  unfold sum_ones. rewrite sum_list_fmap_const. lia.
Qed.

Lemma list_to_set_remove_dups (l : list (option string)) :
  list_to_set (C := gset (option string)) (remove_dups l) = list_to_set l.
Proof.
  apply set_eq. intros x. rewrite !elem_of_list_to_set. apply elem_of_remove_dups.
Qed.

Lemma unique_source_count_distinct arts :
  unique_source_count arts = Spec.distinct_sources arts.
Proof.
  unfold unique_source_count, Spec.distinct_sources, Spec.source_names.
  rewrite <- list_to_set_remove_dups.
  apply size_list_to_set, NoDup_remove_dups.
Qed.

End Counting.

Section Keywords.

Lemma foldl_add_sum {A} (f : A → nat) (l : list A) (n : nat) :
  foldl (λ count a, count + f a)%nat n l = (n + sum_list (f <$> l))%nat.
Proof.
  revert n. induction l as [|a l IH]; intros n; cbn; [lia|].
  rewrite IH. lia.
Qed.

Lemma filter_pair_length {A B} (p : A * B → bool) (a : A) (l : list B) :
  length (List.filter p (pair a <$> l)) = length (List.filter (λ b, p (a, b)) l).
Proof.
  induction l as [|b l IH]; cbn; [done|].
  destruct (p (a, b)); cbn; by rewrite IH.
Qed.

Lemma keyword_count_hits arts :
  SportsData.keyword_count arts = Spec.keyword_hits arts.
Proof.
  unfold SportsData.keyword_count, Spec.keyword_hits.
  rewrite foldl_add_sum. cbn [Nat.add].
  induction arts as [|a arts IH]; [done|].
  cbn [fmap list_fmap sum_list sum_list_with list_prod].
  rewrite List.filter_app, length_app, <- IH.
  f_equal. rewrite sum_ones_length.
  change (List.map (λ y, (a, y)) SportsData.sports_keywords)
    with (pair a <$> SportsData.sports_keywords).
  by rewrite filter_pair_length.
Qed.

End Keywords.

(** Two totals that differ by half a point round to different values. *)
Lemma round2_gap (a b : Q) : a + (1 # 2) <= b → round2 a ≠ round2 b.
Proof.
  intros Hab H.
  pose proof (proj2 (round2_close a)) as Ha.
  pose proof (proj1 (round2_close b)) as Hb.
  rewrite H in Ha. lra.
Qed.

(** When the keyword term alone differs, by one hit against two, the two
    totals differ, whatever the power function. *)
Lemma keyword_hit_gap (fromisoformat : string → pyresult datetime)
    (fp : Q → Q → Q) (arts : list article) (total : option Z) (now_us : Z) (k : nat) :
  length arts = 1%nat →
  unique_source_count arts = 0%nat →
  sum_ones (λ a, SportsData._is_recent fromisoformat (publishedAt a)
                   (datetime_now now_us)) arts = 0%nat →
  SportsData.keyword_count arts = 1%nat →
  k = 2%nat →
  SportsData.calculate_pulse_score fromisoformat fp
    (Some (mknews (Some arts) total)) now_us
  ≠ Spec.sports_score fp 1 0 0 k.
Proof.
  intros El Eu Er Ek ->.
  unfold SportsData.calculate_pulse_score, Spec.sports_score.
  cbn [articles].
  rewrite El, Eu, Er, Ek, !py_min_Qmin.
  apply round2_gap.
  set (v := Qmin 35 (fp (of_nat 1 / 100) (7 # 10) * 35)).
  assert (Hv : v <= 35) by apply Q.le_min_l.
  repeat match goal with
         | |- context [Qmin ?c (of_nat ?n / ?a * ?b)] =>
             let r := eval vm_compute in (Qmin c (of_nat n / a * b)) in
             change (Qmin c (of_nat n / a * b)) with r
         end.
  match goal with
  | |- Qmin 100 ?A + _ <= Qmin 100 ?B =>
      pose proof (Q.le_min_r 100 A) as HmA;
      assert (HmB : Qmin 100 B == B) by (apply Q.min_r; lra)
  end.
  rewrite HmB. lra.
Qed.

Section Range.

(** A capped component lies between 0 and its cap. *)
Lemma py_min_range c x : 0 <= c → 0 <= x → 0 <= py_min c x <= c.
Proof.
  intros Hc Hx. split; [by apply py_min_nonneg | apply py_min_le_l].
Qed.

Lemma ratio_nonneg n a b : 0 < a → 0 <= b → 0 <= of_nat n / a * b.
Proof.
  intros Ha Hb. apply Qmult_le_0_compat; [|done].
  apply Qle_shift_div_l; [done|]. rewrite Qmult_0_l. apply of_nat_nonneg.
Qed.

End Range.

(** C4. Every scorer returns a score between 0 and 100, whatever the
    response: the three copies of the standard scorer, and the sports
    scorer for every power function that is not negative on a ratio. *)
Theorem pulse_score_range (fromisoformat : string → pyresult datetime)
    (float_pow : Q → Q → Q) (data : option news_data) (now_us : Z) :
  (∀ x y, 0 <= x → 0 <= float_pow x y) →
  0 <= PoliticsData.calculate_pulse_score fromisoformat data now_us <= 100
  ∧ 0 <= TechData.calculate_pulse_score fromisoformat data now_us <= 100
  ∧ 0 <= EnvironmentData.calculate_pulse_score fromisoformat data now_us <= 100
  ∧ 0 <= SportsData.calculate_pulse_score fromisoformat float_pow data now_us <= 100.
Proof.
  intros Hpow.
  assert (Hstd : 0 <= PoliticsData.calculate_pulse_score fromisoformat data now_us <= 100).
  { unfold PoliticsData.calculate_pulse_score.
    destruct data as [[[arts|] total]|]; cbn [articles]; [|done..].
    apply round2_range.
    pose proof (py_min_range 40 (of_nat (length arts) / 100 * 40)) as H1.
    pose proof (py_min_range 30 (of_nat (unique_source_count arts) / 20 * 30)) as H2.
    pose proof (py_min_range 30
      (of_nat (sum_ones (λ a, PoliticsData._is_recent fromisoformat (publishedAt a)
                                 (datetime_now now_us)) arts) / 30 * 30)) as H3.
    specialize (H1 ltac:(done) ltac:(by apply ratio_nonneg)).
    specialize (H2 ltac:(done) ltac:(by apply ratio_nonneg)).
    specialize (H3 ltac:(done) ltac:(by apply ratio_nonneg)).
    lra. }
  split; [exact Hstd|]. split; [exact Hstd|]. split; [exact Hstd|].
  unfold SportsData.calculate_pulse_score.
  destruct data as [[[arts|] total]|]; cbn [articles]; [|done..].
  apply round2_range. apply py_min_range; [done|].
  set (ratio := of_nat (length arts) / 100).
  assert (Hr : 0 <= ratio).
  { unfold ratio. apply Qle_shift_div_l; [done|]. rewrite Qmult_0_l. apply of_nat_nonneg. }
  pose proof (py_min_range 35 (float_pow ratio (7 # 10) * 35)) as H1.
  pose proof (py_min_range 25 (of_nat (unique_source_count arts) / 20 * 25)) as H2.
  pose proof (py_min_range 40
    (of_nat (sum_ones (λ a, SportsData._is_recent fromisoformat (publishedAt a)
                               (datetime_now now_us)) arts) / 20 * 40)) as H3.
  pose proof (py_min_range 15 (of_nat (SportsData.keyword_count arts) / 30 * 15)) as H4.
  specialize (H1 ltac:(done)). specialize (Hpow ratio (7 # 10) Hr).
  specialize (H1 ltac:(apply Qmult_le_0_compat; done)).
  specialize (H2 ltac:(done) ltac:(by apply ratio_nonneg)).
  specialize (H3 ltac:(done) ltac:(by apply ratio_nonneg)).
  specialize (H4 ltac:(done) ltac:(by apply ratio_nonneg)).
  lra.
Qed.

(** The hypothesis of C4 holds of the reference power, here on a response
    with two articles. *)
Lemma pulse_score_range_witness :
  let data := Some (mknews (Some [mkarticle (Some "Finals game tonight"%string)
                                    (Some {[ "name"%string := Some "ESPN"%string ]})
                                    (Some "2024-01-15T10:00:00"%string);
                                  mkarticle None None None]) (Some 2%Z)) in
  let now_us := 63840916800000000%Z in
  0 <= PoliticsData.calculate_pulse_score iso_basic data now_us <= 100
  ∧ 0 <= TechData.calculate_pulse_score iso_basic data now_us <= 100
  ∧ 0 <= EnvironmentData.calculate_pulse_score iso_basic data now_us <= 100
  ∧ 0 <= SportsData.calculate_pulse_score iso_basic pow_floor data now_us <= 100.
Proof.
  intros data now_us.
  apply (pulse_score_range iso_basic pow_floor data now_us).
  intros x y _. apply pow_floor_nonneg.
Defined.

(** ** The normalisation loop *)

Section Normalisation.

Import RadarChart.

Lemma scored_weaken (h h1 : gmap nat (gmap string pyval)) l x :
  h ⊆ h1 → Spec.scored h l x → Spec.scored h1 l x ∧ deref h1 l = deref h l.
Proof.
  intros Hsub [Hl Hx].
  assert (E : deref h1 l = deref h l).
  { unfold deref at 1. by rewrite (lookup_weaken _ _ _ _ Hl Hsub). }
  split; [|done]. split; rewrite E; [|done].
  by apply (lookup_weaken _ _ _ _ Hl Hsub).
Qed.

Lemma normalized_from_weaken avg (h h1 h' : gmap nat (gmap string pyval)) data out :
  h ⊆ h1 →
  Forall (λ l, ∃ x, Spec.scored h l x) data →
  Forall2 (Spec.normalized_from avg h1 h') data out →
  Forall2 (Spec.normalized_from avg h h') data out.
Proof.
  intros Hsub Hdata H2. induction H2 as [|l l' data out Hl _ IH]; [constructor|].
  inversion Hdata as [|? ? [x Hx] Hdata']; subst.
  constructor; [|by apply IH].
  destruct (scored_weaken _ _ _ _ Hsub Hx) as [_ E].
  destruct Hl as (y & Hy & Hfresh & Hnew). exists y. rewrite <- E.
  split; [done|]. split; [|done].
  intros Hin. apply Hfresh. by apply (subseteq_dom h h1 Hsub).
Qed.

Lemma alloc_fresh (h : gmap nat (gmap string pyval)) d :
  ((alloc h d).1 ∉ dom h) ∧ (h ⊆ (alloc h d).2)
  ∧ (alloc h d).2 !! (alloc h d).1 = Some d.
Proof.
  unfold alloc; cbn. pose proof (is_fresh (dom h)) as Hf.
  split; [done|]. split; [|by rewrite lookup_insert_eq].
  apply insert_subseteq. by apply not_elem_of_dom.
Qed.

Lemma normalize_loop_spec avg data : ∀ (h : gmap nat (gmap string pyval)) acc,
  Forall (λ l, ∃ x, Spec.scored h l x) data →
  ∃ out h', normalize_loop avg data h acc = Ok (acc ++ out, h')
            ∧ h ⊆ h'
            ∧ Forall2 (Spec.normalized_from avg h h') data out.
Proof.
  induction data as [|l data IH]; intros h acc Hdata.
  - exists [], h. rewrite app_nil_r. by repeat split.
  - inversion Hdata as [|? ? [x [Hl Hx]] Hdata']; subst.
    cbn [normalize_loop]. unfold getitem. rewrite Hx. cbn.
    set (d' := normalized_dict (deref h l) (VNum x) (new_score x avg)).
    destruct (alloc_fresh h d') as (Hfresh & Hsub & Hnew).
    unfold alloc in Hfresh, Hsub, Hnew. cbn in Hfresh, Hsub, Hnew.
    set (l' := fresh (dom h)) in *. set (h1 := <[l' := d']> h) in *.
    destruct (IH h1 (acc ++ [l'])) as (out & h' & Hrun & Hsub' & Hout).
    { eapply Forall_impl; [exact Hdata'|]. intros l0 [y Hy].
      exists y. by apply (scored_weaken h h1). }
    exists (l' :: out), h'. rewrite Hrun, <- app_assoc. split; [done|].
    split; [by transitivity h1|].
    constructor.
    + exists x. split; [done|]. split; [done|].
      by apply (lookup_weaken _ _ _ _ Hnew Hsub').
    + by apply (normalized_from_weaken avg h h1).
Qed.

Lemma mapM_scores (h : gmap nat (gmap string pyval)) data xs :
  Forall2 (Spec.scored h) data xs →
  mapM (λ l, getitem (deref h l) "pulse_score") data = Ok (VNum <$> xs).
Proof.
  induction 1 as [|l x data xs [_ Hx] _ IH]; [done|].
  cbn. rewrite IH. unfold getitem. by rewrite Hx.
Qed.

Lemma mapM_as_num xs : mapM as_num (VNum <$> xs) = Ok xs.
Proof.
  induction xs as [|x xs IH]; [done|].
  cbn. by rewrite IH.
Qed.

Lemma bind_Ok {A B} (a : A) (k : A → pyresult B) : (Ok a ≫= k) = k a.
Proof. done. Qed.

Lemma normalize_scores_relative_spec (h : gmap nat (gmap string pyval)) data xs :
  data ≠ [] →
  Forall2 (Spec.scored h) data xs →
  ∃ out h', normalize_scores_relative h data = Ok (out, h')
            ∧ h ⊆ h'
            ∧ Forall2 (Spec.normalized_from (PyFloat.mean xs) h h') data out.
Proof.
  intros Hne Hdata.
  destruct (normalize_loop_spec (PyFloat.mean xs) data h []) as (out & h' & Hrun & Hrest).
  { eapply Forall2_Forall_l; [exact Hdata|].
    apply Forall_forall. intros x _ l Hl. by exists x. }
  exists out, h'. split; [|done].
  unfold normalize_scores_relative.
  destruct data as [|l data]; [done|].
  rewrite (mapM_scores h _ xs Hdata), bind_Ok, mapM_as_num, bind_Ok.
  destruct xs as [|x xs]; [by inversion Hdata|].
  exact Hrun.
Qed.

End Normalisation.

(** C10. On the empty list the transform returns the list it was given and
    leaves the store alone; [max], [min] and the mean of no score, which
    raise or give [nan], are not reached. *)
Theorem normalize_empty_list (h : gmap nat (gmap string pyval)) :
  RadarChart.normalize_scores_relative h [] = Ok ([], h)
  ∧ RadarChart.max_list [] = Raise ValueError
  ∧ RadarChart.min_list [] = Raise ValueError
  ∧ PyFloat.mean [] = PyFloat.NaN.
Proof. by repeat split. Qed.

Section NormalisedRecords.

Import RadarChart.

Lemma normalized_dict_original d v new :
  normalized_dict d v new !! "original_score"%string = Some v.
Proof. unfold normalized_dict. by rewrite lookup_insert_eq. Qed.

Lemma normalized_dict_pulse d v new :
  normalized_dict d v new !! "pulse_score"%string = Some (VNum (PyFloat.round2 new)).
Proof.
  unfold normalized_dict. rewrite lookup_insert_ne; [|done].
  by rewrite lookup_insert_eq.
Qed.

Lemma normalized_dict_other d v new (k : string) :
  k ≠ "pulse_score"%string → k ≠ "original_score"%string →
  normalized_dict d v new !! k = d !! k.
Proof.
  intros H1 H2. unfold normalized_dict.
  rewrite lookup_insert_ne; [|done]. by rewrite lookup_insert_ne.
Qed.

Lemma deref_lookup (h : gmap nat (gmap string pyval)) l d :
  h !! l = Some d → deref h l = d.
Proof. intros H. unfold deref. by rewrite H. Qed.

End NormalisedRecords.

(** C6. When every dictionary of the list has a numeric score, the
    transform returns one new dictionary per input dictionary: its
    [original_score] is the input's [pulse_score], every key other than
    these two has the value it has in the input, and the dictionaries
    already in the store, the inputs among them, are what they were. *)
Theorem normalize_keeps_original_score (h : gmap nat (gmap string pyval))
    (data : list nat) (xs : list PyFloat.t) :
  Forall2 (Spec.scored h) data xs →
  ∃ out h',
    RadarChart.normalize_scores_relative h data = Ok (out, h')
    ∧ (∀ l d, h !! l = Some d → h' !! l = Some d)
    ∧ Forall2 (λ l l',
         (l' ∉ dom h)
         ∧ RadarChart.deref h' l' !! "original_score"%string
           = RadarChart.deref h l !! "pulse_score"%string
         ∧ ∀ k : string, k ≠ "pulse_score"%string → k ≠ "original_score"%string →
             RadarChart.deref h' l' !! k = RadarChart.deref h l !! k) data out.
Proof.
  intros Hdata.
  destruct data as [|l0 data0] eqn:Edata.
  { exists [], h. split; [done|]. split; [done|constructor]. }
  rewrite <- Edata in *.
  destruct (normalize_scores_relative_spec h data xs) as (out & h' & Hrun & Hsub & Hout);
    [by rewrite Edata|done|].
  exists out, h'. split; [done|]. split.
  { intros l d Hl. by apply (lookup_weaken _ _ _ _ Hl Hsub). }
  eapply Forall2_impl; [exact Hout|].
  intros l l' (x & Hx & Hfresh & Hnew).
  rewrite (deref_lookup _ _ _ Hnew). split; [done|]. split.
  - by rewrite normalized_dict_original.
  - intros k H1 H2. by apply normalized_dict_other.
Qed.

(** C6 at a store of three dictionaries: two results of a scoring run, on
    which the transform is run, and one more. *)
Lemma normalize_keeps_original_score_witness :
  let scored_run : gmap string pyval :=
    {[ "category" := VStr "Sports";
       "pulse_score" := VNum (PyFloat.Fin (4950 # 100));
       "article_count" := VCount 30;
       "total_results" := VInt 1200;
       "timestamp" := VStr "2024-01-15T12:00:00";
       "days_analyzed" := VInt 7 ]}%string in
  let h : gmap nat (gmap string pyval) :=
    {[ 0%nat := scored_run;
       1%nat := RadarChart.placeholder "Politics";
       2%nat := RadarChart.placeholder "Health" ]} in
  ∃ out h',
    RadarChart.normalize_scores_relative h [0%nat; 1%nat] = Ok (out, h')
    ∧ (∀ l d, h !! l = Some d → h' !! l = Some d)
    ∧ Forall2 (λ l l',
         (l' ∉ dom h)
         ∧ RadarChart.deref h' l' !! "original_score"%string
           = RadarChart.deref h l !! "pulse_score"%string
         ∧ ∀ k : string, k ≠ "pulse_score"%string → k ≠ "original_score"%string →
             RadarChart.deref h' l' !! k = RadarChart.deref h l !! k)
        [0%nat; 1%nat] out.
Proof.
  intros scored_run h.
  apply (normalize_keeps_original_score h [0%nat; 1%nat]
           [PyFloat.Fin (4950 # 100); PyFloat.Fin 0]).
  repeat constructor.
Defined.

Section ZeroMean.

Import RadarChart.

Lemma sum_zeros n :
  foldl PyFloat.add (PyFloat.Fin 0) (replicate n (PyFloat.Fin 0)) = PyFloat.Fin 0.
Proof. induction n as [|n IH]; [done|]. exact IH. Qed.

(** The mean of zeros is zero (and not [nan]) when there is one at
    least. *)
Lemma mean_zeros n :
  PyFloat.mean (replicate (S n) (PyFloat.Fin 0)) = PyFloat.Fin 0.
Proof.
  unfold PyFloat.mean. rewrite sum_zeros, length_replicate.
  unfold PyFloat.div.
  assert (Hn : Qeq_bool (of_nat (S n)) 0 = false).
  { apply not_true_is_false. intros H%Qeq_bool_eq.
    unfold of_nat, Qeq in H. cbn in H. lia. }
  by rewrite Hn.
Qed.

Lemma Forall2_replicate_r {A B} (R : A → B → Prop) (l : list A) (b : B) :
  Forall (λ a, R a b) l → Forall2 R l (replicate (length l) b).
Proof. induction 1; cbn; by constructor. Qed.

End ZeroMean.

(** C3: what the code does.  When every score of a non-empty list is 0 the
    mean is 0, nothing guards the division, [0/0] is [nan],
    [min(100, nan)] is 100, and every normalised score is 100, not 0. *)
Theorem normalize_all_zero_scores (h : gmap nat (gmap string pyval)) (data : list nat) :
  data ≠ [] →
  Forall (λ l, Spec.scored h l (PyFloat.Fin 0)) data →
  ∃ out h',
    RadarChart.normalize_scores_relative h data = Ok (out, h')
    ∧ length out = length data
    ∧ Forall (λ l', RadarChart.deref h' l' !! "pulse_score"%string
                    = Some (VNum (PyFloat.Fin 100))) out.
Proof.
  intros Hne Hdata.
  destruct (normalize_scores_relative_spec h data
              (replicate (length data) (PyFloat.Fin 0)) Hne)
    as (out & h' & Hrun & _ & Hout).
  { by apply Forall2_replicate_r. }
  exists out, h'. split; [done|]. split.
  { symmetry. by eapply Forall2_length. }
  destruct data as [|l data]; [done|]. cbn [length] in Hout.
  rewrite mean_zeros in Hout.
  eapply Forall2_Forall_r; [exact Hout|].
  apply Forall_forall. intros l0 Hl0 l' (x & Hx & _ & Hnew).
  apply (proj1 (Forall_forall _ _) Hdata) in Hl0 as [_ Hs].
  rewrite Hx in Hs. injection Hs as ->.
  rewrite (deref_lookup _ _ _ Hnew), normalized_dict_pulse.
  done.
Qed.

(** C3 at the failing input: the eight placeholders of a run in which
    every category failed. *)
Lemma normalize_all_zero_scores_witness :
  let h : gmap nat (gmap string pyval) :=
    list_to_map (zip (seq 0 8) (RadarChart.placeholder <$> RadarChart.pullers)) in
  ∃ out h',
    RadarChart.normalize_scores_relative h (seq 0 8) = Ok (out, h')
    ∧ length out = length (seq 0 8)
    ∧ Forall (λ l', RadarChart.deref h' l' !! "pulse_score"%string
                    = Some (VNum (PyFloat.Fin 100))) out.
Proof.
  intros h.
  apply (normalize_all_zero_scores h (seq 0 8)); [done|].
  repeat constructor.
Defined.

Section FiniteScores.

Import RadarChart.

Lemma sum_fin (qs : list Q) : ∀ a,
  ∃ s, foldl PyFloat.add (PyFloat.Fin a) (PyFloat.Fin <$> qs) = PyFloat.Fin s
       ∧ s == a + foldr Qplus 0 qs.
Proof.
  induction qs as [|q qs IH]; intros a.
  - exists a. split; [done|]. cbn. ring.
  - cbn [fmap list_fmap foldl foldr PyFloat.add].
    destruct (IH (Qred (a + q))) as (s & Hs & Es).
    exists s. split; [exact Hs|]. rewrite Es, Qred_correct. ring.
Qed.

Lemma of_nat_pos n : 0 < of_nat (S n).
Proof.
  unfold of_nat. change 0 with (inject_Z 0). rewrite <- Zlt_Qlt. lia.
Qed.

Lemma Qeq_bool_pos q : 0 < q → Qeq_bool q 0 = false.
Proof.
  intros Hq. apply not_true_is_false. intros H%Qeq_bool_eq. rewrite H in Hq.
  by apply Qlt_irrefl in Hq.
Qed.

(** On finite scores the mean of the model is the exact mean. *)
Lemma mean_fin (qs : list Q) :
  qs ≠ [] →
  ∃ m, PyFloat.mean (PyFloat.Fin <$> qs) = PyFloat.Fin m ∧ m == Spec.mean qs.
Proof.
  intros Hne. unfold PyFloat.mean, Spec.mean.
  destruct (sum_fin qs 0) as (s & Hs & Es). rewrite Hs, length_fmap.
  destruct qs as [|q qs]; [done|].
  unfold PyFloat.div. cbn [length]. rewrite (Qeq_bool_pos _ (of_nat_pos (length qs))).
  eexists. split; [done|]. rewrite Qred_correct, Es, Qplus_0_l. reflexivity.
Qed.

(** The boost does not lower a score at or above a positive mean, and
    the suppression does not raise a score below it. *)
Lemma new_score_fin q m :
  0 < m → 0 <= q <= 100 →
  ∃ r, new_score (PyFloat.Fin q) (PyFloat.Fin m) = PyFloat.Fin r
       ∧ (m <= q → q <= r) ∧ (q < m → r <= q).
Proof.
  intros Hm [Hq0 Hq1]. unfold new_score, PyFloat.geb, PyFloat.ltb.
  destruct (q ?= m) eqn:C; cbn [negb];
    [ rewrite <- Qeq_alt in C | rewrite <- Qlt_alt in C | rewrite <- Qgt_alt in C ].
  1, 3:
    unfold PyFloat.sub, PyFloat.opp, PyFloat.add, PyFloat.div, PyFloat.mul;
    rewrite (Qeq_bool_pos _ Hm);
    unfold PyFloat.py_min, PyFloat.ltb;
    match goal with
    | |- context [?p ?= 100] =>
        assert (Hp : q <= p);
        [| destruct (p ?= 100); eexists; (split; [reflexivity|]); split; intros; lra ]
    end.
  1, 2:
    rewrite !Qred_correct;
    assert (Ht : 0 <= (q + - m) / m)
      by (apply Qle_shift_div_l; [done | lra]);
    generalize dependent ((q + - m) / m); intros t Ht;
    assert (0 <= q * t) by (apply Qmult_le_0_compat; lra); lra.
  unfold PyFloat.div, PyFloat.mul. rewrite (Qeq_bool_pos _ Hm).
  eexists. split; [reflexivity|]. split; [lra|]. intros _.
  rewrite !Qred_correct.
  assert (Ht : 0 <= q / m) by (apply Qle_shift_div_l; [done | lra]).
  assert (Ht1 : q / m <= 1) by (apply Qle_shift_div_r; [done | lra]).
  generalize dependent (q / m); intros t Ht Ht1.
  assert (q * t <= q * 1) by (rewrite (Qmult_comm q t), (Qmult_comm q 1); apply Qmult_le_compat_r; lra). lra.
Qed.

End FiniteScores.

Section Pointwise.

Lemma Forall2_compose {A B C} (R1 : A → B → Prop) (R2 : A → C → Prop)
    (R3 : B → C → Prop) (la : list A) (lb : list B) (lc : list C) :
  (∀ a b c, R1 a b → R2 a c → R3 b c) →
  Forall2 R1 la lb → Forall2 R2 la lc → Forall2 R3 lb lc.
Proof.
  intros HR H1. revert lc.
  induction H1 as [|a b la lb Hab _ IH]; intros lc H2;
    inversion H2; subst; constructor; eauto.
Qed.


End Pointwise.


(** ** Recency *)

Section Recency.

Variable fromisoformat : string → pyresult datetime.

(** The four copies of [_is_recent] are one function. *)
Lemma is_recent_copies :
  TechData._is_recent fromisoformat = PoliticsData._is_recent fromisoformat
  ∧ EnvironmentData._is_recent fromisoformat = PoliticsData._is_recent fromisoformat
  ∧ SportsData._is_recent fromisoformat = PoliticsData._is_recent fromisoformat.
Proof. done. Qed.

(** A missing or empty timestamp is not recent. *)
Lemma is_recent_missing now :
  PoliticsData._is_recent fromisoformat None now = false
  ∧ PoliticsData._is_recent fromisoformat (Some EmptyString) now = false.
Proof. done. Qed.

(** A timestamp the parser refuses is not recent. *)
Lemma is_recent_unparsable s e now :
  fromisoformat (PyStr.replace "Z" "+00:00" s) = Raise e →
  PoliticsData._is_recent fromisoformat (Some s) now = false.
Proof.
  intros H. unfold PoliticsData._is_recent.
  destruct (str_falsy (Some s)); [done|]. cbn [default from_option id]. by rewrite H.
Qed.

(** A naive timestamp is recent exactly when it is less than 24 hours
    before the naive reading of the clock. *)
Lemma is_recent_naive s w now_us :
  s ≠ EmptyString →
  fromisoformat (PyStr.replace "Z" "+00:00" s) = Ok (mkdatetime w None) →
  PoliticsData._is_recent fromisoformat (Some s) (datetime_now now_us) = true
  ↔ (now_us - w < us_per_day)%Z.
Proof.
  intros Hs H. unfold PoliticsData._is_recent, str_falsy.
  rewrite bool_decide_eq_false_2; [|done]. cbn [default from_option id].
  rewrite H. cbn. rewrite bool_decide_eq_true. unfold days, us_per_day.
  split; intros Hlt.
  - destruct (Z.lt_ge_cases (now_us - w) 86400000000) as [|Hge]; [done|].
    pose proof (Z.div_le_lower_bound (now_us - w) 86400000000 1). lia.
  - apply Z.div_lt_upper_bound; lia.
Qed.

End Recency.

(** C7: what the code does.  [datetime.now()] is naive; a timestamp that
    carries an offset, as every timestamp ending in [Z] does once the [Z]
    is replaced, is aware; their difference raises [TypeError], the bare
    [except] swallows it, and the article is not recent whatever its
    age. *)
Theorem is_recent_aware_never_recent (fromisoformat : string → pyresult datetime)
    (s : string) (w off now_us : Z) :
  s ≠ EmptyString →
  fromisoformat (PyStr.replace "Z" "+00:00" s) = Ok (mkdatetime w (Some off)) →
  PoliticsData._is_recent fromisoformat (Some s) (datetime_now now_us) = false
  ∧ TechData._is_recent fromisoformat (Some s) (datetime_now now_us) = false
  ∧ EnvironmentData._is_recent fromisoformat (Some s) (datetime_now now_us) = false
  ∧ SportsData._is_recent fromisoformat (Some s) (datetime_now now_us) = false.
Proof.
  intros Hs H.
  assert (Hp : PoliticsData._is_recent fromisoformat (Some s) (datetime_now now_us) = false).
  { unfold PoliticsData._is_recent, str_falsy.
    rewrite bool_decide_eq_false_2; [|done]. cbn [default from_option id].
    by rewrite H. }
  by repeat split.
Qed.

(** C7 at the failing input: an article published at 10:00 UTC, scored
    at 12:00 of the same day. *)
Lemma is_recent_aware_never_recent_witness :
  let s := "2024-01-15T10:00:00Z"%string in
  let now_us := 63840916800000000%Z in
  PoliticsData._is_recent iso_basic (Some s) (datetime_now now_us) = false
  ∧ TechData._is_recent iso_basic (Some s) (datetime_now now_us) = false
  ∧ EnvironmentData._is_recent iso_basic (Some s) (datetime_now now_us) = false
  ∧ SportsData._is_recent iso_basic (Some s) (datetime_now now_us) = false.
Proof.
  intros s now_us.
  apply (is_recent_aware_never_recent iso_basic s 63840909600000000 0 now_us).
  - done.
  - vm_compute. reflexivity.
Defined.

(** The same instant written without an offset is recent. *)
Example is_recent_naive_example :
  iso_basic "2024-01-15T12:00:00" = Ok (datetime_now 63840916800000000)
  ∧ PoliticsData._is_recent iso_basic (Some "2024-01-15T10:00:00"%string)
      (datetime_now 63840916800000000) = true
  ∧ PoliticsData._is_recent iso_basic (Some "2024-01-14T12:00:01"%string)
      (datetime_now 63840916800000000) = true
  ∧ PoliticsData._is_recent iso_basic (Some "2024-01-14T12:00:00"%string)
      (datetime_now 63840916800000000) = false.
Proof. vm_compute. by repeat split. Qed.

(** ** Source diversity *)

Section Diversity.

(** An article without a source object, or with an empty one, is skipped
    by the count wherever it stands in the list. *)
Lemma unique_source_count_skip (l1 l2 : list article) (a : article) :
  source_truthy a = false →
  unique_source_count (l1 ++ a :: l2) = unique_source_count (l1 ++ l2).
Proof.
  intros Ha. unfold unique_source_count.
  rewrite !List.filter_app. cbn [List.filter]. by rewrite Ha.
Qed.

End Diversity.

(** C8, as amended. Under every profile the diversity count is the number
    of distinct values of [source.name] over the articles whose source is
    a non-empty object: an article whose source is absent, [null] or an
    empty object contributes nothing, wherever it stands, while an absent
    name and an empty name are values like any other. *)
Theorem unique_sources_skip_absent_source (l1 l2 : list article)
    (t p : option string) :
  unique_source_count (l1 ++ mkarticle t None p :: l2) = unique_source_count (l1 ++ l2)
  ∧ unique_source_count (l1 ++ mkarticle t (Some ∅) p :: l2)
    = unique_source_count (l1 ++ l2)
  ∧ (∀ arts, unique_source_count arts = Spec.distinct_sources arts)
  ∧ (∀ d : gmap string (option string), d ≠ ∅ →
       source_name (mkarticle t (Some d) p) ∉ Spec.source_names (l1 ++ l2) →
       unique_source_count (l1 ++ mkarticle t (Some d) p :: l2)
       = S (unique_source_count (l1 ++ l2))).
Proof.
  split; [by apply unique_source_count_skip|].
  split; [by apply unique_source_count_skip|].
  split; [apply unique_source_count_distinct|].
  intros d Hd Hnew.
  unfold unique_source_count, Spec.source_names in *.
  rewrite !List.filter_app in *. cbn [List.filter].
  assert (Ht : source_truthy (mkarticle t (Some d) p) = true).
  { unfold source_truthy. cbn. by rewrite bool_decide_eq_false_2. }
  rewrite Ht, !fmap_app, fmap_cons, !list_to_set_app_L, list_to_set_cons.
  rewrite fmap_app, elem_of_app in Hnew.
  set (x := source_name _) in *.
  set (s1 := list_to_set (C := gset (option string)) _) in *.
  set (s2 := list_to_set (C := gset (option string)) (source_name <$> List.filter source_truthy l2)) in *.
  assert (Hx : x ∉ s1 ∪ s2).
  { rewrite elem_of_union. unfold s1, s2. rewrite !elem_of_list_to_set. tauto. }
  rewrite (assoc_L (∪)), (comm_L (∪) s1 {[x]}), <- (assoc_L (∪)).
  rewrite size_union; [|by apply disjoint_singleton_l]. by rewrite size_singleton.
Qed.

(** C8 fails as stated: an article whose source has an empty name, and one
    whose source has no name at all, each count as one source, and the
    score moves with them. *)
Lemma empty_source_name_counterexample :
  let unnamed := mkarticle None (Some {[ "id"%string := Some "bbc-news"%string ]}) None in
  let empty_name := mkarticle None (Some {[ "name"%string := Some EmptyString ]}) None in
  let no_source := mkarticle None None None in
  unique_source_count [no_source] = 0%nat
  ∧ unique_source_count [empty_name] = 1%nat
  ∧ unique_source_count [unnamed] = 1%nat
  ∧ unique_source_count [empty_name; unnamed] = 2%nat
  ∧ PoliticsData.calculate_pulse_score iso_basic
      (Some (mknews (Some [no_source]) None)) 0 == 0.4
  ∧ PoliticsData.calculate_pulse_score iso_basic
      (Some (mknews (Some [empty_name]) None)) 0 == 1.9
  ∧ SportsData.calculate_pulse_score iso_basic pow_floor
      (Some (mknews (Some [no_source]) None)) 0 == 1.39
  ∧ SportsData.calculate_pulse_score iso_basic pow_floor
      (Some (mknews (Some [empty_name]) None)) 0 == 2.64.
Proof. vm_compute. by repeat split. Qed.

(** ** Collection *)

Section Collection.

Import RadarChart.

Variable fromisoformat : string → pyresult datetime.
Variable isoformat : datetime → string.
Variable strptime : string → pyresult datetime.
Variable float_pow : Q → Q → Q.
Variable api_key : option string.
Variable requests_get : string → Z → pyresult news_data.
Variable requests_get_range : string → datetime → datetime → pyresult news_data.
Variable clock : string → nat → Z.
Variable fetch_absent : string → Z → pyresult news_data.

Variable days_back : Z.
Variable start_date end_date : option string.

Abbreviation call category data :=
  (get_pulse_data fromisoformat isoformat strptime float_pow api_key requests_get
     requests_get_range clock fetch_absent category data days_back start_date end_date).

Lemma placeholder_labelled category : Spec.well_labelled category (placeholder category).
Proof. unfold Spec.well_labelled, placeholder. split; by simplify_map_eq. Qed.

Ltac puller_case :=
  match goal with
  | |- context [mbind _ ?m] => destruct m; [|done]
  end;
  intros [= <-]; split; by simplify_map_eq.

(** For a category of the list, the call does not read the variable
    [data], and what it returns is labelled with the category. *)
Lemma call_in_pullers category data :
  category ∈ pullers →
  call category data = call category None
  ∧ ∀ d, call category None = Ok d → Spec.well_labelled category d.
Proof.
  intros Hin. unfold pullers in Hin.
  repeat (apply elem_of_cons in Hin as [->|Hin]); [..|by apply elem_of_nil in Hin];
    (split; [reflexivity|]); intros d; unfold get_pulse_data; cbn [String.eqb Ascii.eqb Bool.eqb];
    unfold SportsData.get_sports_pulse, PoliticsData.get_politics_pulse,
      TechData.get_tech_pulse, EnvironmentData.get_environment_pulse,
      StandardProfile.get_pulse; unfold Spec.well_labelled; puller_case.
Qed.

(** One turn of the loop on a category of the list appends its entry and
    nothing else. *)
Lemma collect_step_entry all_data data category :
  category ∈ pullers →
  (collect_step fromisoformat isoformat strptime float_pow api_key requests_get
     requests_get_range clock fetch_absent days_back start_date end_date
     (all_data, data) category).1
  = all_data ++ [Spec.category_entry (call category None) category].
Proof.
  intros Hin. destruct (call_in_pullers category data Hin) as [E Hlab].
  unfold collect_step. rewrite E.
  destruct (call category None) as [d|e]; [|done].
  destruct (Hlab d eq_refl) as [_ [v Hv]].
  unfold getitem. by rewrite Hv.
Qed.

Lemma collect_fold categories : ∀ all_data data,
  Forall (λ c, c ∈ pullers) categories →
  (foldl (collect_step fromisoformat isoformat strptime float_pow api_key requests_get
            requests_get_range clock fetch_absent days_back start_date end_date)
         (all_data, data) categories).1
  = all_data ++ ((λ c, Spec.category_entry (call c None) c) <$> categories).
Proof.
  induction categories as [|c categories IH]; intros all_data data Hin.
  - by rewrite app_nil_r.
  - inversion Hin as [|? ? Hc Hrest]; subst. cbn [foldl].
    pose proof (collect_step_entry all_data data c Hc) as Hstep.
    destruct (collect_step _ _ _ _ _ _ _ _ _ _ _ _ (all_data, data) c) as [acc data'].
    cbn [fst] in Hstep. rewrite Hstep, IH; [|done].
    by rewrite <- app_assoc.
Qed.

Lemma entry_labelled category :
  category ∈ pullers →
  Spec.well_labelled category (Spec.category_entry (call category None) category).
Proof.
  intros Hin. destruct (call_in_pullers category None Hin) as [_ Hlab].
  destruct (call category None) as [d|e]; cbn.
  - by apply Hlab.
  - apply placeholder_labelled.
Qed.

End Collection.

(** C9. Whatever each category's call does, the collected list is the
    list of the eight categories' entries in the order Sports, Politics,
    Tech/Science, Economy, Trends, Entertainment, Health, Environment:
    the dictionary the call returned, or the placeholder with the
    category's name and zero score and counts when the call raised. *)
Theorem collect_all_data_one_entry_per_category
    (fromisoformat : string → pyresult datetime) (isoformat : datetime → string)
    (strptime : string → pyresult datetime) (float_pow : Q → Q → Q)
    (api_key : option string) (requests_get : string → Z → pyresult news_data)
    (requests_get_range : string → datetime → datetime → pyresult news_data)
    (clock : string → nat → Z) (fetch_absent : string → Z → pyresult news_data)
    (days_back : Z) (end_date start_date : option string) :
  let call category :=
    RadarChart.get_pulse_data fromisoformat isoformat strptime float_pow api_key
      requests_get requests_get_range clock fetch_absent category None
      days_back start_date end_date in
  let out :=
    RadarChart.collect_all_data fromisoformat isoformat strptime float_pow api_key
      requests_get requests_get_range clock fetch_absent
      days_back end_date start_date in
  out = (λ c, Spec.category_entry (call c) c) <$> RadarChart.pullers
  ∧ length out = 8%nat
  ∧ (λ d : gmap string pyval, d !! "category"%string) <$> out
    = [Some (VStr "Sports"); Some (VStr "Politics"); Some (VStr "Tech/Science");
       Some (VStr "Economy"); Some (VStr "Trends"); Some (VStr "Entertainment");
       Some (VStr "Health"); Some (VStr "Environment")]
  ∧ (∀ c e, c ∈ RadarChart.pullers → call c = Raise e →
       Spec.category_entry (call c) c
       = {[ "category"%string := VStr c; "pulse_score"%string := VInt 0;
            "article_count"%string := VInt 0; "total_results"%string := VInt 0 ]}).
Proof.
  intros call out.
  assert (Hout : out = (λ c, Spec.category_entry (call c) c) <$> RadarChart.pullers).
  { unfold out, RadarChart.collect_all_data.
    rewrite collect_fold; [done|].
    apply Forall_forall. auto. }
  split; [exact Hout|]. split; [by rewrite Hout|]. split.
  - rewrite Hout, <- list_fmap_compose.
    pose proof (λ c H, proj1 (entry_labelled fromisoformat isoformat strptime float_pow
      api_key requests_get requests_get_range clock fetch_absent days_back
      start_date end_date c H)) as Hlab.
    unfold RadarChart.pullers in *. cbn [fmap list_fmap compose].
    repeat f_equal; apply Hlab; repeat constructor.
  - intros c e _ Hc. by rewrite Hc.
Qed.

(** ** Further properties of the recency test *)

(** Whatever the parser, a missing, an empty and an unparsable timestamp
    are not recent: [_is_recent] returns [False] and raises nothing. *)
Theorem is_recent_false_without_timestamp (fromisoformat : string → pyresult datetime)
    (now : datetime) :
  PoliticsData._is_recent fromisoformat None now = false
  ∧ PoliticsData._is_recent fromisoformat (Some EmptyString) now = false
  ∧ (∀ s e, fromisoformat (PyStr.replace "Z" "+00:00" s) = Raise e →
       PoliticsData._is_recent fromisoformat (Some s) now = false)
  ∧ SportsData._is_recent fromisoformat = PoliticsData._is_recent fromisoformat.
Proof.
  split; [done|]. split; [done|]. split; [|done].
  intros s e H. by apply (is_recent_unparsable fromisoformat s e).
Qed.

(** A timestamp without offset is recent exactly when it is less than 24
    hours older than the reading of the clock: the comparison is on the
    whole days of the difference. *)
Theorem is_recent_naive_within_a_day (fromisoformat : string → pyresult datetime)
    (s : string) (w now_us : Z) :
  s ≠ EmptyString →
  fromisoformat (PyStr.replace "Z" "+00:00" s) = Ok (mkdatetime w None) →
  (PoliticsData._is_recent fromisoformat (Some s) (datetime_now now_us) = true
   ↔ (now_us - w < us_per_day)%Z)
  ∧ (SportsData._is_recent fromisoformat (Some s) (datetime_now now_us) = true
     ↔ (now_us - w < us_per_day)%Z).
Proof.
  intros Hs H. split; by apply is_recent_naive.
Qed.

(** An article published 23 hours 59 minutes before the clock reading. *)
Lemma is_recent_naive_within_a_day_witness :
  let s := "2024-01-14T12:01:00"%string in
  let w := 63840830460000000%Z in
  let now_us := 63840916800000000%Z in
  (PoliticsData._is_recent iso_basic (Some s) (datetime_now now_us) = true
   ↔ (now_us - w < us_per_day)%Z)
  ∧ (SportsData._is_recent iso_basic (Some s) (datetime_now now_us) = true
     ↔ (now_us - w < us_per_day)%Z).
Proof.
  intros s w now_us.
  apply (is_recent_naive_within_a_day iso_basic s w now_us).
  - done.
  - vm_compute. reflexivity.
Defined.

(** ** Further properties of the scorers *)

Section ScoreFacts.

(** The rounding of a total between 0 and 100 is a whole number of
    hundredths between 0 and 100. *)
Lemma round2_value q : 0 <= q <= 100 → Spec.pulse_score_value (round2 q).
Proof.
  intros Hq. split; [by apply round2_range|].
  exists (round_half_even (q * 100)). apply round2_eq.
Qed.

Lemma of_nat_mono n m : (n ≤ m)%nat → of_nat n <= of_nat m.
Proof. intros H. unfold of_nat. rewrite <- Zle_Qle. lia. Qed.

(** A capped component grows with its count. *)
Lemma component_mono c a b n m :
  0 < a → 0 <= b → (n ≤ m)%nat →
  py_min c (of_nat n / a * b) <= py_min c (of_nat m / a * b).
Proof.
  intros Ha Hb Hnm. rewrite !py_min_Qmin. apply Q.min_le_compat_l.
  apply Qmult_le_compat_r; [|done].
  unfold Qdiv. apply Qmult_le_compat_r; [by apply of_nat_mono|].
  apply Qlt_le_weak, Qinv_lt_0_compat, Ha.
Qed.

Lemma standard_total_range n u r :
  0 <= py_min 40 (of_nat n / 100 * 40) + py_min 30 (of_nat u / 20 * 30)
       + py_min 30 (of_nat r / 30 * 30) <= 100.
Proof.
  pose proof (py_min_range 40 (of_nat n / 100 * 40)) as H1.
  pose proof (py_min_range 30 (of_nat u / 20 * 30)) as H2.
  pose proof (py_min_range 30 (of_nat r / 30 * 30)) as H3.
  specialize (H1 ltac:(done) ltac:(by apply ratio_nonneg)).
  specialize (H2 ltac:(done) ltac:(by apply ratio_nonneg)).
  specialize (H3 ltac:(done) ltac:(by apply ratio_nonneg)).
  lra.
Qed.

Lemma sports_total_range v u r k :
  0 <= v →
  0 <= py_min 100 (py_min 35 v + py_min 25 (of_nat u / 20 * 25)
                   + py_min 40 (of_nat r / 20 * 40)
                   + py_min 15 (of_nat k / 30 * 15)) <= 100.
Proof.
  intros Hv. apply py_min_range; [done|].
  pose proof (py_min_range 35 v ltac:(done) Hv) as H1.
  pose proof (py_min_range 25 (of_nat u / 20 * 25)) as H2.
  pose proof (py_min_range 40 (of_nat r / 20 * 40)) as H3.
  pose proof (py_min_range 15 (of_nat k / 30 * 15)) as H4.
  specialize (H2 ltac:(done) ltac:(by apply ratio_nonneg)).
  specialize (H3 ltac:(done) ltac:(by apply ratio_nonneg)).
  specialize (H4 ltac:(done) ltac:(by apply ratio_nonneg)).
  lra.
Qed.

Lemma zero_value : Spec.pulse_score_value 0.
Proof. split; [done|]. by exists 0%Z. Qed.

Lemma standard_score_value (fromisoformat : string → pyresult datetime) data now_us :
  Spec.pulse_score_value (PoliticsData.calculate_pulse_score fromisoformat data now_us).
Proof.
  unfold PoliticsData.calculate_pulse_score.
  destruct data as [[[arts|] total]|]; cbn [articles]; try apply zero_value.
  apply round2_value, standard_total_range.
Qed.

Lemma sports_score_value (fromisoformat : string → pyresult datetime)
    (float_pow : Q → Q → Q) data now_us :
  (∀ x y, 0 <= x → 0 <= float_pow x y) →
  Spec.pulse_score_value
    (SportsData.calculate_pulse_score fromisoformat float_pow data now_us).
Proof.
  intros Hpow. unfold SportsData.calculate_pulse_score.
  destruct data as [[[arts|] total]|]; cbn [articles]; try apply zero_value.
  apply round2_value, sports_total_range.
  apply Qmult_le_0_compat; [|done]. apply Hpow.
  apply Qle_shift_div_l; [done|]. rewrite Qmult_0_l. apply of_nat_nonneg.
Qed.

End ScoreFacts.

(** Every score a scorer returns is a whole number of hundredths between
    0 and 100: the three standard scorers on every response, the sports
    scorer for every power function that is not negative on a ratio. *)
Theorem pulse_score_two_decimals (fromisoformat : string → pyresult datetime)
    (float_pow : Q → Q → Q) (data : option news_data) (now_us : Z) :
  (∀ x y, 0 <= x → 0 <= float_pow x y) →
  Spec.pulse_score_value (PoliticsData.calculate_pulse_score fromisoformat data now_us)
  ∧ Spec.pulse_score_value (TechData.calculate_pulse_score fromisoformat data now_us)
  ∧ Spec.pulse_score_value (EnvironmentData.calculate_pulse_score fromisoformat data now_us)
  ∧ Spec.pulse_score_value
      (SportsData.calculate_pulse_score fromisoformat float_pow data now_us).
Proof.
  intros Hpow.
  split; [apply standard_score_value|]. split; [apply standard_score_value|].
  split; [apply standard_score_value|]. by apply sports_score_value.
Qed.

(** On a response of three articles, with the reference power. *)
Lemma pulse_score_two_decimals_witness :
  let named n := mkarticle (Some "Playoffs: game seven"%string)
                   (Some {[ "name"%string := Some n ]}) None in
  let data := Some (mknews (Some [named "ESPN"%string; named "BBC"%string;
                                  named "ESPN"%string]) (Some 3%Z)) in
  Spec.pulse_score_value (PoliticsData.calculate_pulse_score iso_basic data 0)
  ∧ Spec.pulse_score_value (TechData.calculate_pulse_score iso_basic data 0)
  ∧ Spec.pulse_score_value (EnvironmentData.calculate_pulse_score iso_basic data 0)
  ∧ Spec.pulse_score_value (SportsData.calculate_pulse_score iso_basic pow_floor data 0).
Proof.
  intros named data.
  apply (pulse_score_two_decimals iso_basic pow_floor data 0).
  intros x y _. apply pow_floor_nonneg.
Defined.

Section Counts.

Lemma size_list_to_set_le (l : list (option string)) :
  (size (list_to_set (C := gset (option string)) l) ≤ length l)%nat.
Proof.
  rewrite <- list_to_set_remove_dups, size_list_to_set by apply NoDup_remove_dups.
  induction l as [|x l IH]; cbn; [lia|].
  destruct (decide_rel elem_of x l); cbn; lia.
Qed.

Lemma filter_length_le {A} (p : A → bool) (l : list A) :
  (length (List.filter p l) ≤ length l)%nat.
Proof. induction l as [|x l IH]; cbn; [lia|]. destruct (p x); cbn; lia. Qed.

Lemma unique_source_count_le arts : (unique_source_count arts ≤ length arts)%nat.
Proof.
  unfold unique_source_count.
  etransitivity; [apply size_list_to_set_le|].
  rewrite length_fmap. apply filter_length_le.
Qed.

Lemma sum_ones_le {A} (p : A → bool) (l : list A) : (sum_ones p l ≤ length l)%nat.
Proof. rewrite sum_ones_length. apply filter_length_le. Qed.

Lemma sum_list_fmap_bound {A} (f : A → nat) (c : nat) (l : list A) :
  (∀ a, f a ≤ c)%nat → (sum_list (f <$> l) ≤ c * length l)%nat.
Proof.
  intros Hf. induction l as [|a l IH]; cbn; [lia|].
  specialize (Hf a). rewrite Nat.mul_succ_r. lia.
Qed.

Lemma keyword_count_le arts :
  (SportsData.keyword_count arts ≤ 10 * length arts)%nat.
Proof.
  unfold SportsData.keyword_count. rewrite foldl_add_sum. cbn [Nat.add].
  apply sum_list_fmap_bound. intros a.
  apply (sum_ones_le _ SportsData.sports_keywords).
Qed.

(** Adding an article does not lower a count. *)
Lemma unique_source_count_insert l1 a l2 :
  (unique_source_count (l1 ++ l2) ≤ unique_source_count (l1 ++ a :: l2))%nat.
Proof.
  unfold unique_source_count. apply subseteq_size.
  rewrite !List.filter_app. cbn [List.filter].
  destruct (source_truthy a); [|done].
  rewrite !fmap_app, fmap_cons, !list_to_set_app_L, list_to_set_cons.
  apply union_mono_l, union_subseteq_r.
Qed.

Lemma sum_ones_insert {A} (p : A → bool) l1 a l2 :
  (sum_ones p (l1 ++ l2) ≤ sum_ones p (l1 ++ a :: l2))%nat.
Proof.
  rewrite !sum_ones_length, !List.filter_app, !length_app. cbn [List.filter].
  destruct (p a); cbn [length]; lia.
Qed.

End Counts.

(** The counts behind a score never exceed what the articles allow: at
    most one distinct source and one recent article per article, and at
    most ten keyword hits per article. *)
Theorem counts_bounded_by_articles (fromisoformat : string → pyresult datetime)
    (arts : list article) (now : datetime) :
  (unique_source_count arts ≤ length arts)%nat
  ∧ (sum_ones (λ a, PoliticsData._is_recent fromisoformat (publishedAt a) now) arts
     ≤ length arts)%nat
  ∧ (sum_ones (λ a, SportsData._is_recent fromisoformat (publishedAt a) now) arts
     ≤ length arts)%nat
  ∧ (SportsData.keyword_count arts ≤ 10 * length arts)%nat.
Proof.
  split; [apply unique_source_count_le|]. split; [apply sum_ones_le|].
  split; [apply sum_ones_le|apply keyword_count_le].
Qed.

(** Under the standard profile one more article, wherever it is put in
    the list, never lowers the score. *)
Theorem standard_score_monotone (fromisoformat : string → pyresult datetime)
    (l1 l2 : list article) (a : article) (total total' : option Z) (now_us : Z) :
  PoliticsData.calculate_pulse_score fromisoformat
    (Some (mknews (Some (l1 ++ l2)) total)) now_us
  <= PoliticsData.calculate_pulse_score fromisoformat
       (Some (mknews (Some (l1 ++ a :: l2)) total')) now_us
  ∧ TechData.calculate_pulse_score fromisoformat
      (Some (mknews (Some (l1 ++ l2)) total)) now_us
    <= TechData.calculate_pulse_score fromisoformat
         (Some (mknews (Some (l1 ++ a :: l2)) total')) now_us
  ∧ EnvironmentData.calculate_pulse_score fromisoformat
      (Some (mknews (Some (l1 ++ l2)) total)) now_us
    <= EnvironmentData.calculate_pulse_score fromisoformat
         (Some (mknews (Some (l1 ++ a :: l2)) total')) now_us.
Proof.
  assert (H : PoliticsData.calculate_pulse_score fromisoformat
                (Some (mknews (Some (l1 ++ l2)) total)) now_us
              <= PoliticsData.calculate_pulse_score fromisoformat
                   (Some (mknews (Some (l1 ++ a :: l2)) total')) now_us).
  { unfold PoliticsData.calculate_pulse_score. cbn [articles].
    apply round2_mono.
    repeat apply Qplus_le_compat; apply component_mono; try done.
    - rewrite !length_app. cbn [length]. lia.
    - apply unique_source_count_insert.
    - apply sum_ones_insert. }
  split; [exact H|]. split; exact H.
Qed.

Section NoRecency.

Variable fromisoformat : string → pyresult datetime.

Lemma is_recent_aware_or_missing a now_us :
  Spec.aware_or_missing fromisoformat a →
  PoliticsData._is_recent fromisoformat (publishedAt a) (datetime_now now_us) = false.
Proof.
  unfold Spec.aware_or_missing, PoliticsData._is_recent.
  destruct (publishedAt a) as [s|]; [|done].
  intros (w & off & H). destruct (str_falsy (Some s)); [done|].
  cbn [default from_option id]. by rewrite H.
Qed.

Lemma no_recent_articles arts now_us :
  Forall (Spec.aware_or_missing fromisoformat) arts →
  sum_ones (λ a, PoliticsData._is_recent fromisoformat (publishedAt a)
                   (datetime_now now_us)) arts = 0%nat.
Proof.
  intros H. rewrite sum_ones_length.
  induction H as [|a arts Ha _ IH]; [done|].
  cbn [List.filter]. by rewrite (is_recent_aware_or_missing a now_us Ha).
Qed.

Lemma standard_cap_without_recency n u :
  round2 (py_min 40 (of_nat n / 100 * 40) + py_min 30 (of_nat u / 20 * 30)
          + py_min 30 (of_nat 0 / 30 * 30)) <= 70.
Proof.
  apply Qle_trans with (round2 70); [|done]. apply round2_mono.
  pose proof (py_min_le_l 40 (of_nat n / 100 * 40)) as Hv.
  pose proof (py_min_le_l 30 (of_nat u / 20 * 30)) as Hd.
  pose proof (py_min_le_r 30 (of_nat 0 / 30 * 30)) as Hr.
  change (of_nat 0 / 30 * 30) with (0 # 30) in Hr at 2.
  set (v := py_min 40 _) in *. set (d := py_min 30 (_ / 20 * 30)) in *.
  set (r := py_min 30 _) in *. clearbody v d r. lra.
Qed.

Lemma sports_cap_without_recency x u k :
  round2 (py_min 100 (py_min 35 x + py_min 25 (of_nat u / 20 * 25)
                      + py_min 40 (of_nat 0 / 20 * 40)
                      + py_min 15 (of_nat k / 30 * 15))) <= 75.
Proof.
  apply Qle_trans with (round2 75); [|done]. apply round2_mono.
  eapply Qle_trans; [apply py_min_le_r|].
  pose proof (py_min_le_l 35 x) as Hv.
  pose proof (py_min_le_l 25 (of_nat u / 20 * 25)) as Hd.
  pose proof (py_min_le_r 40 (of_nat 0 / 20 * 40)) as Hr.
  change (of_nat 0 / 20 * 40) with (0 # 20) in Hr at 2.
  pose proof (py_min_le_l 15 (of_nat k / 30 * 15)) as Hk.
  set (v := py_min 35 _) in *. set (d := py_min 25 _) in *.
  set (r := py_min 40 _) in *. set (c := py_min 15 _) in *.
  clearbody v d r c. lra.
Qed.

End NoRecency.

(** When every timestamp of a response is missing or carries an offset,
    as the provider's timestamps ending in [Z] do, no article is recent
    and the recency points are lost: a standard score is at most 70 and a
    sports score at most 75, whatever the articles are. *)
Theorem aware_timestamps_cap_score (fromisoformat : string → pyresult datetime)
    (float_pow : Q → Q → Q) (arts : list article) (total : option Z) (now_us : Z) :
  Forall (Spec.aware_or_missing fromisoformat) arts →
  PoliticsData.calculate_pulse_score fromisoformat
    (Some (mknews (Some arts) total)) now_us <= 70
  ∧ TechData.calculate_pulse_score fromisoformat
      (Some (mknews (Some arts) total)) now_us <= 70
  ∧ EnvironmentData.calculate_pulse_score fromisoformat
      (Some (mknews (Some arts) total)) now_us <= 70
  ∧ SportsData.calculate_pulse_score fromisoformat float_pow
      (Some (mknews (Some arts) total)) now_us <= 75.
Proof.
  intros Haware.
  pose proof (no_recent_articles fromisoformat arts now_us Haware) as Hzero.
  destruct (is_recent_copies fromisoformat) as (Ht & He & Hs).
  repeat split.
  - unfold PoliticsData.calculate_pulse_score. cbn [articles].
    rewrite Hzero. apply standard_cap_without_recency.
  - unfold TechData.calculate_pulse_score. cbn [articles].
    rewrite Ht, Hzero. apply standard_cap_without_recency.
  - unfold EnvironmentData.calculate_pulse_score. cbn [articles].
    rewrite He, Hzero. apply standard_cap_without_recency.
  - unfold SportsData.calculate_pulse_score. cbn [articles].
    rewrite Hs, Hzero. apply sports_cap_without_recency.
Qed.

(** Two articles stamped by the provider, twenty minutes and two hours
    before the clock reading. *)
Lemma aware_timestamps_cap_score_witness :
  let stamped t := mkarticle (Some "Election results"%string)
                     (Some {[ "name"%string := Some "Reuters"%string ]}) (Some t) in
  let arts := [stamped "2024-01-15T11:40:00Z"%string;
               stamped "2024-01-15T10:00:00+00:00"%string;
               mkarticle None None None] in
  let now_us := 63840916800000000%Z in
  PoliticsData.calculate_pulse_score iso_basic
    (Some (mknews (Some arts) None)) now_us <= 70
  ∧ TechData.calculate_pulse_score iso_basic
      (Some (mknews (Some arts) None)) now_us <= 70
  ∧ EnvironmentData.calculate_pulse_score iso_basic
      (Some (mknews (Some arts) None)) now_us <= 70
  ∧ SportsData.calculate_pulse_score iso_basic pow_floor
      (Some (mknews (Some arts) None)) now_us <= 75.
Proof.
  intros stamped arts now_us.
  apply (aware_timestamps_cap_score iso_basic pow_floor arts None now_us).
  repeat constructor.
  - exists 63840915600000000%Z, 0%Z. vm_compute. reflexivity.
  - exists 63840909600000000%Z, 0%Z. vm_compute. reflexivity.
Defined.

(** ** Collection: the API key and the date range *)

Section CollectionInputs.

Import RadarChart.

Variable fromisoformat : string → pyresult datetime.
Variable isoformat : datetime → string.
Variable strptime : string → pyresult datetime.
Variable float_pow : Q → Q → Q.
Variable api_key : option string.
Variable requests_get : string → Z → pyresult news_data.
Variable requests_get_range : string → datetime → datetime → pyresult news_data.
Variable clock : string → nat → Z.
Variable fetch_absent : string → Z → pyresult news_data.
Variable days_back : Z.

Abbreviation call_with start_date end_date category :=
  (get_pulse_data fromisoformat isoformat strptime float_pow api_key requests_get
     requests_get_range clock fetch_absent category None days_back start_date end_date).

Abbreviation collected end_date start_date :=
  (collect_all_data fromisoformat isoformat strptime float_pow api_key requests_get
     requests_get_range clock fetch_absent days_back end_date start_date).

(** The collected list, entry by entry. *)
Lemma collected_entries end_date start_date :
  collected end_date start_date
  = (λ c, Spec.category_entry (call_with start_date end_date c) c) <$> pullers.
Proof.
  unfold collect_all_data. rewrite collect_fold; [done|].
  apply Forall_forall. auto.
Qed.

(** Only the Sports call reads the dates. *)
Lemma call_without_dates start_date end_date category :
  category ≠ "Sports"%string →
  call_with start_date end_date category = call_with None None category.
Proof.
  intros Hc. unfold get_pulse_data.
  destruct (String.eqb_spec category "Sports"); done.
Qed.

(** The Sports request falls back on [days_back] unless both dates are
    given. *)
Lemma fetch_sports_news_lone_date start_date end_date :
  str_falsy start_date || str_falsy end_date = true →
  SportsData.fetch_sports_news strptime api_key requests_get requests_get_range
    days_back start_date end_date
  = SportsData.fetch_sports_news strptime api_key requests_get requests_get_range
      days_back None None.
Proof.
  intros H. unfold SportsData.fetch_sports_news.
  destruct (str_falsy api_key); [done|].
  by destruct (str_falsy start_date), (str_falsy end_date).
Qed.

Lemma call_without_key start_date end_date category :
  str_falsy api_key = true →
  category ∈ ["Sports"; "Politics"; "Tech/Science"; "Environment"]%string →
  call_with start_date end_date category = Raise ValueError.
Proof.
  intros Hkey Hin.
  repeat (apply elem_of_cons in Hin as [->|Hin]); [..|by apply elem_of_nil in Hin];
    unfold get_pulse_data; cbn [String.eqb Ascii.eqb Bool.eqb];
    unfold SportsData.get_sports_pulse, SportsData.fetch_sports_news,
      PoliticsData.get_politics_pulse, PoliticsData.fetch_politics_news,
      TechData.get_tech_pulse, TechData.fetch_tech_news,
      EnvironmentData.get_environment_pulse, EnvironmentData.fetch_environment_news;
    by rewrite Hkey.
Qed.

Lemma call_with_bad_date start_date end_date e :
  str_falsy api_key = false →
  str_falsy start_date = false → str_falsy end_date = false →
  strptime (default EmptyString start_date) = Raise e
  ∨ strptime (default EmptyString end_date) = Raise e →
  ∃ e', call_with start_date end_date "Sports"%string = Raise e'.
Proof.
  intros Hkey Hs He Hbad.
  unfold get_pulse_data; cbn [String.eqb Ascii.eqb Bool.eqb].
  unfold SportsData.get_sports_pulse, SportsData.fetch_sports_news.
  rewrite Hkey, Hs, He. cbn [negb andb].
  destruct Hbad as [-> | Hbad]; [by eexists|].
  destruct (strptime (default EmptyString start_date)); [|by eexists].
  rewrite bind_Ok, Hbad. by eexists.
Qed.

End CollectionInputs.

(** Without an API key (unset or empty) the four pullers of the
    repository raise [ValueError] before any request is made, whatever
    the dates, and the collected list holds the zero placeholder for
    Sports, Politics, Tech/Science and Environment. *)
Theorem missing_api_key_gives_placeholders
    (fromisoformat : string → pyresult datetime) (isoformat : datetime → string)
    (strptime : string → pyresult datetime) (float_pow : Q → Q → Q)
    (api_key : option string) (requests_get : string → Z → pyresult news_data)
    (requests_get_range : string → datetime → datetime → pyresult news_data)
    (clock : string → nat → Z) (fetch_absent : string → Z → pyresult news_data)
    (days_back : Z) (end_date start_date : option string) :
  str_falsy api_key = true →
  let out :=
    RadarChart.collect_all_data fromisoformat isoformat strptime float_pow api_key
      requests_get requests_get_range clock fetch_absent
      days_back end_date start_date in
  (∀ c, c ∈ ["Sports"; "Politics"; "Tech/Science"; "Environment"]%string →
     RadarChart.get_pulse_data fromisoformat isoformat strptime float_pow api_key
       requests_get requests_get_range clock fetch_absent c None
       days_back start_date end_date = Raise ValueError)
  ∧ out !! 0%nat = Some (RadarChart.placeholder "Sports")
  ∧ out !! 1%nat = Some (RadarChart.placeholder "Politics")
  ∧ out !! 2%nat = Some (RadarChart.placeholder "Tech/Science")
  ∧ out !! 7%nat = Some (RadarChart.placeholder "Environment").
Proof.
  intros Hkey out.
  pose proof (call_without_key fromisoformat isoformat strptime float_pow api_key
                requests_get requests_get_range clock fetch_absent days_back
                start_date end_date) as Hcall.
  split; [intros c Hc; by apply Hcall|].
  unfold out. rewrite collected_entries. unfold RadarChart.pullers.
  cbn [fmap list_fmap lookup list_lookup].
  rewrite !Hcall; [done|by rewrite ?elem_of_cons; auto 10..].
Qed.

(** A run with the key unset: every request would succeed with an empty
    response, and none is made. *)
Lemma missing_api_key_gives_placeholders_witness :
  let out :=
    RadarChart.collect_all_data iso_basic (λ _, EmptyString) iso_basic pow_floor None
      (λ _ _, Ok (mknews (Some []) (Some 0%Z)))
      (λ _ _ _, Ok (mknews (Some []) (Some 0%Z)))
      (λ _ _, 0%Z) (λ _ _, Raise RequestException) 7 None None in
  (∀ c, c ∈ ["Sports"; "Politics"; "Tech/Science"; "Environment"]%string →
     RadarChart.get_pulse_data iso_basic (λ _, EmptyString) iso_basic pow_floor None
       (λ _ _, Ok (mknews (Some []) (Some 0%Z)))
       (λ _ _ _, Ok (mknews (Some []) (Some 0%Z)))
       (λ _ _, 0%Z) (λ _ _, Raise RequestException) c None 7 None None
     = Raise ValueError)
  ∧ out !! 0%nat = Some (RadarChart.placeholder "Sports")
  ∧ out !! 1%nat = Some (RadarChart.placeholder "Politics")
  ∧ out !! 2%nat = Some (RadarChart.placeholder "Tech/Science")
  ∧ out !! 7%nat = Some (RadarChart.placeholder "Environment").
Proof.
  apply (missing_api_key_gives_placeholders iso_basic (λ _, EmptyString) iso_basic
           pow_floor None (λ _ _, Ok (mknews (Some []) (Some 0%Z)))
           (λ _ _ _, Ok (mknews (Some []) (Some 0%Z)))
           (λ _ _, 0%Z) (λ _ _, Raise RequestException) 7 None None).
  reflexivity.
Defined.

(** The date range reaches the Sports request only.  The entries of the
    other seven categories are the same whatever dates are passed, and
    when one of the two dates is missing or empty the whole list is the
    one collected without dates: a lone end date is ignored. *)
Theorem date_range_reaches_sports_only
    (fromisoformat : string → pyresult datetime) (isoformat : datetime → string)
    (strptime : string → pyresult datetime) (float_pow : Q → Q → Q)
    (api_key : option string) (requests_get : string → Z → pyresult news_data)
    (requests_get_range : string → datetime → datetime → pyresult news_data)
    (clock : string → nat → Z) (fetch_absent : string → Z → pyresult news_data)
    (days_back : Z) (end_date start_date : option string) :
  let collect :=
    RadarChart.collect_all_data fromisoformat isoformat strptime float_pow api_key
      requests_get requests_get_range clock fetch_absent days_back in
  drop 1 (collect end_date start_date) = drop 1 (collect None None)
  ∧ (str_falsy start_date || str_falsy end_date = true →
     collect end_date start_date = collect None None).
Proof.
  intros collect. unfold collect. rewrite !collected_entries.
  unfold RadarChart.pullers. cbn [fmap list_fmap drop].
  pose proof (call_without_dates fromisoformat isoformat strptime float_pow api_key
                requests_get requests_get_range clock fetch_absent days_back
                start_date end_date) as Hcall.
  assert (Hrest :
    (λ c, Spec.category_entry
            (RadarChart.get_pulse_data fromisoformat isoformat strptime float_pow
               api_key requests_get requests_get_range clock fetch_absent c None
               days_back start_date end_date) c)
      <$> ["Politics"; "Tech/Science"; "Economy"; "Trends"; "Entertainment";
           "Health"; "Environment"]%string
    = (λ c, Spec.category_entry
              (RadarChart.get_pulse_data fromisoformat isoformat strptime float_pow
                 api_key requests_get requests_get_range clock fetch_absent c None
                 days_back None None) c)
        <$> ["Politics"; "Tech/Science"; "Economy"; "Trends"; "Entertainment";
             "Health"; "Environment"]%string).
  { apply list_fmap_ext. intros i c Hc. rewrite Hcall; [done|].
    intros ->. apply list_elem_of_lookup_2 in Hc.
    repeat (apply elem_of_cons in Hc as [Hc|Hc]; [done|]).
    by apply elem_of_nil in Hc. }
  cbn [fmap list_fmap] in Hrest.
  split; [exact Hrest|].
  intros Hlone. apply (f_equal2 cons); [|exact Hrest].
  unfold RadarChart.get_pulse_data; cbn [String.eqb Ascii.eqb Bool.eqb].
  unfold SportsData.get_sports_pulse.
  by rewrite (fetch_sports_news_lone_date strptime api_key requests_get
                requests_get_range days_back start_date end_date Hlone).
Qed.

(** When both dates are given and one of them is not accepted by
    [strptime], the Sports call raises before any request and the list
    holds the zero placeholder for Sports, while the other seven entries
    are those of a run without dates. *)
Theorem malformed_date_zeroes_sports
    (fromisoformat : string → pyresult datetime) (isoformat : datetime → string)
    (strptime : string → pyresult datetime) (float_pow : Q → Q → Q)
    (api_key : option string) (requests_get : string → Z → pyresult news_data)
    (requests_get_range : string → datetime → datetime → pyresult news_data)
    (clock : string → nat → Z) (fetch_absent : string → Z → pyresult news_data)
    (days_back : Z) (end_date start_date : string) (e : exn) :
  api_key ≠ None → api_key ≠ Some EmptyString →
  start_date ≠ EmptyString → end_date ≠ EmptyString →
  strptime start_date = Raise e ∨ strptime end_date = Raise e →
  let collect :=
    RadarChart.collect_all_data fromisoformat isoformat strptime float_pow api_key
      requests_get requests_get_range clock fetch_absent days_back in
  collect (Some end_date) (Some start_date)
  = RadarChart.placeholder "Sports" :: drop 1 (collect None None).
Proof.
  intros Hk1 Hk2 Hs He Hbad collect. unfold collect.
  rewrite !collected_entries.
  unfold RadarChart.pullers. cbn [fmap list_fmap drop].
  destruct (call_with_bad_date fromisoformat isoformat strptime float_pow api_key
              requests_get requests_get_range clock fetch_absent days_back
              (Some start_date) (Some end_date) e) as [e' He'].
  { destruct api_key as [k|]; [|done]. cbn. apply bool_decide_eq_false.
    intros ->. done. }
  { cbn. by apply bool_decide_eq_false. }
  { cbn. by apply bool_decide_eq_false. }
  { exact Hbad. }
  rewrite He'. cbn [Spec.category_entry].
  reflexivity.
Qed.

(** The menu's custom date typed with slashes, which [strptime] with
    the format [%Y-%m-%d] refuses. *)
Lemma malformed_date_zeroes_sports_witness :
  let strptime (s : string) : pyresult datetime :=
    if String.eqb s "2026/02/09" then Raise ValueError else iso_basic s in
  let collect :=
    RadarChart.collect_all_data iso_basic (λ _, EmptyString) strptime pow_floor
      (Some "key"%string)
      (λ _ _, Ok (mknews (Some []) (Some 0%Z)))
      (λ _ _ _, Ok (mknews (Some []) (Some 0%Z)))
      (λ _ _, 0%Z) (λ _ _, Raise RequestException) 1 in
  collect (Some "2026/02/09"%string) (Some "2026/02/09"%string)
  = RadarChart.placeholder "Sports" :: drop 1 (collect None None).
Proof.
  intros strptime.
  apply (malformed_date_zeroes_sports iso_basic (λ _, EmptyString) strptime pow_floor
           (Some "key"%string)
           (λ _ _, Ok (mknews (Some []) (Some 0%Z)))
           (λ _ _ _, Ok (mknews (Some []) (Some 0%Z)))
           (λ _ _, 0%Z) (λ _ _, Raise RequestException) 1
           "2026/02/09"%string "2026/02/09"%string ValueError);
    [done..|by left].
Defined.

(** ** Normalisation: range, ranking and size of the change *)

Section NormalisedValues.

Import RadarChart.

(** The score of each returned dictionary, from the score of the input
    dictionary and the mean. *)
Lemma normalize_scores_values (h : gmap nat (gmap string pyval)) data qs :
  data ≠ [] →
  Forall2 (λ l q, Spec.scored h l (PyFloat.Fin q)) data qs →
  ∃ out h',
    normalize_scores_relative h data = Ok (out, h')
    ∧ Forall2 (λ q l',
         deref h' l' !! "pulse_score"%string
         = Some (VNum (PyFloat.round2
                         (new_score (PyFloat.Fin q)
                            (PyFloat.mean (PyFloat.Fin <$> qs)))))) qs out.
Proof.
  intros Hne Hdata.
  destruct (normalize_scores_relative_spec h data (PyFloat.Fin <$> qs) Hne)
    as (out & h' & Hrun & _ & Hout).
  { by apply Forall2_fmap_r. }
  exists out, h'. split; [done|].
  eapply Forall2_compose; [|exact Hdata|exact Hout].
  intros l q l' [_ Hs] (x & Hx & _ & Hnew).
  rewrite Hx in Hs. injection Hs as ->.
  by rewrite (deref_lookup _ _ _ Hnew), normalized_dict_pulse.
Qed.

Lemma sum_nonneg qs : Forall (λ q, 0 <= q) qs → 0 <= foldr Qplus 0 qs.
Proof.
  induction 1 as [|q qs Hq _ IH]; [done|]. cbn [foldr]. lra.
Qed.

Lemma mean_nonneg qs :
  qs ≠ [] → Forall (λ q, 0 <= q) qs →
  ∃ m, PyFloat.mean (PyFloat.Fin <$> qs) = PyFloat.Fin m
       ∧ 0 <= m ∧ m == Spec.mean qs.
Proof.
  intros Hne Hqs. destruct (mean_fin qs Hne) as (m & Hm & Em).
  exists m. split; [done|]. split; [|done]. rewrite Em. unfold Spec.mean.
  destruct qs as [|q qs]; [done|].
  apply Qle_shift_div_l; [apply of_nat_pos|].
  rewrite Qmult_0_l. by apply sum_nonneg.
Qed.

(** The two branches in closed form, for a positive mean. *)
Lemma new_score_closed q m :
  0 < m →
  ∃ r, new_score (PyFloat.Fin q) (PyFloat.Fin m) = PyFloat.Fin r
       ∧ (m <= q → r == Qmin 100 (q * (1 + (q - m) / m * 2)))
       ∧ (q < m → r == q * (q / m) * (8 # 10)).
Proof.
  intros Hm. unfold new_score, PyFloat.geb, PyFloat.ltb.
  destruct (q ?= m) eqn:C; cbn [negb];
    [ rewrite <- Qeq_alt in C | rewrite <- Qlt_alt in C | rewrite <- Qgt_alt in C ].
  1, 3:
    unfold PyFloat.sub, PyFloat.opp, PyFloat.add, PyFloat.div, PyFloat.mul;
    rewrite (Qeq_bool_pos _ Hm);
    unfold PyFloat.py_min, PyFloat.ltb;
    match goal with
    | |- context [?p ?= 100] =>
        assert (Hp : p == q * (1 + (q - m) / m * 2))
          by (rewrite !Qred_correct; reflexivity);
        destruct (p ?= 100) eqn:Cp;
          [ rewrite <- Qeq_alt in Cp | rewrite <- Qlt_alt in Cp
          | rewrite <- Qgt_alt in Cp ];
          eexists; (split; [reflexivity|]); (split; [intros _|intros; lra]);
          [ rewrite Q.min_l; [reflexivity | rewrite <- Hp, Cp; apply Qle_refl]
          | rewrite Q.min_r; [exact Hp | rewrite <- Hp; by apply Qlt_le_weak]
          | rewrite Q.min_l; [reflexivity | rewrite <- Hp; by apply Qlt_le_weak] ]
    end.
  unfold PyFloat.div, PyFloat.mul. rewrite (Qeq_bool_pos _ Hm).
  eexists. split; [reflexivity|]. split; [lra|]. intros _.
  rewrite !Qred_correct. reflexivity.
Qed.

(** With mean 0 the division gives [inf] or [nan], and the cap makes it
    100. *)
Lemma new_score_zero_mean q m :
  m == 0 → 0 <= q → new_score (PyFloat.Fin q) (PyFloat.Fin m) = PyFloat.Fin 100.
Proof.
  intros Hm Hq. unfold new_score, PyFloat.geb, PyFloat.ltb.
  destruct (q ?= m) eqn:C; cbn [negb];
    [ | rewrite <- Qlt_alt in C; lra | ];
    unfold PyFloat.sub, PyFloat.opp, PyFloat.add, PyFloat.div, PyFloat.sign;
    (assert (Hz : Qeq_bool m 0 = true) by by apply Qeq_bool_iff);
    rewrite Hz;
    (assert (Hs : (Qred (q + Qred (- m)) ?= 0) = (q ?= 0))
       by (apply Qcompare_comp; [rewrite !Qred_correct, Hm; ring | reflexivity]));
    rewrite Hs;
    (destruct (q ?= 0) eqn:Cq; [ | rewrite <- Qlt_alt in Cq; lra | ]);
    cbn; unfold PyFloat.sign; rewrite ?Cq; reflexivity.
Qed.

Lemma ratio_bounds q m : 0 < m → 0 <= q → 0 <= q / m ∧ (q < m → q / m <= 1).
Proof.
  intros Hm Hq. split.
  - apply Qle_shift_div_l; [done | lra].
  - intros Hlt. apply Qle_shift_div_r; [done | lra].
Qed.

Lemma excess_bounds q m : 0 < m → m <= q → 0 <= (q - m) / m ∧ (2 * m <= q → 1 <= (q - m) / m).
Proof.
  intros Hm Hq. split.
  - apply Qle_shift_div_l; [done | lra].
  - intros H2. apply Qle_shift_div_l; [done | lra].
Qed.

Lemma div_mono a b m : 0 < m → a <= b → a / m <= b / m.
Proof.
  intros Hm Hab. unfold Qdiv. apply Qmult_le_compat_r; [done|].
  by apply Qlt_le_weak, Qinv_lt_0_compat.
Qed.

Lemma mult_mono a b c d : 0 <= a → a <= b → 0 <= c → c <= d → a * c <= b * d.
Proof. intros. nra. Qed.

(** A score between 0 and 100 stays there, whatever the mean of such
    scores. *)
Lemma new_score_bounded q m :
  0 <= m → 0 <= q <= 100 →
  ∃ r, new_score (PyFloat.Fin q) (PyFloat.Fin m) = PyFloat.Fin r ∧ 0 <= r <= 100.
Proof.
  intros Hm [Hq0 Hq1].
  destruct (Qlt_le_dec 0 m) as [Hpos|Hzero].
  - destruct (new_score_closed q m Hpos) as (r & Hr & Hup & Hdown).
    exists r. split; [done|].
    destruct (Qlt_le_dec q m) as [Hlt|Hge].
    + rewrite (Hdown Hlt).
      destruct (ratio_bounds q m Hpos Hq0) as [Hs0 Hs1]. specialize (Hs1 Hlt).
      generalize dependent (q / m). intros s _ Hs0 Hs1. nra.
    + rewrite (Hup Hge).
      destruct (excess_bounds q m Hpos Hge) as [Ht _].
      split; [|apply Q.le_min_l].
      apply Q.min_glb; [done|].
      generalize dependent ((q - m) / m). intros t _ Ht. nra.
  - exists 100. split; [|done]. apply new_score_zero_mean; [lra|done].
Qed.

(** For a fixed mean the new score grows with the score. *)
Lemma new_score_monotone q1 q2 m :
  0 <= m → 0 <= q1 → q1 <= q2 → q2 <= 100 →
  ∃ r1 r2, new_score (PyFloat.Fin q1) (PyFloat.Fin m) = PyFloat.Fin r1
           ∧ new_score (PyFloat.Fin q2) (PyFloat.Fin m) = PyFloat.Fin r2
           ∧ r1 <= r2.
Proof.
  intros Hm Hq1 H12 Hq2.
  destruct (Qlt_le_dec 0 m) as [Hpos|Hzero].
  - destruct (new_score_closed q1 m Hpos) as (r1 & Hr1 & Hup1 & Hdown1).
    destruct (new_score_closed q2 m Hpos) as (r2 & Hr2 & Hup2 & Hdown2).
    exists r1, r2. split; [done|]. split; [done|].
    destruct (Qlt_le_dec q1 m) as [Hlt1|Hge1]; destruct (Qlt_le_dec q2 m) as [Hlt2|Hge2].
    + rewrite (Hdown1 Hlt1), (Hdown2 Hlt2).
      apply Qmult_le_compat_r; [|done].
      apply mult_mono; [done..| |].
      * by apply (ratio_bounds q1 m).
      * by apply div_mono.
    + destruct (new_score_fin q1 m Hpos) as (r1' & Hr1' & _ & Hd); [lra|].
      destruct (new_score_fin q2 m Hpos) as (r2' & Hr2' & Hu & _); [lra|].
      rewrite Hr1 in Hr1'. injection Hr1' as <-.
      rewrite Hr2 in Hr2'. injection Hr2' as <-.
      specialize (Hd Hlt1). specialize (Hu Hge2). lra.
    + lra.
    + rewrite (Hup1 Hge1), (Hup2 Hge2).
      apply Q.min_le_compat_l.
      apply mult_mono; [done..| |].
      * destruct (excess_bounds q1 m Hpos Hge1) as [Ht _]. lra.
      * assert ((q1 - m) / m <= (q2 - m) / m) by (apply div_mono; [done|lra]). lra.
  - exists 100, 100.
    rewrite !new_score_zero_mean; [done|lra..].
Qed.

(** The size of the change, for a positive mean: below the mean a fifth
    at least is lost; from twice the mean on the score is tripled at
    least, up to the cap. *)
Lemma new_score_change q m :
  0 < m → 0 <= q →
  ∃ r, new_score (PyFloat.Fin q) (PyFloat.Fin m) = PyFloat.Fin r
       ∧ (q < m → r <= (8 # 10) * q)
       ∧ (2 * m <= q → Qmin 100 (3 * q) <= r).
Proof.
  intros Hpos Hq.
  destruct (new_score_closed q m Hpos) as (r & Hr & Hup & Hdown).
  exists r. split; [done|]. split.
  - intros Hlt. rewrite (Hdown Hlt).
    destruct (ratio_bounds q m Hpos Hq) as [Hs0 Hs1]. specialize (Hs1 Hlt).
    generalize dependent (q / m). intros s _ Hs0 Hs1. nra.
  - intros H2. assert (Hge : m <= q) by lra. rewrite (Hup Hge).
    apply Q.min_le_compat_l.
    destruct (excess_bounds q m Hpos Hge) as [_ Ht]. specialize (Ht H2).
    generalize dependent ((q - m) / m). intros t _ Ht. nra.
Qed.

End NormalisedValues.

(** Scores between 0 and 100 stay between 0 and 100: for any list of
    dictionaries with such scores the transform succeeds and returns as
    many dictionaries, each with a finite score between 0 and 100, the
    case of mean 0 included. *)
Theorem normalize_scores_stay_in_range (h : gmap nat (gmap string pyval))
    (data : list nat) (qs : list Q) :
  Forall2 (λ l q, Spec.scored h l (PyFloat.Fin q)) data qs →
  Forall (λ q, 0 <= q <= 100) qs →
  ∃ out h',
    RadarChart.normalize_scores_relative h data = Ok (out, h')
    ∧ length out = length data
    ∧ Forall (λ l', ∃ q', RadarChart.deref h' l' !! "pulse_score"%string
                          = Some (VNum (PyFloat.Fin q'))
                          ∧ 0 <= q' <= 100) out.
Proof.
  intros Hdata Hqs.
  destruct data as [|l0 data0] eqn:Edata.
  { exists [], h. split; [done|]. split; [done|constructor]. }
  rewrite <- Edata in *.
  assert (Hne : data ≠ []) by by rewrite Edata.
  assert (Hne' : qs ≠ []) by (intros ->; inversion Hdata; by subst).
  destruct (normalize_scores_values h data qs Hne Hdata) as (out & h' & Hrun & Hout).
  destruct (mean_nonneg qs Hne') as (m & Hm & Hm0 & _).
  { eapply Forall_impl; [exact Hqs|]. by intros q [H0 _]. }
  exists out, h'. split; [done|]. split.
  { rewrite <- (Forall2_length _ _ _ Hout). symmetry. by eapply Forall2_length. }
  rewrite Hm in Hout.
  eapply Forall2_Forall_r; [exact Hout|].
  eapply Forall_impl; [exact Hqs|]. intros q Hq l' Hl'.
  destruct (new_score_bounded q m Hm0 Hq) as (r & Hr & Hrange).
  exists (round2 r). rewrite Hl', Hr. split; [done|]. by apply round2_range.
Qed.

(** The eight scores of a run: four scorer results and four
    placeholders. *)
Lemma normalize_scores_stay_in_range_witness :
  let mk (q : Q) : gmap string pyval := {[ "pulse_score"%string := VNum (PyFloat.Fin q) ]} in
  let h : gmap nat (gmap string pyval) :=
    {[ 0%nat := mk (8125 # 100); 1%nat := mk 0; 2%nat := mk (4040 # 100);
       3%nat := mk 0 ]} in
  ∃ out h',
    RadarChart.normalize_scores_relative h [0; 1; 2; 3]%nat = Ok (out, h')
    ∧ length out = 4%nat
    ∧ Forall (λ l', ∃ q', RadarChart.deref h' l' !! "pulse_score"%string
                          = Some (VNum (PyFloat.Fin q'))
                          ∧ 0 <= q' <= 100) out.
Proof.
  intros mk h.
  apply (normalize_scores_stay_in_range h [0; 1; 2; 3]%nat
           [8125 # 100; 0; 4040 # 100; 0]).
  - subst h mk. unfold Spec.scored, RadarChart.deref.
    repeat (constructor; [split; by simplify_map_eq|]). constructor.
  - repeat (constructor; [split; by apply Qle_bool_imp_le|]). constructor.
Defined.

(** The transform keeps the ranking: for scores between 0 and 100, when
    one input score is at most another, its normalised score is at most
    the other's. *)
Theorem normalize_preserves_ranking (h : gmap nat (gmap string pyval))
    (data : list nat) (qs : list Q) :
  Forall2 (λ l q, Spec.scored h l (PyFloat.Fin q)) data qs →
  Forall (λ q, 0 <= q <= 100) qs →
  ∃ out h',
    RadarChart.normalize_scores_relative h data = Ok (out, h')
    ∧ ∀ (i j : nat) qi qj li lj,
        qs !! i = Some qi → qs !! j = Some qj →
        out !! i = Some li → out !! j = Some lj →
        qi <= qj →
        ∃ qi' qj',
          RadarChart.deref h' li !! "pulse_score"%string = Some (VNum (PyFloat.Fin qi'))
          ∧ RadarChart.deref h' lj !! "pulse_score"%string = Some (VNum (PyFloat.Fin qj'))
          ∧ qi' <= qj'.
Proof.
  intros Hdata Hqs.
  destruct data as [|l0 data0] eqn:Edata.
  { exists [], h. split; [done|]. intros i j qi qj li lj _ _ Hi. by destruct i. }
  rewrite <- Edata in *.
  assert (Hne : data ≠ []) by by rewrite Edata.
  assert (Hne' : qs ≠ []) by (intros ->; inversion Hdata; by subst).
  destruct (normalize_scores_values h data qs Hne Hdata) as (out & h' & Hrun & Hout).
  destruct (mean_nonneg qs Hne') as (m & Hm & Hm0 & _).
  { eapply Forall_impl; [exact Hqs|]. by intros q [H0 _]. }
  exists out, h'. split; [done|]. rewrite Hm in Hout.
  intros i j qi qj li lj Hi Hj Hli Hlj Hle.
  pose proof (Forall2_lookup_lr _ _ _ _ _ _ Hout Hi Hli) as Ei.
  pose proof (Forall2_lookup_lr _ _ _ _ _ _ Hout Hj Hlj) as Ej.
  cbv beta in Ei, Ej.
  destruct (proj1 (Forall_lookup _ _) Hqs i qi Hi) as [Hi0 _].
  destruct (proj1 (Forall_lookup _ _) Hqs j qj Hj) as [_ Hj1].
  destruct (new_score_monotone qi qj m Hm0 Hi0 Hle Hj1) as (r1 & r2 & Hr1 & Hr2 & Hr).
  exists (round2 r1), (round2 r2).
  rewrite Ei, Ej, Hr1, Hr2. split; [done|]. split; [done|]. by apply round2_mono.
Qed.

(** The ranking of four scores, two of them equal. *)
Lemma normalize_preserves_ranking_witness :
  let mk (q : Q) : gmap string pyval := {[ "pulse_score"%string := VNum (PyFloat.Fin q) ]} in
  let qs := [8125 # 100; 10; 4040 # 100; 10] in
  let h : gmap nat (gmap string pyval) :=
    {[ 0%nat := mk (8125 # 100); 1%nat := mk 10; 2%nat := mk (4040 # 100);
       3%nat := mk 10 ]} in
  ∃ out h',
    RadarChart.normalize_scores_relative h [0; 1; 2; 3]%nat = Ok (out, h')
    ∧ ∀ (i j : nat) qi qj li lj,
        qs !! i = Some qi → qs !! j = Some qj →
        out !! i = Some li → out !! j = Some lj →
        qi <= qj →
        ∃ qi' qj',
          RadarChart.deref h' li !! "pulse_score"%string = Some (VNum (PyFloat.Fin qi'))
          ∧ RadarChart.deref h' lj !! "pulse_score"%string = Some (VNum (PyFloat.Fin qj'))
          ∧ qi' <= qj'.
Proof.
  intros mk qs h.
  apply (normalize_preserves_ranking h [0; 1; 2; 3]%nat qs).
  - subst h mk. unfold Spec.scored, RadarChart.deref.
    repeat (constructor; [split; by simplify_map_eq|]). constructor.
  - repeat (constructor; [split; by apply Qle_bool_imp_le|]). constructor.
Defined.

(** The size of the change, for non-negative scores with a positive
    mean: a score below the mean loses a fifth at least, and a score of
    at least twice the mean is tripled at least, up to the cap of 100
    (both up to the rounding to two decimals). *)
Theorem normalize_cuts_and_triples (h : gmap nat (gmap string pyval))
    (data : list nat) (qs : list Q) :
  Forall2 (λ l q, Spec.scored h l (PyFloat.Fin q)) data qs →
  Forall (λ q, 0 <= q) qs →
  0 < Spec.mean qs →
  ∃ out h',
    RadarChart.normalize_scores_relative h data = Ok (out, h')
    ∧ Forall2 (λ q l',
         ∃ q', RadarChart.deref h' l' !! "pulse_score"%string
               = Some (VNum (PyFloat.Fin q'))
               ∧ (q < Spec.mean qs → q' <= round2 ((8 # 10) * q))
               ∧ (2 * Spec.mean qs <= q → round2 (Qmin 100 (3 * q)) <= q')) qs out.
Proof.
  intros Hdata Hqs Hmean.
  assert (Hne' : qs ≠ []) by (intros ->; by apply Qlt_irrefl in Hmean).
  assert (Hne : data ≠ []) by (intros ->; by inversion Hdata).
  destruct (normalize_scores_values h data qs Hne Hdata) as (out & h' & Hrun & Hout).
  destruct (mean_nonneg qs Hne' Hqs) as (m & Hm & _ & Em).
  exists out, h'. split; [done|]. rewrite Hm in Hout.
  assert (Hin : Forall2 (λ q (_ : nat), 0 <= q) qs out).
  { clear Hrun Hm Hmean Hne' Hdata Em. induction Hout; inversion Hqs; subst; constructor; auto. }
  assert (Hboth : Forall2 (λ q l',
            0 <= q ∧ RadarChart.deref h' l' !! "pulse_score"%string
                     = Some (VNum (PyFloat.round2
                                     (RadarChart.new_score (PyFloat.Fin q) (PyFloat.Fin m)))))
            qs out).
  { clear Hrun Hm Hmean Hne' Hdata Hqs Em.
    induction Hout; inversion Hin; subst; constructor; auto. }
  eapply Forall2_impl; [exact Hboth|].
  intros q l' [Hq Hl'].
  destruct (new_score_change q m) as (r & Hr & Hcut & Htriple); [by rewrite Em|done|].
  exists (round2 r). rewrite Hl', Hr. split; [done|]. rewrite <- Em.
  split; intros Hc; apply round2_mono; auto.
Qed.

(** Four scores with mean 22.5: 50 is above twice the mean, 10 and 0 are
    below the mean. *)
Lemma normalize_cuts_and_triples_witness :
  let mk (q : Q) : gmap string pyval := {[ "pulse_score"%string := VNum (PyFloat.Fin q) ]} in
  let qs := [50; 10; 30; 0] in
  let h : gmap nat (gmap string pyval) :=
    {[ 0%nat := mk 50; 1%nat := mk 10; 2%nat := mk 30; 3%nat := mk 0 ]} in
  ∃ out h',
    RadarChart.normalize_scores_relative h [0; 1; 2; 3]%nat = Ok (out, h')
    ∧ Forall2 (λ q l',
         ∃ q', RadarChart.deref h' l' !! "pulse_score"%string
               = Some (VNum (PyFloat.Fin q'))
               ∧ (q < Spec.mean qs → q' <= round2 ((8 # 10) * q))
               ∧ (2 * Spec.mean qs <= q → round2 (Qmin 100 (3 * q)) <= q')) qs out.
Proof.
  intros mk qs h.
  apply (normalize_cuts_and_triples h [0; 1; 2; 3]%nat qs).
  - subst h mk. unfold Spec.scored, RadarChart.deref.
    repeat (constructor; [split; by simplify_map_eq|]). constructor.
  - repeat (constructor; [by apply Qle_bool_imp_le|]). constructor.
  - (vm_compute; reflexivity).
Defined.

(** ** The scorers: empty responses and the order of the articles *)

Section EmptyAndOrder.

Lemma unique_source_count_nil : unique_source_count [] = 0%nat.
Proof. unfold unique_source_count. cbn [List.filter fmap list_fmap list_to_set]. apply size_empty. Qed.

(** One article is worth 0.4 points of volume, and no component is
    negative. *)
Lemma standard_score_floor n u r :
  (1 ≤ n)%nat →
  4 # 10 <= round2 (py_min 40 (of_nat n / 100 * 40)
                    + py_min 30 (of_nat u / 20 * 30)
                    + py_min 30 (of_nat r / 30 * 30)).
Proof.
  intros Hn. apply Qle_trans with (round2 (4 # 10)); [done|]. apply round2_mono.
  pose proof (component_mono 40 100 40 1 n) as Hv.
  assert (Hv' : 4 # 10 <= py_min 40 (of_nat n / 100 * 40)).
  { eapply Qle_trans; [|apply Hv; done]. done. }
  pose proof (py_min_nonneg 30 (of_nat u / 20 * 30)) as Hd.
  pose proof (py_min_nonneg 30 (of_nat r / 30 * 30)) as Hr.
  assert (0 <= py_min 30 (of_nat u / 20 * 30)) by (apply Hd; [done|by apply ratio_nonneg]).
  assert (0 <= py_min 30 (of_nat r / 30 * 30)) by (apply Hr; [done|by apply ratio_nonneg]).
  set (v := py_min 40 _) in *. set (d := py_min 30 (_ / 20 * 30)) in *.
  set (c := py_min 30 (_ / 30 * 30)) in *. clearbody v d c. lra.
Qed.

Lemma standard_score_nil :
  round2 (py_min 40 (of_nat 0 / 100 * 40) + py_min 30 (of_nat 0 / 20 * 30)
          + py_min 30 (of_nat 0 / 30 * 30)) = 0.
Proof. reflexivity. Qed.

Lemma filter_perm {A} (p : A → bool) (l l' : list A) :
  l ≡ₚ l' → List.filter p l ≡ₚ List.filter p l'.
Proof.
  induction 1 as [|x l l' _ IH|x y l|l l' l'' _ IH1 _ IH2]; cbn [List.filter].
  - done.
  - destruct (p x); [by constructor|done].
  - destruct (p x), (p y); try done. apply perm_swap.
  - by etransitivity.
Qed.

Lemma unique_source_count_perm arts arts' :
  arts ≡ₚ arts' → unique_source_count arts = unique_source_count arts'.
Proof.
  intros H. unfold unique_source_count.
  f_equal. apply list_to_set_perm_L. by apply fmap_Permutation, filter_perm.
Qed.

Lemma sum_ones_perm {A} (p : A → bool) (l l' : list A) :
  l ≡ₚ l' → sum_ones p l = sum_ones p l'.
Proof.
  intros H. rewrite !sum_ones_length. by apply Permutation_length, filter_perm.
Qed.

Lemma sum_list_perm (l l' : list nat) : l ≡ₚ l' → sum_list l = sum_list l'.
Proof.
  induction 1 as [|x l l' _ IH|x y l|l l' l'' _ IH1 _ IH2]; cbn; lia.
Qed.

Lemma keyword_count_perm arts arts' :
  arts ≡ₚ arts' → SportsData.keyword_count arts = SportsData.keyword_count arts'.
Proof.
  intros H. unfold SportsData.keyword_count. rewrite !foldl_add_sum.
  f_equal. by apply sum_list_perm, fmap_Permutation.
Qed.

End EmptyAndOrder.

(** A response with an empty article list scores 0, and a response with
    one article or more scores 0.4 at least: a standard score of 0 means
    that no article came back. *)
Theorem standard_score_zero_iff_no_article (fromisoformat : string → pyresult datetime)
    (arts : list article) (total : option Z) (now_us : Z) :
  let data := Some (mknews (Some arts) total) in
  (arts = [] ∧ PoliticsData.calculate_pulse_score fromisoformat data now_us = 0
   ∧ TechData.calculate_pulse_score fromisoformat data now_us = 0
   ∧ EnvironmentData.calculate_pulse_score fromisoformat data now_us = 0)
  ∨ (arts ≠ [] ∧ 4 # 10 <= PoliticsData.calculate_pulse_score fromisoformat data now_us
     ∧ 4 # 10 <= TechData.calculate_pulse_score fromisoformat data now_us
     ∧ 4 # 10 <= EnvironmentData.calculate_pulse_score fromisoformat data now_us).
Proof.
  intros data. subst data.
  unfold PoliticsData.calculate_pulse_score, TechData.calculate_pulse_score,
    EnvironmentData.calculate_pulse_score. cbn [articles].
  destruct arts as [|a arts].
  - left. split; [done|].
    rewrite unique_source_count_nil. cbn [sum_ones List.filter fmap list_fmap sum_list sum_list_with length].
    repeat split; apply standard_score_nil.
  - right. split; [done|].
    repeat split; apply standard_score_floor; cbn [length]; lia.
Qed.

(** The score does not depend on the order of the articles in the
    response. *)
Theorem pulse_score_order_independent (fromisoformat : string → pyresult datetime)
    (float_pow : Q → Q → Q) (arts arts' : list article) (total : option Z) (now_us : Z) :
  arts ≡ₚ arts' →
  PoliticsData.calculate_pulse_score fromisoformat (Some (mknews (Some arts) total)) now_us
  = PoliticsData.calculate_pulse_score fromisoformat (Some (mknews (Some arts') total)) now_us
  ∧ TechData.calculate_pulse_score fromisoformat (Some (mknews (Some arts) total)) now_us
    = TechData.calculate_pulse_score fromisoformat (Some (mknews (Some arts') total)) now_us
  ∧ EnvironmentData.calculate_pulse_score fromisoformat (Some (mknews (Some arts) total)) now_us
    = EnvironmentData.calculate_pulse_score fromisoformat (Some (mknews (Some arts') total)) now_us
  ∧ SportsData.calculate_pulse_score fromisoformat float_pow
      (Some (mknews (Some arts) total)) now_us
    = SportsData.calculate_pulse_score fromisoformat float_pow
        (Some (mknews (Some arts') total)) now_us.
Proof.
  intros Hperm.
  unfold PoliticsData.calculate_pulse_score, TechData.calculate_pulse_score,
    EnvironmentData.calculate_pulse_score, SportsData.calculate_pulse_score.
  cbn [articles].
  rewrite (Permutation_length Hperm), (unique_source_count_perm _ _ Hperm),
    (keyword_count_perm _ _ Hperm).
  rewrite (sum_ones_perm
             (λ a, PoliticsData._is_recent fromisoformat (publishedAt a) (datetime_now now_us))
             _ _ Hperm).
  rewrite (sum_ones_perm
             (λ a, TechData._is_recent fromisoformat (publishedAt a) (datetime_now now_us))
             _ _ Hperm).
  rewrite (sum_ones_perm
             (λ a, EnvironmentData._is_recent fromisoformat (publishedAt a) (datetime_now now_us))
             _ _ Hperm).
  rewrite (sum_ones_perm
             (λ a, SportsData._is_recent fromisoformat (publishedAt a) (datetime_now now_us))
             _ _ Hperm).
  done.
Qed.

(** Two articles, in the two orders. *)
Lemma pulse_score_order_independent_witness :
  let a := mkarticle (Some "Championship game tonight"%string)
             (Some {[ "name"%string := Some "ESPN"%string ]})
             (Some "2024-01-15T11:40:00"%string) in
  let b := mkarticle (Some "Budget vote"%string) None None in
  let now_us := 63840916800000000%Z in
  PoliticsData.calculate_pulse_score iso_basic (Some (mknews (Some [a; b]) None)) now_us
  = PoliticsData.calculate_pulse_score iso_basic (Some (mknews (Some [b; a]) None)) now_us
  ∧ TechData.calculate_pulse_score iso_basic (Some (mknews (Some [a; b]) None)) now_us
    = TechData.calculate_pulse_score iso_basic (Some (mknews (Some [b; a]) None)) now_us
  ∧ EnvironmentData.calculate_pulse_score iso_basic (Some (mknews (Some [a; b]) None)) now_us
    = EnvironmentData.calculate_pulse_score iso_basic (Some (mknews (Some [b; a]) None)) now_us
  ∧ SportsData.calculate_pulse_score iso_basic pow_floor
      (Some (mknews (Some [a; b]) None)) now_us
    = SportsData.calculate_pulse_score iso_basic pow_floor
        (Some (mknews (Some [b; a]) None)) now_us.
Proof.
  intros a b now_us.
  apply (pulse_score_order_independent iso_basic pow_floor [a; b] [b; a] None now_us).
  apply perm_swap.
Defined.

(** ** From the collected list to the chart *)

Section Pipeline.

Import RadarChart.

Lemma store_all_spec ds : ∀ h : gmap nat (gmap string pyval),
  h ⊆ (store_all h ds).2
  ∧ Forall2 (λ l d, (store_all h ds).2 !! l = Some d) (store_all h ds).1 ds.
Proof.
  induction ds as [|d ds IH]; intros h; cbn [store_all].
  - split; [done|constructor].
  - destruct (alloc_fresh h d) as (_ & Hsub & Hnew).
    destruct (alloc h d) as [l h1]. cbn [fst snd] in Hsub, Hnew.
    destruct (IH h1) as [Hsub' Hrest].
    destruct (store_all h1 ds) as [ls h2]. cbn [fst snd] in *.
    split; [by transitivity h1|].
    constructor; [|done]. by apply (lookup_weaken _ _ _ _ Hnew Hsub').
Qed.

(** A dictionary of the collected list names its category and carries
    a score between 0 and 100. *)
Abbreviation entry_ok c d :=
  (d !! "category"%string = Some (VStr c)
   ∧ ∃ q, d !! "pulse_score"%string = Some (VNum (PyFloat.Fin q)) ∧ 0 <= q <= 100).

Lemma Forall2_and_l {A B} (P : A → Prop) (R : A → B → Prop) l k :
  Forall P l → Forall2 R l k → Forall2 (λ x y, P x ∧ R x y) l k.
Proof.
  intros HP HR. induction HR; inversion HP; subst; constructor; auto.
Qed.

Lemma stored_scores (h0 : gmap nat (gmap string pyval)) cs ds : ∀ ls,
  Forall2 (λ c d, entry_ok c d) cs ds →
  Forall2 (λ l d, h0 !! l = Some d) ls ds →
  ∃ qs, Forall2 (λ l q, Spec.scored h0 l (PyFloat.Fin q)) ls qs
        ∧ Forall (λ q, 0 <= q <= 100) qs
        ∧ Forall2 (λ c l, deref h0 l !! "category"%string = Some (VStr c)) cs ls.
Proof.
  intros ls Hcs. revert ls.
  induction Hcs as [|c d cs ds [Hc (q & Hq & Hrange)] _ IH]; intros ls Hls.
  - inversion Hls; subst. exists []. repeat split; constructor.
  - inversion Hls as [|l ? ls' ? Hl Hls']; subst.
    destruct (IH ls' Hls') as (qs & H1 & H2 & H3).
    exists (q :: qs). pose proof (deref_lookup _ _ _ Hl) as E.
    split; [|split]; constructor; try done.
    + unfold Spec.scored. rewrite E. done.
    + by rewrite E.
Qed.

(** Normalising a stored list of such dictionaries succeeds, and the
    new dictionaries are such dictionaries again. *)
Lemma stored_list_normalizes cs ds (h : gmap nat (gmap string pyval)) :
  Forall2 (λ c d, entry_ok c d) cs ds →
  ∃ out h',
    normalize_scores_relative (store_all h ds).2 (store_all h ds).1 = Ok (out, h')
    ∧ Forall2 (λ c l', entry_ok c (deref h' l')) cs out.
Proof.
  intros Hcs. destruct (store_all_spec ds h) as [_ Hstored].
  destruct (store_all h ds) as [ls h0]. cbn [fst snd] in *.
  destruct (stored_scores h0 cs ds ls Hcs Hstored) as (qs & Hscored & Hrange & Hcat).
  destruct ls as [|l0 ls0] eqn:Els.
  { inversion Hcat; subst. exists [], h0. split; [done|constructor]. }
  rewrite <- Els in *.
  assert (Hne : ls ≠ []) by by rewrite Els.
  assert (Hne' : qs ≠ []) by (intros ->; inversion Hscored; by subst).
  destruct (normalize_scores_relative_spec h0 ls (PyFloat.Fin <$> qs) Hne)
    as (out & h' & Hrun & _ & Hout).
  { by apply Forall2_fmap_r. }
  destruct (mean_nonneg qs Hne') as (m & Hm & Hm0 & _).
  { eapply Forall_impl; [exact Hrange|]. by intros q [H0 _]. }
  exists out, h'. split; [done|]. rewrite Hm in Hout.
  assert (Hls : Forall (λ l, ∃ q, Spec.scored h0 l (PyFloat.Fin q) ∧ 0 <= q <= 100) ls).
  { clear Hout Hrun Hne Hne' Hcat Hstored Els Hm.
    induction Hscored; inversion Hrange; subst; constructor; eauto. }
  eapply Forall2_trans; [|exact Hcat|exact (Forall2_and_l _ _ _ _ Hls Hout)].
  intros c l l' Hc [(q & [_ Hs] & Hq) (x & Hx & _ & Hnew)].
  rewrite Hx in Hs. injection Hs as ->.
  rewrite (deref_lookup _ _ _ Hnew).
  split.
  - by rewrite normalized_dict_other.
  - destruct (new_score_bounded q m Hm0 Hq) as (r & Hr & Hr').
    exists (round2 r). rewrite normalized_dict_pulse, Hr.
    split; [done|]. by apply round2_range.
Qed.

Variable fromisoformat : string → pyresult datetime.
Variable isoformat : datetime → string.
Variable strptime : string → pyresult datetime.
Variable float_pow : Q → Q → Q.
Variable api_key : option string.
Variable requests_get : string → Z → pyresult news_data.
Variable requests_get_range : string → datetime → datetime → pyresult news_data.
Variable clock : string → nat → Z.
Variable fetch_absent : string → Z → pyresult news_data.
Variable days_back : Z.
Variable start_date end_date : option string.

Hypothesis float_pow_nonneg : ∀ x y, 0 <= x → 0 <= float_pow x y.

Lemma placeholder_ok c : entry_ok c (placeholder c).
Proof.
  unfold placeholder, VInt. split; [by simplify_map_eq|].
  exists (inject_Z 0). split; [by simplify_map_eq|done].
Qed.

Lemma standard_score_range data now_us :
  0 <= PoliticsData.calculate_pulse_score fromisoformat data now_us <= 100
  ∧ 0 <= TechData.calculate_pulse_score fromisoformat data now_us <= 100
  ∧ 0 <= EnvironmentData.calculate_pulse_score fromisoformat data now_us <= 100.
Proof. split; [|split]; apply standard_score_value. Qed.

Ltac scored_case :=
  match goal with
  | |- context [mbind _ ?m] => destruct m as [data|e]; [|apply placeholder_ok]
  end;
  cbn [mbind pyresult_bind Spec.category_entry];
  match goal with
  | |- context [VNum (PyFloat.Fin ?s)] =>
      let Hs := fresh "Hs" in
      let x := fresh "x" in
      assert (Hs : 0 <= s <= 100)
        by first [ exact (proj1 (standard_score_range _ _))
                 | exact (proj1 (proj2 (standard_score_range _ _)))
                 | exact (proj2 (proj2 (standard_score_range _ _)))
                 | exact (proj1 (sports_score_value _ _ _ _ float_pow_nonneg)) ];
      set (x := s) in *; clearbody x;
      (split; [by simplify_map_eq|]);
      exists x; (split; [by simplify_map_eq|done])
  end.

Lemma entry_scored category :
  category ∈ pullers →
  entry_ok category
    (Spec.category_entry
       (get_pulse_data fromisoformat isoformat strptime float_pow api_key requests_get
          requests_get_range clock fetch_absent category None days_back
          start_date end_date) category).
Proof.
  intros Hin. unfold pullers in Hin.
  repeat (apply elem_of_cons in Hin as [->|Hin]); [..|by apply elem_of_nil in Hin];
    unfold get_pulse_data; cbn [String.eqb Ascii.eqb Bool.eqb];
    unfold SportsData.get_sports_pulse, PoliticsData.get_politics_pulse,
      TechData.get_tech_pulse, EnvironmentData.get_environment_pulse,
      StandardProfile.get_pulse; scored_case.
Qed.

Lemma collected_scored :
  Forall2 (λ c d, entry_ok c d) pullers
    (collect_all_data fromisoformat isoformat strptime float_pow api_key requests_get
       requests_get_range clock fetch_absent days_back end_date start_date).
Proof.
  rewrite collected_entries. apply Forall2_fmap_r, Forall_Forall2_diag.
  apply Forall_forall. intros c Hc. by apply entry_scored.
Qed.

End Pipeline.

(** Choices 1 and 5 of the menu.  Whatever the requests return or raise,
    the collected list normalises without an exception: the run reaches
    [print_summary] and [create_radar_chart] with eight new
    dictionaries, in the order of the categories, each named after its
    category and with a score between 0 and 100. *)
Theorem menu_single_chart_reaches_display
    (typed : nat → string) (py_int : string → pyresult Z) (py_str : Z → string)
    (fromisoformat : string → pyresult datetime) (isoformat : datetime → string)
    (strptime : string → pyresult datetime) (float_pow : Q → Q → Q)
    (api_key : option string) (requests_get : string → Z → pyresult news_data)
    (requests_get_range : string → datetime → datetime → pyresult news_data)
    (clock : string → nat → Z) (fetch_absent : string → Z → pyresult news_data)
    (print_summary : gmap nat (gmap string pyval) → list nat → pyresult unit)
    (create_radar_chart :
       gmap nat (gmap string pyval) → list nat → string → string → pyresult unit)
    (create_comparison_chart :
       gmap nat (gmap string pyval) → list (string * list nat) → string → pyresult unit)
    (datat : pyresult unit) :
  typed 0%nat = "1"%string ∨ typed 0%nat = "5"%string →
  (∀ x y, 0 <= x → 0 <= float_pow x y) →
  ∃ out h' save_path title_suffix,
    RadarChart.interactive_menu typed py_int py_str
      (λ _, RadarChart.collect_all_data fromisoformat isoformat strptime float_pow
              api_key requests_get requests_get_range clock fetch_absent)
      print_summary create_radar_chart create_comparison_chart datat
    = (print_summary h' out ≫= λ _, create_radar_chart h' out save_path title_suffix)
    ∧ length out = 8%nat
    ∧ Forall2 (λ c l',
         RadarChart.deref h' l' !! "category"%string = Some (VStr c)
         ∧ ∃ q, RadarChart.deref h' l' !! "pulse_score"%string
                = Some (VNum (PyFloat.Fin q))
                ∧ 0 <= q <= 100) RadarChart.pullers out.
Proof.
  intros Hchoice Hpow.
  assert (Hrun : ∀ days_back end_date start_date,
    ∃ out h',
      (let '(pulse_data, h) :=
         RadarChart.store_all ∅
           (RadarChart.collect_all_data fromisoformat isoformat strptime float_pow
              api_key requests_get requests_get_range clock fetch_absent
              days_back end_date start_date) in
       RadarChart.normalize_scores_relative h pulse_data) = Ok (out, h')
      ∧ length out = 8%nat
      ∧ Forall2 (λ c l',
           RadarChart.deref h' l' !! "category"%string = Some (VStr c)
           ∧ ∃ q, RadarChart.deref h' l' !! "pulse_score"%string
                  = Some (VNum (PyFloat.Fin q))
                  ∧ 0 <= q <= 100) RadarChart.pullers out).
  { intros days_back end_date start_date.
    destruct (stored_list_normalizes RadarChart.pullers _ ∅
                (collected_scored fromisoformat isoformat strptime float_pow api_key
                   requests_get requests_get_range clock fetch_absent days_back
                   start_date end_date Hpow))
      as (out & h' & Hnorm & Hout).
    exists out, h'.
    destruct (RadarChart.store_all _ _) as [ls h0]. cbn [fst snd] in Hnorm.
    split; [exact Hnorm|]. split; [|exact Hout].
    by rewrite <- (Forall2_length _ _ _ Hout). }
  unfold RadarChart.interactive_menu.
  destruct Hchoice as [-> | ->]; cbn [String.eqb Ascii.eqb Bool.eqb].
  - destruct (Hrun 7%Z None None) as (out & h' & Hnorm & Hlen & Hout).
    exists out, h', "culture_pulse_radar.png"%string, EmptyString.
    split; [|done].
    destruct (RadarChart.store_all _ _) as [ls h0]. by rewrite Hnorm.
  - destruct (String.eqb (typed 1%nat) "1").
    + destruct (Hrun 1%Z (Some "2026-02-09"%string) (Some "2026-02-09"%string))
        as (out & h' & Hnorm & Hlen & Hout).
      exists out, h'. do 2 eexists. split; [|done].
      destruct (RadarChart.store_all _ _) as [ls h0]. by rewrite Hnorm.
    + destruct (Hrun 1%Z (Some (typed 2%nat)) (Some (typed 2%nat)))
        as (out & h' & Hnorm & Hlen & Hout).
      exists out, h'. do 2 eexists. split; [|done].
      destruct (RadarChart.store_all _ _) as [ls h0]. by rewrite Hnorm.
Qed.

(** A run of choice 1 without an API key and with the four other
    pullers failing: eight placeholders reach the display. *)
Lemma menu_single_chart_reaches_display_witness :
  let print_summary (h : gmap nat (gmap string pyval)) (data : list nat)
    : pyresult unit := Ok tt in
  let create_radar_chart (h : gmap nat (gmap string pyval)) (data : list nat)
      (save_path title_suffix : string) : pyresult unit := Ok tt in
  ∃ out h' save_path title_suffix,
    RadarChart.interactive_menu (λ _, "1"%string) (λ _, Raise ValueError)
      (λ _, EmptyString)
      (λ _, RadarChart.collect_all_data iso_basic (λ _, EmptyString) iso_basic pow_floor
              None (λ _ _, Raise RequestException) (λ _ _ _, Raise RequestException)
              (λ _ _, 0%Z) (λ _ _, Raise RequestException))
      print_summary create_radar_chart (λ _ _ _, Ok tt) (Ok tt)
    = (print_summary h' out ≫= λ _, create_radar_chart h' out save_path title_suffix)
    ∧ length out = 8%nat
    ∧ Forall2 (λ c l',
         RadarChart.deref h' l' !! "category"%string = Some (VStr c)
         ∧ ∃ q, RadarChart.deref h' l' !! "pulse_score"%string
                = Some (VNum (PyFloat.Fin q))
                ∧ 0 <= q <= 100) RadarChart.pullers out.
Proof.
  intros print_summary create_radar_chart.
  apply (menu_single_chart_reaches_display (λ _, "1"%string) (λ _, Raise ValueError)
           (λ _, EmptyString) iso_basic (λ _, EmptyString) iso_basic pow_floor
           None (λ _ _, Raise RequestException) (λ _ _ _, Raise RequestException)
           (λ _ _, 0%Z) (λ _ _, Raise RequestException)
           print_summary create_radar_chart (λ _ _ _, Ok tt) (Ok tt)).
  - by left.
  - intros x y _. apply pow_floor_nonneg.
Defined.

(** The first turn of the loop of choice 3 reads [data] before any
    assignment. *)
Lemma compare_step_unbound (typed : nat → string) (py_int : string → pyresult Z)
    (py_str : Z → string)
    (collect : nat → Z → option string → option string → list (gmap string pyval))
    (h : gmap nat (gmap string pyval)) (datasets : list (string * list nat)) (i : nat) :
  RadarChart.compare_step typed py_int py_str collect (h, None, datasets) i
  = (RadarChart.int_or py_int (typed (2 + 2 * i)%nat) (7 * (Z.of_nat i + 1))%Z
     ≫= λ _, Raise UnboundLocalError).
Proof.
  unfold RadarChart.compare_step.
  by destruct (RadarChart.int_or py_int _ _).
Qed.

(** Choices 2, 3 and 4 of the menu never draw a chart.  Each one
    normalises the variable that holds the collected list before the
    first collection has assigned it, so the run raises, and it raises
    the same exception whatever collection and display would do: the
    [ValueError] of a number typed wrongly, or else
    [UnboundLocalError]. *)
Theorem menu_choices_2_3_4_raise (typed : nat → string) (py_int : string → pyresult Z) :
  typed 0%nat ∈ ["2"; "3"; "4"]%string →
  ∃ e,
    (e = UnboundLocalError ∨ ∃ s, py_int s = Raise e)
    ∧ ∀ py_str collect print_summary create_radar_chart create_comparison_chart datat,
        RadarChart.interactive_menu typed py_int py_str collect print_summary
          create_radar_chart create_comparison_chart datat = Raise e.
Proof.
  intros Hin.
  assert (Hint : ∀ s d, (∃ n, RadarChart.int_or py_int s d = Ok n)
                        ∨ (∃ e, RadarChart.int_or py_int s d = Raise e ∧ py_int s = Raise e)).
  { intros s d. unfold RadarChart.int_or.
    destruct (bool_decide (s = EmptyString)); [left; by eexists|].
    destruct (py_int s) as [n|e]; [left|right]; by eexists. }
  repeat (apply elem_of_cons in Hin as [Hc|Hin]); [..|by apply elem_of_nil in Hin].
  - destruct (Hint (typed 1%nat) 7%Z) as [[n Hn]|(e & He & Hs)].
    + exists UnboundLocalError. split; [by left|]. intros.
      unfold RadarChart.interactive_menu. rewrite Hc.
      cbn [String.eqb Ascii.eqb Bool.eqb]. by rewrite Hn.
    + exists e. split; [right; by eexists|]. intros.
      unfold RadarChart.interactive_menu. rewrite Hc.
      cbn [String.eqb Ascii.eqb Bool.eqb]. by rewrite He.
  - destruct (Hint (typed 1%nat) 2%Z) as [[n Hn]|(e & He & Hs)].
    + assert (Hseq : ∃ k, Z.to_nat (Z.min 5 (Z.max 2 n)) = S k).
      { exists (Nat.pred (Z.to_nat (Z.min 5 (Z.max 2 n)))). lia. }
      destruct Hseq as [k Hk].
      destruct (Hint (typed (2 + 2 * 0)%nat) (7 * (Z.of_nat 0 + 1))%Z)
        as [[d Hd]|(e & He & Hs)].
      * exists UnboundLocalError. split; [by left|]. intros.
        unfold RadarChart.interactive_menu. rewrite Hc.
        cbn [String.eqb Ascii.eqb Bool.eqb]. rewrite Hn, bind_Ok, Hk.
        cbn [seq RadarChart.for_each]. rewrite compare_step_unbound.
        by rewrite Hd.
      * exists e. split; [right; by eexists|]. intros.
        unfold RadarChart.interactive_menu. rewrite Hc.
        cbn [String.eqb Ascii.eqb Bool.eqb]. rewrite Hn, bind_Ok, Hk.
        cbn [seq RadarChart.for_each]. rewrite compare_step_unbound.
        by rewrite He.
    + exists e. split; [right; by eexists|]. intros.
      unfold RadarChart.interactive_menu. rewrite Hc.
      cbn [String.eqb Ascii.eqb Bool.eqb]. by rewrite He.
  - exists UnboundLocalError. split; [by left|]. intros.
    unfold RadarChart.interactive_menu. rewrite Hc. reflexivity.
Qed.

(** Choice 4 with nothing else typed. *)
Lemma menu_choices_2_3_4_raise_witness :
  ∃ e,
    (e = UnboundLocalError ∨ ∃ s, (λ _ : string, @Raise Z ValueError) s = Raise e)
    ∧ ∀ py_str collect print_summary create_radar_chart create_comparison_chart datat,
        RadarChart.interactive_menu (λ n, if Nat.eqb n 0 then "4" else "")%string
          (λ _, Raise ValueError) py_str collect print_summary
          create_radar_chart create_comparison_chart datat = Raise e.
Proof.
  apply (menu_choices_2_3_4_raise (λ n, if Nat.eqb n 0 then "4" else "")%string).
  cbn. rewrite !elem_of_cons. auto.
Defined.

(** ** The points of the radar chart *)

Section ChartPoints.

Import RadarChart.

Lemma mapM_getitem (h : gmap nat (gmap string pyval)) (k : string) data :
  Forall (λ l, is_Some (deref h l !! k)) data →
  ∃ vs, mapM (λ l, getitem (deref h l) k) data = Ok vs
        ∧ Forall2 (λ l v, deref h l !! k = Some v) data vs.
Proof.
  induction 1 as [|l data [v Hv] _ (vs & Hvs & IH)].
  - exists []. split; [done|constructor].
  - exists (v :: vs). split; [|by constructor].
    cbn. rewrite Hvs. unfold getitem. by rewrite Hv.
Qed.

Lemma close_polygon_length {A} (xs : list A) :
  length (close_polygon xs) = (length xs + length (take 1 xs))%nat.
Proof. unfold close_polygon. by rewrite length_app. Qed.

Lemma close_polygon_open {A} (xs : list A) :
  take (length (close_polygon xs) - 1) (close_polygon xs) = xs.
Proof.
  rewrite close_polygon_length. unfold close_polygon.
  destruct xs as [|x xs]; [done|].
  replace (take 1 (x :: xs)) with [x] by done.
  replace (length (x :: xs) + length [x] - 1)%nat with (length (x :: xs))
    by (cbn [length]; lia).
  apply take_app_length.
Qed.

Lemma close_polygon_last {A} (xs : list A) :
  last (close_polygon xs) = head xs ∧ head (close_polygon xs) = head xs.
Proof.
  unfold close_polygon. destruct xs as [|x xs]; [done|].
  replace (take 1 (x :: xs)) with [x] by done.
  split; [|done]. by rewrite last_snoc.
Qed.

Lemma linspace_open_length two_pi n : length (linspace_open two_pi n) = n.
Proof. unfold linspace_open. by rewrite length_fmap, length_seq. Qed.

End ChartPoints.

(** [create_radar_chart] on a list whose dictionaries all carry a
    category and a score: the plot gets as many angles as scores, one
    more than there are dictionaries when there is one at least, with
    the first point repeated at the end; the ticks are the angles of the
    axes, one per category label; and the scores plotted are those of
    the dictionaries, in order. *)
Theorem radar_chart_points_closed (two_pi : Q) (h : gmap nat (gmap string pyval))
    (data : list nat) :
  Forall (λ l, is_Some (RadarChart.deref h l !! "category"%string)
               ∧ is_Some (RadarChart.deref h l !! "pulse_score"%string)) data →
  ∃ p, RadarChart.radar_chart_points two_pi h data = Ok p
       ∧ length (RadarChart.scores p) = length (RadarChart.angles p)
       ∧ length (RadarChart.scores p)
         = (length data + (if data is [] then 0 else 1))%nat
       ∧ last (RadarChart.scores p) = head (RadarChart.scores p)
       ∧ last (RadarChart.angles p) = head (RadarChart.angles p)
       ∧ RadarChart.xticks p = RadarChart.linspace_open two_pi (length data)
       ∧ length (RadarChart.xticks p) = length (RadarChart.categories p)
       ∧ Forall2 (λ l v, RadarChart.deref h l !! "category"%string = Some v)
           data (RadarChart.categories p)
       ∧ Forall2 (λ l v, RadarChart.deref h l !! "pulse_score"%string = Some v)
           data (take (length data) (RadarChart.scores p)).
Proof.
  intros Hdata.
  destruct (mapM_getitem h "category" data) as (cs & Hcs & Hcat).
  { eapply Forall_impl; [exact Hdata|]. by intros l [H _]. }
  destruct (mapM_getitem h "pulse_score" data) as (vs & Hvs & Hsc).
  { eapply Forall_impl; [exact Hdata|]. by intros l [_ H]. }
  pose proof (Forall2_length _ _ _ Hcat) as Lc.
  pose proof (Forall2_length _ _ _ Hsc) as Lv.
  unfold RadarChart.radar_chart_points. rewrite Hcs, bind_Ok, Hvs, bind_Ok.
  eexists. split; [reflexivity|].
  cbn [RadarChart.scores RadarChart.angles RadarChart.xticks RadarChart.categories].
  rewrite close_polygon_open, <- Lc.
  destruct (close_polygon_last vs) as [Hl1 Hh1].
  destruct (close_polygon_last (RadarChart.linspace_open two_pi (length data)))
    as [Hl2 Hh2].
  rewrite !close_polygon_length, linspace_open_length.
  repeat split; try done.
  - by rewrite !length_take, linspace_open_length, Lv.
  - rewrite length_take, <- Lv. by destruct data.
  - by rewrite Hl1, Hh1.
  - by rewrite Hl2, Hh2.
  - unfold RadarChart.close_polygon. by rewrite Lv, take_app_length.
Qed.

(** The eight placeholders of a run in which every category failed. *)
Lemma radar_chart_points_closed_witness :
  let h : gmap nat (gmap string pyval) :=
    list_to_map (zip (seq 0 8) (RadarChart.placeholder <$> RadarChart.pullers)) in
  let data := seq 0 8 in
  ∃ p, RadarChart.radar_chart_points (710 # 113) h data = Ok p
       ∧ length (RadarChart.scores p) = length (RadarChart.angles p)
       ∧ length (RadarChart.scores p)
         = (length data + (if data is [] then 0 else 1))%nat
       ∧ last (RadarChart.scores p) = head (RadarChart.scores p)
       ∧ last (RadarChart.angles p) = head (RadarChart.angles p)
       ∧ RadarChart.xticks p = RadarChart.linspace_open (710 # 113) (length data)
       ∧ length (RadarChart.xticks p) = length (RadarChart.categories p)
       ∧ Forall2 (λ l v, RadarChart.deref h l !! "category"%string = Some v)
           data (RadarChart.categories p)
       ∧ Forall2 (λ l v, RadarChart.deref h l !! "pulse_score"%string = Some v)
           data (take (length data) (RadarChart.scores p)).
Proof.
  intros h data.
  apply (radar_chart_points_closed (710 # 113) h data).
  subst h data. unfold RadarChart.deref, RadarChart.pullers, RadarChart.placeholder.
  cbn [seq fmap list_fmap zip zip_with list_to_map foldr uncurry fst snd].
  repeat (constructor; [split; by simplify_map_eq|]). constructor.
Defined.

(** ** The score formulas *)

Section CountedSources.

(** An article whose source gives a name has a source object. *)
Lemma source_named_truthy a s : source_name a = Some s → source_truthy a = true.
Proof.
  unfold source_name, source_truthy. destruct (source a) as [d|]; [|done].
  intros H. apply negb_true_iff, bool_decide_eq_false. intros ->.
  by rewrite lookup_empty in H.
Qed.

Lemma name_of_Some a s :
  Spec.name_of a = Some s ↔ source_name a = Some s ∧ s ≠ EmptyString.
Proof.
  unfold Spec.name_of. destruct (source_name a) as [t|].
  - destruct (bool_decide_reflect (t = EmptyString)) as [->|Hne]; split.
    + done.
    + intros [[= <-] Hs]. by destruct Hs.
    + intros [= <-]. by split.
    + by intros [[= <-] _].
  - split; [done|]. by intros [? _].
Qed.

Lemma elem_of_counted_names arts (x : option string) :
  x ∈ source_name <$> List.filter source_truthy arts
  ↔ ∃ a, a ∈ arts ∧ source_truthy a = true ∧ source_name a = x.
Proof.
  rewrite list_elem_of_fmap. split.
  - intros (a & -> & Ha). apply list_elem_of_In, filter_In in Ha as [Ha Ht].
    exists a. by rewrite list_elem_of_In.
  - intros (a & Ha & Ht & <-). exists a. split; [done|].
    apply list_elem_of_In, filter_In. by rewrite <- list_elem_of_In.
Qed.

Lemma existsb_elem_of {A} (p : A → bool) (l : list A) :
  existsb p l = true ↔ ∃ a, a ∈ l ∧ p a = true.
Proof.
  rewrite existsb_exists. by setoid_rewrite list_elem_of_In.
Qed.

(** The set the scorer builds, split into the names, the absent name
    and the empty name. *)
Lemma counted_names_split arts :
  list_to_set (C := gset (option string))
    (source_name <$> List.filter source_truthy arts)
  = list_to_set (Some <$> remove_dups (omap Spec.name_of arts))
    ∪ ((if existsb Spec.nameless arts then {[ None ]} else ∅)
       ∪ (if existsb Spec.empty_named arts then {[ Some EmptyString ]} else ∅)).
Proof.
  apply set_eq. intros x.
  rewrite !elem_of_union, !elem_of_list_to_set, elem_of_counted_names,
    list_elem_of_fmap.
  split.
  - intros (a & Ha & Ht & Hx). destruct x as [s|].
    + destruct (decide (s = EmptyString)) as [->|Hne].
      * right. right.
        assert (He : existsb Spec.empty_named arts = true).
        { apply existsb_elem_of. exists a. split; [done|].
          unfold Spec.empty_named. by apply bool_decide_eq_true. }
        rewrite He. by apply elem_of_singleton.
      * left. exists s. split; [done|].
        apply elem_of_remove_dups, list_elem_of_omap. exists a.
        split; [done|]. by apply name_of_Some.
    + right. left.
      assert (He : existsb Spec.nameless arts = true).
      { apply existsb_elem_of. exists a. split; [done|].
        unfold Spec.nameless. rewrite Ht. cbn. by apply bool_decide_eq_true. }
      rewrite He. by apply elem_of_singleton.
  - intros [(s & -> & Hs)|[Hn|He]].
    + apply elem_of_remove_dups, list_elem_of_omap in Hs as (a & Ha & Hs).
      apply name_of_Some in Hs as [Hs _].
      exists a. split; [done|]. split; [|done]. by apply (source_named_truthy a s).
    + destruct (existsb Spec.nameless arts) eqn:E; [|by apply elem_of_empty in Hn].
      apply elem_of_singleton in Hn as ->.
      apply existsb_elem_of in E as (a & Ha & Hp).
      unfold Spec.nameless in Hp. apply andb_true_iff in Hp as [Ht Hp].
      apply bool_decide_eq_true in Hp. by exists a.
    + destruct (existsb Spec.empty_named arts) eqn:E; [|by apply elem_of_empty in He].
      apply elem_of_singleton in He as ->.
      apply existsb_elem_of in E as (a & Ha & Hp).
      unfold Spec.empty_named in Hp. apply bool_decide_eq_true in Hp.
      exists a. split; [done|]. split; [|done].
      by apply (source_named_truthy a EmptyString).
Qed.

Lemma size_optional_singleton (b : bool) (x : option string) :
  size (if b then {[ x ]} else ∅ : gset (option string)) = if b then 1%nat else 0%nat.
Proof. destruct b; [apply size_singleton | apply size_empty]. Qed.

(** The scorer's count is the number of names, plus one for an absent
    name and one for an empty name. *)
Lemma unique_source_count_counted arts :
  unique_source_count arts = Spec.counted_sources arts.
Proof.
  unfold unique_source_count, Spec.counted_sources, Spec.named_sources.
  rewrite counted_names_split, !size_union, !size_optional_singleton.
  - rewrite size_list_to_set, length_fmap; [lia|].
    apply NoDup_fmap_2; [apply _|apply NoDup_remove_dups].
  - apply elem_of_disjoint. intros x Hn He.
    destruct (existsb Spec.nameless arts); [|by apply elem_of_empty in Hn].
    destruct (existsb Spec.empty_named arts); [|by apply elem_of_empty in He].
    apply elem_of_singleton in Hn, He. congruence.
  - apply elem_of_disjoint. intros x Hx Hrest.
    apply elem_of_list_to_set, list_elem_of_fmap in Hx as (s & -> & Hs).
    apply elem_of_remove_dups, list_elem_of_omap in Hs as (a & _ & Hs).
    apply name_of_Some in Hs as [_ Hne].
    apply elem_of_union in Hrest as [Hn|He].
    + destruct (existsb Spec.nameless arts); [|by apply elem_of_empty in Hn].
      by apply elem_of_singleton in Hn.
    + destruct (existsb Spec.empty_named arts); [|by apply elem_of_empty in He].
      apply elem_of_singleton in He. congruence.
Qed.

End CountedSources.

Section RecentArticles.

Variable fromisoformat : string → pyresult datetime.

(** On a timestamp without offset the recency test of the scorers is
    the one of the spec. *)
Lemma is_recent_spec tz now_us a :
  Spec.offset_free fromisoformat a →
  PoliticsData._is_recent fromisoformat (publishedAt a) (datetime_now now_us)
  = Spec.recent fromisoformat tz now_us a.
Proof.
  intros Hfree. unfold PoliticsData._is_recent, Spec.recent, str_falsy.
  destruct (publishedAt a) as [s|] eqn:Ea; [|done].
  destruct (bool_decide (s = EmptyString)); [done|].
  cbn [default from_option id].
  pose proof (Hfree s) as Hs. unfold Spec.parse_timestamp in *.
  destruct (fromisoformat (PyStr.replace "Z" "+00:00" s)) as [[w [off|]]|e]; [|done..].
  by destruct (Hs w off Ea).
Qed.

Lemma recent_articles_counted tz now_us arts :
  Forall (Spec.offset_free fromisoformat) arts →
  sum_ones (λ a, PoliticsData._is_recent fromisoformat (publishedAt a)
                   (datetime_now now_us)) arts
  = Spec.recent_articles fromisoformat tz now_us arts.
Proof.
  intros Hfree. rewrite sum_ones_length. unfold Spec.recent_articles.
  induction Hfree as [|a arts Ha _ IH]; [done|].
  cbn [List.filter]. rewrite (is_recent_spec tz now_us a Ha).
  destruct (Spec.recent fromisoformat tz now_us a); cbn [length]; by rewrite IH.
Qed.

End RecentArticles.

(** C1, as amended. Under the standard profile, the score of an article
    set whose timestamps carry no offset is
    [round(min(40, n/100*40) + min(30, u/20*30) + min(30, r/30*30), 2)]
    for its number of articles [n], its number [u] of distinct source
    names, an absent and an empty name of an article with a source
    object counting as one name each, and its number [r] of articles
    whose timestamp is present, parseable and less than one whole day
    older than now; an absent response, a response without articles and
    an empty list of articles score exactly [0]. *)
Theorem standard_pulse_score_formula (fromisoformat : string → pyresult datetime)
    (arts : list article) (total : option Z) (now_us tz : Z) :
  Forall (Spec.offset_free fromisoformat) arts →
  let data := Some (mknews (Some arts) total) in
  let formula :=
    Spec.standard_score (length arts) (Spec.counted_sources arts)
      (Spec.recent_articles fromisoformat tz now_us arts) in
  (PoliticsData.calculate_pulse_score fromisoformat data now_us = formula
   ∧ TechData.calculate_pulse_score fromisoformat data now_us = formula
   ∧ EnvironmentData.calculate_pulse_score fromisoformat data now_us = formula)
  ∧ (PoliticsData.calculate_pulse_score fromisoformat None now_us = 0
     ∧ PoliticsData.calculate_pulse_score fromisoformat
         (Some (mknews None total)) now_us = 0
     ∧ PoliticsData.calculate_pulse_score fromisoformat
         (Some (mknews (Some []) total)) now_us = 0
     ∧ TechData.calculate_pulse_score fromisoformat None now_us = 0
     ∧ TechData.calculate_pulse_score fromisoformat
         (Some (mknews None total)) now_us = 0
     ∧ TechData.calculate_pulse_score fromisoformat
         (Some (mknews (Some []) total)) now_us = 0
     ∧ EnvironmentData.calculate_pulse_score fromisoformat None now_us = 0
     ∧ EnvironmentData.calculate_pulse_score fromisoformat
         (Some (mknews None total)) now_us = 0
     ∧ EnvironmentData.calculate_pulse_score fromisoformat
         (Some (mknews (Some []) total)) now_us = 0).
Proof.
  intros Hfree data formula. split; [|repeat split; reflexivity].
  pose proof (recent_articles_counted fromisoformat tz now_us arts Hfree) as Hr.
  destruct (is_recent_copies fromisoformat) as (Ht & He & _).
  subst data formula.
  unfold PoliticsData.calculate_pulse_score, TechData.calculate_pulse_score,
    EnvironmentData.calculate_pulse_score, Spec.standard_score.
  cbn [articles].
  rewrite Ht, He, Hr, !py_min_Qmin, unique_source_count_counted.
  done.
Qed.

(** C1 on three articles: two of one source, one of them an hour old,
    and one whose source object gives no name. *)
Lemma standard_pulse_score_formula_witness :
  let now_us := 63840916800000000%Z in
  let arts :=
    [mkarticle (Some "Budget vote"%string)
       (Some {[ "name"%string := Some "Reuters"%string ]})
       (Some "2024-01-15T11:00:00"%string);
     mkarticle (Some "Budget vote: reactions"%string)
       (Some {[ "name"%string := Some "Reuters"%string ]})
       (Some "2024-01-13T09:30:00"%string);
     mkarticle None (Some {[ "id"%string := Some "bbc-news"%string ]}) None] in
  let data := Some (mknews (Some arts) (Some 3%Z)) in
  let formula :=
    Spec.standard_score (length arts) (Spec.counted_sources arts)
      (Spec.recent_articles iso_basic 0 now_us arts) in
  (PoliticsData.calculate_pulse_score iso_basic data now_us = formula
   ∧ TechData.calculate_pulse_score iso_basic data now_us = formula
   ∧ EnvironmentData.calculate_pulse_score iso_basic data now_us = formula)
  ∧ (PoliticsData.calculate_pulse_score iso_basic None now_us = 0
     ∧ PoliticsData.calculate_pulse_score iso_basic
         (Some (mknews None (Some 3%Z))) now_us = 0
     ∧ PoliticsData.calculate_pulse_score iso_basic
         (Some (mknews (Some []) (Some 3%Z))) now_us = 0
     ∧ TechData.calculate_pulse_score iso_basic None now_us = 0
     ∧ TechData.calculate_pulse_score iso_basic
         (Some (mknews None (Some 3%Z))) now_us = 0
     ∧ TechData.calculate_pulse_score iso_basic
         (Some (mknews (Some []) (Some 3%Z))) now_us = 0
     ∧ EnvironmentData.calculate_pulse_score iso_basic None now_us = 0
     ∧ EnvironmentData.calculate_pulse_score iso_basic
         (Some (mknews None (Some 3%Z))) now_us = 0
     ∧ EnvironmentData.calculate_pulse_score iso_basic
         (Some (mknews (Some []) (Some 3%Z))) now_us = 0).
Proof.
  intros now_us arts.
  apply (standard_pulse_score_formula iso_basic arts (Some 3%Z) now_us 0).
  repeat constructor; intros s w off [= <-]; vm_compute; discriminate.
Defined.

(** C1 fails as stated, at two articles scored at noon of 2024-01-15.
    The source of the first gives an id and no name: it has no source
    name, and the scorer counts one.  The second was published two hours
    before: it is recent, and the scorer, which cannot subtract its
    timestamp from the clock reading, counts none. *)
Lemma standard_formula_counterexample :
  let now_us := 63840916800000000%Z in
  let unnamed :=
    [mkarticle None (Some {[ "id"%string := Some "bbc-news"%string ]}) None] in
  let stamped := [mkarticle None None (Some "2024-01-15T10:00:00Z"%string)] in
  let score arts :=
    PoliticsData.calculate_pulse_score iso_basic (Some (mknews (Some arts) None)) now_us in
  let formula arts :=
    Spec.standard_score (length arts) (Spec.named_sources arts)
      (Spec.recent_articles iso_basic 0 now_us arts) in
  (Spec.named_sources unnamed = 0%nat
   ∧ score unnamed == 1.9 ∧ formula unnamed == 0.4)
  ∧ (Spec.recent_articles iso_basic 0 now_us stamped = 1%nat
     ∧ score stamped == 0.4 ∧ formula stamped == 1.4)
  ∧ score unnamed ≠ formula unnamed
  ∧ score stamped ≠ formula stamped.
Proof.
  cbv zeta. repeat split; try (vm_compute; reflexivity); vm_compute; discriminate.
Qed.

Section SportsGap.

(** The sports score from the scorer's own counts. *)
Lemma sports_score_counts (fromisoformat : string → pyresult datetime)
    (fp : Q → Q → Q) (arts : list article) (total : option Z) (now_us : Z) :
  SportsData.calculate_pulse_score fromisoformat fp
    (Some (mknews (Some arts) total)) now_us
  = Spec.sports_score fp (length arts) (unique_source_count arts)
      (sum_ones (λ a, SportsData._is_recent fromisoformat (publishedAt a)
                        (datetime_now now_us)) arts)
      (SportsData.keyword_count arts).
Proof.
  unfold SportsData.calculate_pulse_score, Spec.sports_score. cbn [articles].
  by rewrite !py_min_Qmin.
Qed.

(** Two sports totals with the same volume term whose other terms
    differ by half a point or more round to different scores, whatever
    the power function. *)
Lemma sports_score_gap (fp : Q → Q → Q) (n u r k u' r' k' : nat) :
  Qmin 25 (of_nat u / 20 * 25) + Qmin 40 (of_nat r / 20 * 40)
    + Qmin 15 (of_nat k / 30 * 15) + (1 # 2)
  <= Qmin 25 (of_nat u' / 20 * 25) + Qmin 40 (of_nat r' / 20 * 40)
     + Qmin 15 (of_nat k' / 30 * 15) →
  Qmin 25 (of_nat u' / 20 * 25) + Qmin 40 (of_nat r' / 20 * 40)
    + Qmin 15 (of_nat k' / 30 * 15) <= 65 →
  Spec.sports_score fp n u r k ≠ Spec.sports_score fp n u' r' k'.
Proof.
  intros Hgap Hcap. unfold Spec.sports_score. apply round2_gap.
  set (v := Qmin 35 (fp (of_nat n / 100) (7 # 10) * 35)).
  assert (Hv : v <= 35) by apply Q.le_min_l.
  set (d := Qmin 25 (of_nat u / 20 * 25)) in *.
  set (c := Qmin 40 (of_nat r / 20 * 40)) in *.
  set (b := Qmin 15 (of_nat k / 30 * 15)) in *.
  set (d' := Qmin 25 (of_nat u' / 20 * 25)) in *.
  set (c' := Qmin 40 (of_nat r' / 20 * 40)) in *.
  set (b' := Qmin 15 (of_nat k' / 30 * 15)) in *.
  clearbody v d c b d' c' b'.
  pose proof (Q.le_min_r 100 (v + d + c + b)) as HmA.
  assert (HmB : Qmin 100 (v + d' + c' + b') == v + d' + c' + b')
    by (apply Q.min_r; lra).
  rewrite HmB. lra.
Qed.

(** The scorer's score is not the formula's at other counts, when the
    counts give terms half a point apart. *)
Lemma sports_counts_gap (fromisoformat : string → pyresult datetime)
    (fp : Q → Q → Q) (arts : list article) (total : option Z) (now_us : Z)
    (n u r k u' r' k' : nat) :
  length arts = n →
  unique_source_count arts = u →
  sum_ones (λ a, SportsData._is_recent fromisoformat (publishedAt a)
                   (datetime_now now_us)) arts = r →
  SportsData.keyword_count arts = k →
  Spec.sports_score fp n u r k ≠ Spec.sports_score fp n u' r' k' →
  SportsData.calculate_pulse_score fromisoformat fp
    (Some (mknews (Some arts) total)) now_us
  ≠ Spec.sports_score fp n u' r' k'.
Proof.
  intros <- <- <- <-. by rewrite sports_score_counts.
Qed.

End SportsGap.

(** C2, as amended. Under the sports profile the score of an article set
    whose timestamps carry no offset is
    [round(min(100, min(35, (n/100)^0.7*35) + min(25, u/20*25)
    + min(40, r/20*40) + min(15, k/30*15)), 2)], where [n] is the number
    of articles, [u] the number of distinct source names, an absent and
    an empty name of an article with a source object counting as one
    name each, [r] the number of articles whose timestamp is present,
    parseable and less than one whole day older than now, and [k] the
    number of pairs of an article and a keyword such that the keyword
    occurs in the lower-cased title: a keyword repeated in one title
    counts once. *)
Theorem sports_pulse_score_formula (fromisoformat : string → pyresult datetime)
    (float_pow : Q → Q → Q) (arts : list article) (total : option Z) (now_us tz : Z) :
  Forall (Spec.offset_free fromisoformat) arts →
  SportsData.calculate_pulse_score fromisoformat float_pow
    (Some (mknews (Some arts) total)) now_us
  = Spec.sports_score float_pow (length arts) (Spec.counted_sources arts)
      (Spec.recent_articles fromisoformat tz now_us arts)
      (Spec.keyword_hits arts).
Proof.
  intros Hfree.
  pose proof (recent_articles_counted fromisoformat tz now_us arts Hfree) as Hr.
  destruct (is_recent_copies fromisoformat) as (_ & _ & Hs).
  rewrite sports_score_counts, Hs, Hr, unique_source_count_counted,
    keyword_count_hits.
  done.
Qed.

(** C2 on two articles of one source, one of them an hour old, with
    three keyword hits between them. *)
Lemma sports_pulse_score_formula_witness :
  let now_us := 63840916800000000%Z in
  let arts :=
    [mkarticle (Some "Playoffs: Lakers win game seven"%string)
       (Some {[ "name"%string := Some "ESPN"%string ]})
       (Some "2024-01-15T11:00:00"%string);
     mkarticle (Some "Transfer news"%string)
       (Some {[ "name"%string := Some "ESPN"%string ]})
       (Some "2024-01-13T09:30:00"%string)] in
  SportsData.calculate_pulse_score iso_basic pow_floor
    (Some (mknews (Some arts) (Some 2%Z))) now_us
  = Spec.sports_score pow_floor (length arts) (Spec.counted_sources arts)
      (Spec.recent_articles iso_basic 0 now_us arts)
      (Spec.keyword_hits arts).
Proof.
  intros now_us arts.
  apply (sports_pulse_score_formula iso_basic pow_floor arts (Some 2%Z) now_us 0).
  repeat constructor; intros s w off [= <-]; vm_compute; discriminate.
Defined.

(** C2 fails as stated, whatever the power function, at three articles
    scored at noon of 2024-01-15.  The title of the first holds two
    occurrences of a keyword, and the scorer counts one.  The source of
    the second gives an id and no name: it has no source name, and the
    scorer counts one.  The third was published two hours before: it is
    recent, and the scorer counts none. *)
Lemma sports_formula_counterexample :
  let now_us := 63840916800000000%Z in
  let repeated := [mkarticle (Some "Lakers win, Celtics win"%string) None None] in
  let unnamed :=
    [mkarticle None (Some {[ "id"%string := Some "bbc-news"%string ]}) None] in
  let stamped := [mkarticle None None (Some "2024-01-15T10:00:00Z"%string)] in
  let formula float_pow arts :=
    Spec.sports_score float_pow (length arts) (Spec.named_sources arts)
      (Spec.recent_articles iso_basic 0 now_us arts)
      (Spec.keyword_occurrences arts) in
  (Spec.keyword_occurrences repeated = 2%nat
   ∧ SportsData.keyword_count repeated = 1%nat
   ∧ ¬ ∃ float_pow : Q → Q → Q,
         SportsData.calculate_pulse_score iso_basic float_pow
           (Some (mknews (Some repeated) None)) now_us
         = formula float_pow repeated)
  ∧ (Spec.named_sources unnamed = 0%nat
     ∧ unique_source_count unnamed = 1%nat
     ∧ ¬ ∃ float_pow : Q → Q → Q,
           SportsData.calculate_pulse_score iso_basic float_pow
             (Some (mknews (Some unnamed) None)) now_us
           = formula float_pow unnamed)
  ∧ (Spec.recent_articles iso_basic 0 now_us stamped = 1%nat
     ∧ SportsData._is_recent iso_basic (Some "2024-01-15T10:00:00Z"%string)
         (datetime_now now_us) = false
     ∧ ¬ ∃ float_pow : Q → Q → Q,
           SportsData.calculate_pulse_score iso_basic float_pow
             (Some (mknews (Some stamped) None)) now_us
           = formula float_pow stamped).
Proof.
  cbv zeta.
  split; [|split]; (split; [vm_compute; reflexivity|]);
    (split; [vm_compute; reflexivity|]); intros [fp H]; revert H.
  - change (Spec.sports_score fp _ _ _ _) with (Spec.sports_score fp 1 0 0 2).
    apply keyword_hit_gap; vm_compute; reflexivity.
  - change (Spec.sports_score fp _ _ _ _) with (Spec.sports_score fp 1 0 0 0).
    apply (sports_counts_gap iso_basic fp _ None _ 1 1 0 0);
      [vm_compute; reflexivity..|].
    apply not_eq_sym, sports_score_gap; vm_compute; congruence.
  - change (Spec.sports_score fp _ _ _ _) with (Spec.sports_score fp 1 0 1 0).
    apply (sports_counts_gap iso_basic fp _ None _ 1 0 0 0);
      [vm_compute; reflexivity..|].
    apply sports_score_gap; vm_compute; congruence.
Qed.
